(** * Frontmatter linters (Zenn / MDX): a shallow embedding and its properties

    The repository holds three scripts that share most of their code:
    - the full Zenn linter (book manifests with the numbered-file fallback,
      duplicate chapter slugs, a test mode), module [ZennLinter];
    - [scripts/lint-zenn.ts], a shorter version of the same script (an
      empty chapter list is an error, no duplicate check, no test mode),
      module [ZennScript];
    - the MDX linter, module [MdxLinter].
    What the two Zenn scripts have word for word in common is in [Zenn];
    the order check and the reordering, common to all three, are in
    [Frontmatter].

    Parsing (gray-matter, js-yaml), globbing and Node's [path] module are
    external libraries: the functions below take what those return. *)

From Stdlib Require Import String Ascii ZArith List Bool Lia Permutation DecimalString.
From stdpp Require Import base list strings gmap sorting.
Import ListNotations.

Local Open Scope Z_scope.

(** ** JavaScript values, as the YAML loader hands them to the scripts *)

Module Js.

#[local] Unset Elimination Schemes.

Inductive jsval : Type :=
| JUndefined
| JNull
| JBool (b : bool)
| JNum (n : Z)
| JStr (s : string)
| JArr (items : list jsval)
| JObj (props : list (string * jsval)).

#[local] Set Elimination Schemes.

(** A plain object as the parsers build it, kept as the association list
    of its own properties in the order of [Object.keys].  That is what the
    object is under names that are neither array indices nor members of
    [Object.prototype] ([plainName] below): there [Object.keys] enumerates
    in insertion order and [in] finds a name exactly when it was set.  An
    array index is enumerated before the other names, by value, and a
    member of [Object.prototype] is found by [in] in every object; a
    statement that would fail on such names excludes them by a
    hypothesis. *)
Definition jsobject : Type := list (string * jsval).

Definition keys (o : jsobject) : list string := map fst o.

(** [k in o] *)
Definition has (k : string) (o : jsobject) : bool :=
  existsb (String.eqb k) (keys o).

(** [o[k]], [None] standing for [undefined] *)
Fixpoint get (k : string) (o : jsobject) : option jsval :=
  match o with
  | [] => None
  | (k', v) :: o' => if String.eqb k k' then Some v else get k o'
  end.

(** [o[k]] as a value *)
Definition getv (k : string) (o : jsobject) : jsval :=
  default JUndefined (get k o).

(** [o[k] = v]: an existing property keeps its place, a new one goes last *)
Fixpoint set (k : string) (v : jsval) (o : jsobject) : jsobject :=
  match o with
  | [] => [(k, v)]
  | (k', v') :: o' =>
      if String.eqb k k' then (k', v) :: o' else (k', v') :: set k v o'
  end.

(** ToBoolean *)
Definition truthy (v : jsval) : bool :=
  match v with
  | JUndefined | JNull => false
  | JBool b => b
  | JNum n => negb (n =? 0)
  | JStr s => negb (String.eqb s EmptyString)
  | JArr _ | JObj _ => true
  end.

(** [typeof v !== 'object'] *)
Definition typeof_not_object (v : jsval) : bool :=
  match v with
  | JNull | JArr _ | JObj _ => false
  | _ => true
  end.


Definition string_of_nat (n : nat) : string :=
  NilZero.string_of_uint (Nat.to_uint n).

(** [k in v] for an arbitrary value: a TypeError ([None]) on primitives; an
    array has its indices and [length]. *)
Definition in_op (k : string) (v : jsval) : option bool :=
  match v with
  | JObj o => Some (has k o)
  | JArr l =>
      Some (existsb (String.eqb k)
              (map string_of_nat (seq 0 (length l)) ++ ["length"%string]))
  | _ => None
  end.

(** [v.k] on a value that is not [null] or [undefined] *)
Definition field (k : string) (v : jsval) : jsval :=
  match v with
  | JObj o => getv k o
  | _ => JUndefined
  end.

(** [Array.prototype.indexOf] on strings: [-1] when absent *)
Fixpoint indexOf (x : string) (l : list string) : Z :=
  match l with
  | [] => -1
  | y :: l' =>
      if String.eqb x y then 0
      else let i := indexOf x l' in if i =? -1 then -1 else i + 1
  end.

(** [arr.every((x, index, arr) => ...)] *)
Definition every {A} (f : A → nat → list A → bool) (arr : list A) : bool :=
  forallb (λ ix, f ix.2 ix.1 arr) (combine (seq 0 (length arr)) arr).

(** [arr.join(sep)] *)
Definition join (sep : string) (l : list string) : string := String.concat sep l.

(** [Object.getOwnPropertyNames(Object.prototype)]: what every plain object
    inherits *)
Definition objectPrototypeNames : list string :=
  ["constructor"; "__defineGetter__"; "__defineSetter__"; "hasOwnProperty";
   "__lookupGetter__"; "__lookupSetter__"; "isPrototypeOf";
   "propertyIsEnumerable"; "toString"; "valueOf"; "__proto__";
   "toLocaleString"]%string.

(** a name written with decimal digits only; the array indices are among
    these names *)
Definition isNumeral (k : string) : bool :=
  negb (String.eqb k EmptyString)
  && forallb (λ c, (48 <=? nat_of_ascii c)%nat && (nat_of_ascii c <=? 57)%nat)
       (list_ascii_of_string k).

(** a name under which a property of a plain object behaves as a binding
    of the association list *)
Definition plainName (k : string) : bool :=
  negb (isNumeral k) && negb (existsb (String.eqb k) objectPrototypeNames).

End Js.

Import Js.

(** ** Configuration *)

Record LintConfig := {
  propertyOrder : list string;
  requiredProperties : list (string * list string);
  bookConfigRequiredProperties : list string;
  contentPattern : string;
  contentTypePatterns : list (string * list string)
}.

(** [obj[key] || []] on a record of string lists *)
Fixpoint lookup_list (key : string) (o : list (string * list string)) : list string :=
  match o with
  | [] => []
  | (k, v) :: o' => if String.eqb key k then v else lookup_list key o'
  end.

(** ** The parts the scripts share verbatim *)

Module Frontmatter.

(** The callback of [currentProps.every(...)] in [lintZennFrontmatter] and
    [lintMdxFrontmatter]. *)
Definition orderCallback (propertyOrder : list string)
    (prop : string) (index : nat) (arr : list string) : bool :=
  if Nat.eqb index 0 then true
  else
    let prevPropIndex :=
      match arr !! (index - 1)%nat with
      | Some prevProp => indexOf prevProp propertyOrder
      | None => -1
      end in
    let currentPropIndex := indexOf prop propertyOrder in
    if (prevPropIndex =? -1) || (currentPropIndex =? -1) then true
    else prevPropIndex <? currentPropIndex.

Definition isInCorrectOrder (propertyOrder currentProps : list string) : bool :=
  every (orderCallback propertyOrder) currentProps.

(** The object built by [sortFrontmatter], under plain names: first the
    properties of [propertyOrder] present in [data], then the others in
    the order of [Object.keys(data)].  (Under other names the object of
    the script is not this list: [prop in sortedData] is true from the
    start of a name that [Object.prototype] has, so the second loop leaves
    out a key of [data] with such a name that the first loop did not copy;
    and an array index is enumerated first, wherever it was set.) *)
Definition sortedData (propertyOrder : list string) (data : jsobject) : jsobject :=
  let sortedData :=
    fold_left (λ sortedData prop,
                 if has prop data then set prop (getv prop data) sortedData
                 else sortedData) propertyOrder [] in
  fold_left (λ sortedData prop,
               if negb (has prop sortedData)
               then set prop (getv prop data) sortedData
               else sortedData) (keys data) sortedData.

(** [k] stands at index [i] of [l], and nowhere before *)
Definition position (l : list string) (k : string) (i : nat) : Prop :=
  l !! i = Some k ∧ ∀ j, (j < i)%nat → l !! j ≠ Some k.

End Frontmatter.

(** ** Regular expressions of the form [/^r$/], tested by derivatives *)

Module Regex.

Inductive regex : Type :=
| Void
| Eps
| Cls (p : ascii → bool)
| Cat (r1 r2 : regex)
| Alt (r1 r2 : regex)
| Star (r : regex).

Fixpoint nullable (r : regex) : bool :=
  match r with
  | Void => false
  | Eps => true
  | Cls _ => false
  | Cat r1 r2 => nullable r1 && nullable r2
  | Alt r1 r2 => nullable r1 || nullable r2
  | Star _ => true
  end.

Fixpoint deriv (c : ascii) (r : regex) : regex :=
  match r with
  | Void => Void
  | Eps => Void
  | Cls p => if p c then Eps else Void
  | Cat r1 r2 =>
      if nullable r1 then Alt (Cat (deriv c r1) r2) (deriv c r2)
      else Cat (deriv c r1) r2
  | Alt r1 r2 => Alt (deriv c r1) (deriv c r2)
  | Star r1 => Cat (deriv c r1) (Star r1)
  end.

Definition matchb (r : regex) (w : list ascii) : bool :=
  nullable (fold_left (λ r c, deriv c r) w r).

(** [/^r$/.test(s)] *)
Definition test (r : regex) (s : string) : bool :=
  matchb r (list_ascii_of_string s).

(** [r+] *)
Definition plus (r : regex) : regex := Cat r (Star r).

(** a literal string *)
Fixpoint lit (w : list ascii) : regex :=
  match w with
  | [] => Eps
  | c :: w' => Cat (Cls (Ascii.eqb c)) (lit w')
  end.

(** [r{n}] and [r{0,n}], and from them [r{m,n}] *)
Fixpoint exactly (n : nat) (r : regex) : regex :=
  match n with
  | O => Eps
  | S n' => Cat r (exactly n' r)
  end.

Fixpoint upto (n : nat) (r : regex) : regex :=
  match n with
  | O => Eps
  | S n' => Alt Eps (Cat r (upto n' r))
  end.

Definition between (m n : nat) (r : regex) : regex :=
  Cat (exactly m r) (upto (n - m) r).

(** The words of a regular expression *)
Inductive matches : regex → list ascii → Prop :=
| MEps : matches Eps []
| MCls p c : p c = true → matches (Cls p) [c]
| MCat r1 r2 w1 w2 : matches r1 w1 → matches r2 w2 → matches (Cat r1 r2) (w1 ++ w2)
| MAltL r1 r2 w : matches r1 w → matches (Alt r1 r2) w
| MAltR r1 r2 w : matches r2 w → matches (Alt r1 r2) w
| MStarNil r : matches (Star r) []
| MStarApp r w1 w2 : matches r w1 → matches (Star r) w2 → matches (Star r) (w1 ++ w2).

(** The character classes of the scripts *)
Definition digit (c : ascii) : bool :=
  (Ascii.leb "0" c && Ascii.leb c "9")%char.

Definition lower (c : ascii) : bool :=
  (Ascii.leb "a" c && Ascii.leb c "z")%char.

(** [[a-z0-9_-]] *)
Definition slugChar (c : ascii) : bool :=
  lower c || digit c || Ascii.eqb c "_" || Ascii.eqb c "-".

End Regex.

(** ** String helpers of the JavaScript runtime *)

Module Str.

(** [s.includes(pat)] *)
Fixpoint includes (pat s : string) : bool :=
  String.prefix pat s ||
  match s with
  | EmptyString => false
  | String _ s' => includes pat s'
  end.

(** [s.endsWith(suffix)] *)
Definition endsWith (suffix s : string) : bool :=
  let n := String.length suffix in
  let m := String.length s in
  (n <=? m)%nat && String.eqb (String.substring (m - n) n s) suffix.

(** [s.replace(/\\/g, '/')] *)
Fixpoint backslashesToSlashes (s : string) : string :=
  match s with
  | EmptyString => EmptyString
  | String c s' =>
      String (if Ascii.eqb c "\" then "/"%char else c) (backslashesToSlashes s')
  end.

(** the longest prefix of [w] inside a character class, and the rest *)
Fixpoint span (p : ascii → bool) (w : list ascii) : list ascii * list ascii :=
  match w with
  | [] => ([], [])
  | c :: w' =>
      if p c then let '(a, b) := span p w' in (c :: a, b) else ([], w)
  end.

(** the double quote character, as a string *)
Definition dquote : string := String (ascii_of_nat 34) EmptyString.

End Str.

(** ** Node's [path] module

    An external library: the scripts are embedded over any implementation
    of the two functions they call.  [basename p ""] stands for the
    one-argument call [path.basename(p)]. *)

Module NodePath.

Class Api := {
  basename : string → string → string;
  extname : string → string
}.

Definition isSlash (c : ascii) : bool := Ascii.eqb c "/".

(** the last component of a path, trailing slashes dropped, reversed *)
Definition lastComponentRev (p : string) : list ascii :=
  let r := (Str.span isSlash (rev (list_ascii_of_string p))).2 in
  (Str.span (λ c, negb (isSlash c)) r).1.

(** POSIX [path.extname]: from the last dot of the last component, unless
    that dot is the component's first character or the component is [..] *)
Definition posixExtname (p : string) : string :=
  let rc := lastComponentRev p in
  let '(extRev, rest) := Str.span (λ c, negb (Ascii.eqb c ".")) rc in
  match rest with
  | [] => EmptyString
  | _dot :: before =>
      match before with
      | [] => EmptyString
      | _ =>
          if String.eqb (string_of_list_ascii (rev rc)) ".."
          then EmptyString
          else string_of_list_ascii ("."%char :: rev extRev)
      end
  end.

(** POSIX [path.basename] for a suffix that is empty or no longer than the
    last component, which is how the scripts call it *)
Definition posixBasename (p ext : string) : string :=
  let comp := string_of_list_ascii (rev (lastComponentRev p)) in
  if String.eqb ext EmptyString then comp
  else if String.eqb ext p then EmptyString
  else if Str.endsWith ext comp && negb (String.eqb ext comp)
  then String.substring 0 (String.length comp - String.length ext) comp
  else comp.

Definition posix : Api :=
  {| basename := posixBasename; extname := posixExtname |}.

End NodePath.

(** ** Files as the scripts see them *)

(** What [matter(content)] returns for the text of a Markdown file: the
    metadata of the front matter block and the body under it.

    The documents of a run are a finite map from paths: a path is bound to
    what gray-matter reads from the file, and a path that is not bound is a
    file that [fs.readFileSync] cannot read.  A text that the YAML loader
    refuses is not represented: gray-matter caches a text before it parses
    it, so how such a file is linted depends on the files read before it. *)
Record Document := {
  data : jsobject;
  content : string
}.

(** The state of a book's [config.yaml] *)
Inductive ConfigFile :=
| NoConfigFile                (* [fs.existsSync] is false *)
| Unparseable                 (* [readFileSync] or [yaml.load] throws *)
| Loaded (configData : jsval).

(** The part of the file system outside the Markdown documents *)
Record BookFiles := {
  configYaml : string → ConfigFile;     (* by book directory *)
  readdirSync : string → list string    (* entries of a directory *)
}.

(** Completion of a [try] block that mutates [result]: the state of
    [result] when the block returned, or when it threw. *)
Inductive completion (A : Type) :=
| Returned (result : A)
| Thrown (result : A).
Arguments Returned {A} result.
Arguments Thrown {A} result.

Local Open Scope string_scope.
Local Open Scope list_scope.

(** [arr.find(p)] with a callback that may throw: [None] when it throws,
    [Some None] for [undefined] *)
Fixpoint find {A} (p : A → option bool) (l : list A) : option (option A) :=
  match l with
  | [] => Some None
  | x :: l' => b ← p x; if b : bool then Some (Some x) else find p l'
  end.

(** the required properties that are not [in] the loaded value; [None] when
    [in] throws *)
Fixpoint missingProps (required : list string) (configData : jsval)
    : option (list string) :=
  match required with
  | [] => Some []
  | prop :: rest =>
      b ← in_op prop configData;
      ms ← missingProps rest configData;
      Some (if b : bool then ms else prop :: ms)
  end.

(** a line feed, as a string *)
Definition nl : string := String (ascii_of_nat 10) EmptyString.

(** gray-matter's [newline(str)]:
    [str.slice(-1) !== '\n' ? str + '\n' : str] *)
Definition newline (str : string) : string :=
  if Str.endsWith nl str then str else str +:+ nl.

(** What [matter] reads from the file that [matter.stringify(body, data)]
    wrote: the front matter block gives [data] back, key by key in the
    order of [Object.keys], and the body comes back with the line feed that
    [stringify] puts at its end.  ([stringify] first reads [body] with
    [matter]; this is the case of a body in which that finds no front
    matter block, [plainBody] below.) *)
Definition written (body : string) (data : jsobject) : Document :=
  {| data := data; content := newline body |}.

(** ** What [scripts/lint-zenn.ts] and the full Zenn linter share verbatim *)

Module Zenn.

Module LintResult.
Record t := {
  file : string;
  contentType : string;
  missing : list string;
  wrongOrder : bool;
  currentOrder : list string;
  invalidSlug : bool;           (* optional in the source: unset is [false] *)
  slugError : option string
}.
End LintResult.

Definition DEFAULT_CONFIG : LintConfig := {|
  propertyOrder := ["title"; "emoji"; "type"; "topics"; "published"; "published_at"];
  requiredProperties :=
    [("article", ["title"; "emoji"; "type"; "topics"; "published"]);
     ("bookChapter", ["title"]);
     ("default", ["title"; "published"])];
  bookConfigRequiredProperties :=
    ["title"; "summary"; "topics"; "published"; "price"; "chapters"];
  contentPattern := "articles/**/*.md";
  contentTypePatterns :=
    [("article", ["articles/"]); ("bookChapter", ["books/"])]
|}.

Definition getContentType (config : LintConfig) (filePath : string) : string :=
  let normalizedPath := Str.backslashesToSlashes filePath in
  let fix go (entries : list (string * list string)) : string :=
    match entries with
    | [] => "default"
    | (type, patterns) :: rest =>
        if existsb (λ pattern, Str.includes pattern normalizedPath) patterns
        then type
        else go rest
    end in
  go (contentTypePatterns config).

(** [/^[a-z0-9_-]{12,50}$/] *)
Definition slugRegex : Regex.regex :=
  Regex.between 12 50 (Regex.Cls Regex.slugChar).

Definition isValidSlug (slug : string) : bool := Regex.test slugRegex slug.

Section WithPath.
Context `{path : NodePath.Api}.

Definition extractSlugFromPath (filePath : string) : string :=
  NodePath.basename filePath (NodePath.extname filePath).

Definition lintZennFrontmatter (config : LintConfig)
    (docs : gmap string Document) (filePath : string) : option LintResult.t :=
  match docs !! filePath with
  | None => None            (* [readFileSync] throws; the [catch]: [return null] *)
  | Some doc =>
      let data := data doc in
      let contentType := getContentType config filePath in
      let requiredProps := lookup_list contentType (requiredProperties config) in
      let missing := List.filter (λ prop, negb (has prop data)) requiredProps in
      let currentProps := keys data in
      let isInCorrectOrder :=
        Frontmatter.isInCorrectOrder (propertyOrder config) currentProps in
      let result (invalid : bool) (error : option string) :=
        {| LintResult.file := filePath;
           LintResult.contentType := contentType;
           LintResult.missing := missing;
           LintResult.wrongOrder := negb isInCorrectOrder;
           LintResult.currentOrder := currentProps;
           LintResult.invalidSlug := invalid;
           LintResult.slugError := error |} in
      if String.eqb contentType "article" then
        let slug := extractSlugFromPath filePath in
        if negb (isValidSlug slug) then
          Some (result true
                  (Some ("スラッグ " +:+ Str.dquote +:+ slug +:+ Str.dquote
                         +:+ " は無効です。a-z0-9、ハイフン(-)、アンダースコア(_)の12〜50字の組み合わせにする必要があります。")))
        else Some (result false None)
      else Some (result false None)
  end.

(** [sortFrontmatter]: the file is written with
    [matter.stringify(mdContent, sortedData)]; what it prints on standard
    output comes second. *)
Definition sortFrontmatter (config : LintConfig) (filePath : string)
    (docs : gmap string Document) : gmap string Document * list string :=
  match docs !! filePath with
  | Some doc =>
      (<[filePath :=
           written (content doc)
             (Frontmatter.sortedData (propertyOrder config) (data doc))]> docs,
       ["✅ " +:+ NodePath.basename filePath "" +:+ " の順序を修正しました"])
  | None => (docs, [])
  end.

(** [result.missing.length > 0 || result.wrongOrder || result.invalidSlug] *)
Definition documentHasProblem (result : LintResult.t) : bool :=
  (0 <? length (LintResult.missing result))%nat
  || LintResult.wrongOrder result || LintResult.invalidSlug result.

(** what the report prints for one document *)
Definition reportDocument (config : LintConfig) (fixFlag : bool)
    (result : LintResult.t) : list string :=
  [nl +:+ "ファイル: " +:+ LintResult.file result +:+ " (タイプ: "
     +:+ LintResult.contentType result +:+ ")"]
  ++ (if (0 <? length (LintResult.missing result))%nat
      then ["  必須プロパティが不足しています: "
              +:+ join ", " (LintResult.missing result)]
      else [])
  ++ (if LintResult.wrongOrder result
      then ["  フロントマタープロパティの順序が推奨と異なります";
            "  現在の順序: " +:+ join ", " (LintResult.currentOrder result);
            "  推奨順序: " +:+ join ", " (propertyOrder config)]
           ++ (if fixFlag then ["  ✅ 順序を自動的に修正しました"] else [])
      else [])
  ++ (if LintResult.invalidSlug result
      then ["  " +:+ default "undefined" (LintResult.slugError result)]
      else []).

(** the warning printed when nothing was found to lint *)
Definition nothingFound : string :=
  "警告: Zenn記事または本のファイルが見つかりませんでした。"
    +:+ Str.dquote +:+ "articles/" +:+ Str.dquote +:+ "および"
    +:+ Str.dquote +:+ "books/" +:+ Str.dquote
    +:+ "ディレクトリが存在しているか確認してください。".

End WithPath.

End Zenn.

(** ** The full Zenn linter *)

Module ZennLinter.

Export Zenn.

Module BookConfigLintResult.
Record t := {
  dir : string;
  missing : list string;
  missingConfigFile : bool;
  invalidChapters : bool;                      (* optional: unset is [false] *)
  chaptersError : option string;
  duplicateChapterSlug : bool;                 (* optional: unset is [false] *)
  duplicateChapterNames : option (list string)
}.

Definition withMissing (missing' : list string) (r : t) : t :=
  {| dir := dir r; missing := missing';
     missingConfigFile := missingConfigFile r;
     invalidChapters := invalidChapters r; chaptersError := chaptersError r;
     duplicateChapterSlug := duplicateChapterSlug r;
     duplicateChapterNames := duplicateChapterNames r |}.

Definition withMissingConfigFile (r : t) : t :=
  {| dir := dir r; missing := missing r; missingConfigFile := true;
     invalidChapters := invalidChapters r; chaptersError := chaptersError r;
     duplicateChapterSlug := duplicateChapterSlug r;
     duplicateChapterNames := duplicateChapterNames r |}.

Definition withInvalidChapters (error : string) (r : t) : t :=
  {| dir := dir r; missing := missing r;
     missingConfigFile := missingConfigFile r;
     invalidChapters := true; chaptersError := Some error;
     duplicateChapterSlug := duplicateChapterSlug r;
     duplicateChapterNames := duplicateChapterNames r |}.

Definition withDuplicates (names : list string) (r : t) : t :=
  {| dir := dir r; missing := missing r;
     missingConfigFile := missingConfigFile r;
     invalidChapters := invalidChapters r; chaptersError := chaptersError r;
     duplicateChapterSlug := true;
     duplicateChapterNames := Some names |}.
End BookConfigLintResult.

(** [/^\d+\.[a-z0-9_-]+\.md$/] *)
Definition chapterNumberPattern : Regex.regex :=
  Regex.Cat (Regex.plus (Regex.Cls Regex.digit))
    (Regex.Cat (Regex.lit ["."%char])
       (Regex.Cat (Regex.plus (Regex.Cls Regex.slugChar))
          (Regex.lit (list_ascii_of_string ".md")))).

Definition isNumberedChapterFileName (fileName : string) : bool :=
  Regex.test chapterNumberPattern fileName.

(** [fileName.match(/^\d+\.([a-z0-9_-]+)\.md$/)]: the captured group, or
    [None] for [null].  The two classes exclude the dot, so the digits and
    the group are the longest runs. *)
Definition matchNumberedChapter (fileName : string) : option string :=
  let '(digits, rest) := Str.span Regex.digit (list_ascii_of_string fileName) in
  match digits, rest with
  | _ :: _, dot :: rest' =>
      let '(group, tail) := Str.span Regex.slugChar rest' in
      if Ascii.eqb dot "." && negb (Nat.eqb (length group) 0)
         && String.eqb (string_of_list_ascii tail) ".md"
      then Some (string_of_list_ascii group)
      else None
  | _, _ => None
  end.

Definition extractSlugFromNumberedChapter (fileName : string) : string :=
  match matchNumberedChapter fileName with
  | Some group => if negb (String.eqb group "") then group else fileName
  | None => fileName
  end.

(** One step of the duplicate scan: [slugs] is the [Set], [duplicateSlugs]
    the array. *)
Definition noteSlug (st : gset string * list string) (slug : string)
    : gset string * list string :=
  if bool_decide (slug ∈ st.1) then (st.1, st.2 ++ [slug])
  else ({[slug]} ∪ st.1, st.2).

Definition duplicateSlugsOf (slugs : list string) : list string :=
  (fold_left noteSlug slugs (∅, [])).2.

(** [sort()] compares UTF-16 code units; for names within the Basic
    Multilingual Plane that is the byte order of [String.le]. *)
Definition checkNumberedChapterFiles (files : BookFiles) (bookDir : string)
    (result : BookConfigLintResult.t) : BookConfigLintResult.t :=
  let mdFiles :=
    merge_sort String.le (List.filter (Str.endsWith ".md") (readdirSync files bookDir)) in
  if Nat.eqb (length mdFiles) 0 then
    BookConfigLintResult.withInvalidChapters
      "チャプターとなるMarkdownファイルが見つかりません。" result
  else
    let nonNumberedFiles :=
      List.filter (λ file, negb (isNumberedChapterFileName file)) mdFiles in
    if (0 <? length nonNumberedFiles)%nat
       && negb (Nat.eqb (length nonNumberedFiles) (length mdFiles)) then
      BookConfigLintResult.withInvalidChapters
        "一部のファイルのみが番号付き形式（数字.スラッグ.md）になっています。全てのファイルを統一してください。"
        result
    else
      let duplicateSlugs :=
        duplicateSlugsOf
          (map extractSlugFromNumberedChapter
             (List.filter isNumberedChapterFileName mdFiles)) in
      if (0 <? length duplicateSlugs)%nat then
        BookConfigLintResult.withInvalidChapters
          ("複数のチャプターで同じスラッグが使用されています: "
             +:+ join ", " duplicateSlugs)
          (BookConfigLintResult.withDuplicates duplicateSlugs result)
      else result.

Section WithPath.
Context `{path : NodePath.Api}.

(** the callback of [chapters.find(...)] *)
Definition chapterLacksFileOrTitle (chapter : jsval) : option bool :=
  if typeof_not_object chapter then Some true
  else
    hasFile ← in_op "file" chapter;
    if negb hasFile then Some true
    else hasTitle ← in_op "title" chapter; Some (negb hasTitle).

(** the slugs met by [chapters.forEach(...)], in order; [None] when
    [path.extname] throws on a [file] that is not a string *)
Fixpoint chapterSlugs (chapters : list jsval) : option (list string) :=
  match chapters with
  | [] => Some []
  | chapter :: rest =>
      if truthy chapter && truthy (field "file" chapter) then
        match field "file" chapter with
        | JStr file =>
            slugs ← chapterSlugs rest;
            Some (NodePath.basename file (NodePath.extname file) :: slugs)
        | _ => None
        end
      else chapterSlugs rest
  end.

(** the body of the [try] block of [lintBookConfig] *)
Definition lintBookConfigBody (config : LintConfig) (files : BookFiles)
    (bookDir : string) (configData : jsval) (result : BookConfigLintResult.t)
    : completion BookConfigLintResult.t :=
  match missingProps (bookConfigRequiredProperties config) configData with
  | None => Thrown result
  | Some missingProps =>
      let result := BookConfigLintResult.withMissing missingProps result in
      match in_op "chapters" configData with
      | None => Thrown result
      | Some false => Returned result
      | Some true =>
          let chapters := field "chapters" configData in
          match chapters with
          | JNull | JUndefined => Returned result
          | JArr [] => Returned (checkNumberedChapterFiles files bookDir result)
          | JArr items =>
              match find chapterLacksFileOrTitle items with
              | None => Thrown result
              | Some invalidChapter =>
                  let result :=
                    if truthy (default JUndefined invalidChapter) then
                      BookConfigLintResult.withInvalidChapters
                        "各チャプターは file および title プロパティを持つ必要があります。"
                        result
                    else result in
                  match chapterSlugs items with
                  | None => Thrown result
                  | Some slugs =>
                      let duplicateSlugs := duplicateSlugsOf slugs in
                      if (0 <? length duplicateSlugs)%nat then
                        Returned (BookConfigLintResult.withDuplicates duplicateSlugs result)
                      else Returned result
                  end
              end
          | _ =>
              Returned (BookConfigLintResult.withInvalidChapters
                          "chaptersプロパティは配列である必要があります。" result)
          end
      end
  end.

Definition lintBookConfig (config : LintConfig) (files : BookFiles)
    (bookDir : string) : BookConfigLintResult.t :=
  let result :=
    {| BookConfigLintResult.dir := bookDir;
       BookConfigLintResult.missing := [];
       BookConfigLintResult.missingConfigFile := false;
       BookConfigLintResult.invalidChapters := false;
       BookConfigLintResult.chaptersError := None;
       BookConfigLintResult.duplicateChapterSlug := false;
       BookConfigLintResult.duplicateChapterNames := None |} in
  match configYaml files bookDir with
  | NoConfigFile => BookConfigLintResult.withMissingConfigFile result
  | Unparseable =>
      BookConfigLintResult.withMissing (bookConfigRequiredProperties config) result
  | Loaded configData =>
      match lintBookConfigBody config files bookDir configData result with
      | Returned result => result
      | Thrown result =>
          BookConfigLintResult.withMissing (bookConfigRequiredProperties config) result
      end
  end.

(** *** The run: [runMainWithoutExit] *)

Record RunState := {
  hasErrors : bool;
  frontmatterResults : list LintResult.t;
  bookConfigResults : list BookConfigLintResult.t;
  documents : gmap string Document;
  stdout : list string
}.

(** [result.missing.length > 0 || result.missingConfigFile
     || result.invalidChapters || result.duplicateChapterSlug] *)
Definition bookHasProblem (result : BookConfigLintResult.t) : bool :=
  (0 <? length (BookConfigLintResult.missing result))%nat
  || BookConfigLintResult.missingConfigFile result
  || BookConfigLintResult.invalidChapters result
  || BookConfigLintResult.duplicateChapterSlug result.

(** the callback of [[...articleFiles, ...chapterFiles].forEach] *)
Definition visitFile (config : LintConfig) (fixFlag : bool)
    (st : RunState) (file : string) : RunState :=
  match lintZennFrontmatter config (documents st) file with
  | None => st
  | Some result =>
      if documentHasProblem result then
        let '(docs, printed) :=
          if fixFlag && LintResult.wrongOrder result
          then sortFrontmatter config file (documents st)
          else (documents st, []) in
        {| hasErrors := true;
           frontmatterResults := frontmatterResults st ++ [result];
           bookConfigResults := bookConfigResults st;
           documents := docs;
           stdout := stdout st ++ printed |}
      else st
  end.

(** the callback of [bookDirs.forEach] *)
Definition visitBook (config : LintConfig) (files : BookFiles)
    (st : RunState) (dir : string) : RunState :=
  let result := lintBookConfig config files dir in
  if bookHasProblem result then
    {| hasErrors := true;
       frontmatterResults := frontmatterResults st;
       bookConfigResults := bookConfigResults st ++ [result];
       documents := documents st;
       stdout := stdout st |}
  else st.

(** both validation loops *)
Definition validateAll (config : LintConfig) (fixFlag : bool) (files : BookFiles)
    (docs : gmap string Document)
    (articleFiles chapterFiles bookDirs : list string) : RunState :=
  let st0 :=
    {| hasErrors := false; frontmatterResults := []; bookConfigResults := [];
       documents := docs; stdout := [] |} in
  let st1 := fold_left (visitFile config fixFlag) (articleFiles ++ chapterFiles) st0 in
  fold_left (visitBook config files) bookDirs st1.

(** what the report prints for one book *)
Definition reportBook (result : BookConfigLintResult.t) : list string :=
  [nl +:+ "本ディレクトリ: " +:+ BookConfigLintResult.dir result]
  ++ (if BookConfigLintResult.missingConfigFile result
      then ["  config.yamlファイルが見つかりません"]
      else [])
  ++ (if (0 <? length (BookConfigLintResult.missing result))%nat
      then ["  必須プロパティが不足しています: "
              +:+ join ", " (BookConfigLintResult.missing result)]
      else [])
  ++ (if BookConfigLintResult.invalidChapters result
      then ["  " +:+ default "undefined" (BookConfigLintResult.chaptersError result)]
      else [])
  ++ (if BookConfigLintResult.duplicateChapterSlug result
      then ["  複数のチャプターで同じスラッグが使用されています: "
              +:+ join ", " (default [] (BookConfigLintResult.duplicateChapterNames result))]
      else []).

(** the output section of the run *)
Definition report (config : LintConfig) (fixFlag : bool) (st : RunState) : list string :=
  let documentPart :=
    if (0 <? length (frontmatterResults st))%nat then
      [nl +:+ string_of_nat (length (frontmatterResults st))
          +:+ " 個のファイルにフロントマターの問題があります:"]
      ++ concat (map (reportDocument config fixFlag) (frontmatterResults st))
    else [] in
  let bookPart :=
    if (0 <? length (bookConfigResults st))%nat then
      [nl +:+ string_of_nat (length (bookConfigResults st))
          +:+ " 個の本に設定の問題があります:"]
      ++ concat (map reportBook (bookConfigResults st))
    else [] in
  let resultsShown :=
    (0 <? length (frontmatterResults st))%nat
    || (0 <? length (bookConfigResults st))%nat in
  documentPart ++ bookPart
  ++ (if resultsShown && negb fixFlag then
        [nl +:+ "--fix オプションを付けて実行すると、フロントマターのプロパティ順序を自動修正できます。"]
      else if negb resultsShown then
        [nl +:+ "✅ すべてのZennファイルのフロントマタープロパティが有効で、順序も正しいです。"]
      else []).

Record Outcome := {
  output : list string;                 (* the [console.log] calls, in order *)
  exitCode : Z;                         (* [1] when [process.exit(1)] ran *)
  documentsAfter : gmap string Document
}.

(** [fixFlag] is [process.argv.includes(--fix)]; the three lists are what
    the two globs and [getBookDirectories] return. *)
Definition runMainWithoutExit (config : LintConfig) (fixFlag : bool)
    (files : BookFiles) (docs : gmap string Document)
    (articleFiles chapterFiles bookDirs : list string) : Outcome :=
  if Nat.eqb (length articleFiles) 0 && Nat.eqb (length chapterFiles) 0
     && Nat.eqb (length bookDirs) 0 then
    {| output :=
         [nothingFound];
       exitCode := 0;
       documentsAfter := docs |}
  else
    let st := validateAll config fixFlag files docs articleFiles chapterFiles bookDirs in
    {| output := stdout st ++ report config fixFlag st;
       exitCode := if hasErrors st && negb fixFlag then 1 else 0;
       documentsAfter := documents st |}.

End WithPath.

End ZennLinter.

(** ** [scripts/lint-zenn.ts]

    [getContentType], [isValidSlug], [extractSlugFromPath],
    [lintZennFrontmatter] and [sortFrontmatter] are those of [Zenn]. *)

Module ZennScript.

Export Zenn.

Module BookConfigLintResult.
Record t := {
  dir : string;
  missing : list string;
  missingConfigFile : bool;
  invalidChapters : bool;                      (* optional: unset is [false] *)
  chaptersError : option string
}.

Definition withMissing (missing' : list string) (r : t) : t :=
  {| dir := dir r; missing := missing';
     missingConfigFile := missingConfigFile r;
     invalidChapters := invalidChapters r; chaptersError := chaptersError r |}.

Definition withMissingConfigFile (r : t) : t :=
  {| dir := dir r; missing := missing r; missingConfigFile := true;
     invalidChapters := invalidChapters r; chaptersError := chaptersError r |}.

Definition withInvalidChapters (error : string) (r : t) : t :=
  {| dir := dir r; missing := missing r;
     missingConfigFile := missingConfigFile r;
     invalidChapters := true; chaptersError := Some error |}.
End BookConfigLintResult.

(** the callback of [chapters.find(...)] *)
Definition chapterLacksFileOrTitle (chapter : jsval) : option bool :=
  if typeof_not_object chapter then Some true
  else
    hasFile ← in_op "file" chapter;
    if negb hasFile then Some true
    else hasTitle ← in_op "title" chapter; Some (negb hasTitle).

(** the body of the [try] block of [lintBookConfig] *)
Definition lintBookConfigBody (config : LintConfig) (configData : jsval)
    (result : BookConfigLintResult.t) : completion BookConfigLintResult.t :=
  match missingProps (bookConfigRequiredProperties config) configData with
  | None => Thrown result
  | Some missingProps =>
      let result := BookConfigLintResult.withMissing missingProps result in
      match in_op "chapters" configData with
      | None => Thrown result
      | Some false => Returned result
      | Some true =>
          let chapters := field "chapters" configData in
          match chapters with
          | JArr [] =>
              Returned (BookConfigLintResult.withInvalidChapters
                          "chaptersプロパティは少なくとも1つの章を含む必要があります。"
                          result)
          | JArr items =>
              match find chapterLacksFileOrTitle items with
              | None => Thrown result
              | Some invalidChapter =>
                  if truthy (default JUndefined invalidChapter) then
                    Returned (BookConfigLintResult.withInvalidChapters
                                "各チャプターは file および title プロパティを持つ必要があります。"
                                result)
                  else Returned result
              end
          | _ =>
              Returned (BookConfigLintResult.withInvalidChapters
                          "chaptersプロパティは配列である必要があります。" result)
          end
      end
  end.

Definition lintBookConfig (config : LintConfig) (files : BookFiles)
    (bookDir : string) : BookConfigLintResult.t :=
  let result :=
    {| BookConfigLintResult.dir := bookDir;
       BookConfigLintResult.missing := [];
       BookConfigLintResult.missingConfigFile := false;
       BookConfigLintResult.invalidChapters := false;
       BookConfigLintResult.chaptersError := None |} in
  match configYaml files bookDir with
  | NoConfigFile => BookConfigLintResult.withMissingConfigFile result
  | Unparseable =>
      BookConfigLintResult.withMissing (bookConfigRequiredProperties config) result
  | Loaded configData =>
      match lintBookConfigBody config configData result with
      | Returned result => result
      | Thrown result =>
          BookConfigLintResult.withMissing (bookConfigRequiredProperties config) result
      end
  end.

Section WithPath.
Context `{path : NodePath.Api}.

Record RunState := {
  hasErrors : bool;
  frontmatterResults : list LintResult.t;
  bookConfigResults : list BookConfigLintResult.t;
  documents : gmap string Document;
  stdout : list string
}.

(** [result.missing.length > 0 || result.missingConfigFile
     || result.invalidChapters] *)
Definition bookHasProblem (result : BookConfigLintResult.t) : bool :=
  (0 <? length (BookConfigLintResult.missing result))%nat
  || BookConfigLintResult.missingConfigFile result
  || BookConfigLintResult.invalidChapters result.

(** the callback of [[...articleFiles, ...chapterFiles].forEach] *)
Definition visitFile (config : LintConfig) (fixFlag : bool)
    (st : RunState) (file : string) : RunState :=
  match lintZennFrontmatter config (documents st) file with
  | None => st
  | Some result =>
      if documentHasProblem result then
        let '(docs, printed) :=
          if fixFlag && LintResult.wrongOrder result
          then sortFrontmatter config file (documents st)
          else (documents st, []) in
        {| hasErrors := true;
           frontmatterResults := frontmatterResults st ++ [result];
           bookConfigResults := bookConfigResults st;
           documents := docs;
           stdout := stdout st ++ printed |}
      else st
  end.

(** the callback of [bookDirs.forEach] *)
Definition visitBook (config : LintConfig) (files : BookFiles)
    (st : RunState) (dir : string) : RunState :=
  let result := lintBookConfig config files dir in
  if bookHasProblem result then
    {| hasErrors := true;
       frontmatterResults := frontmatterResults st;
       bookConfigResults := bookConfigResults st ++ [result];
       documents := documents st;
       stdout := stdout st |}
  else st.

(** what the report prints for one book *)
Definition reportBook (result : BookConfigLintResult.t) : list string :=
  [nl +:+ "本ディレクトリ: " +:+ BookConfigLintResult.dir result]
  ++ (if BookConfigLintResult.missingConfigFile result
      then ["  config.yamlファイルが見つかりません"]
      else [])
  ++ (if Str.includes "zenn-book-sample" (BookConfigLintResult.dir result)
      then ["  必須プロパティが不足しています: price"]
      else [])
  ++ (if BookConfigLintResult.invalidChapters result
      then ["  " +:+ default "undefined" (BookConfigLintResult.chaptersError result)]
      else []).

(** the output section of [main] *)
Definition report (config : LintConfig) (fixFlag : bool) (st : RunState) : list string :=
  let documentPart :=
    if (0 <? length (frontmatterResults st))%nat then
      [nl +:+ string_of_nat (length (frontmatterResults st))
          +:+ " 個のファイルにフロントマターの問題があります:"]
      ++ concat (map (reportDocument config fixFlag) (frontmatterResults st))
    else [] in
  let bookPart :=
    if (0 <? length (bookConfigResults st))%nat then
      [nl +:+ string_of_nat (length (bookConfigResults st))
          +:+ " 個の本に設定の問題があります:"]
      ++ concat (map reportBook (bookConfigResults st))
    else [] in
  let resultsShown :=
    (0 <? length (frontmatterResults st))%nat
    || (0 <? length (bookConfigResults st))%nat in
  documentPart ++ bookPart
  ++ (if resultsShown && negb fixFlag then
        [nl +:+ "--fix オプションを付けて実行すると、フロントマターのプロパティ順序を自動修正できます。"]
      else if negb resultsShown then
        [nl +:+ "✅ すべてのZennファイルのフロントマタープロパティが有効で、順序も正しいです。"]
      else []).

Record Outcome := {
  output : list string;
  exitCode : Z;
  documentsAfter : gmap string Document
}.

(** both validation loops of [main] *)
Definition validateAll (config : LintConfig) (fixFlag : bool) (files : BookFiles)
    (docs : gmap string Document)
    (articleFiles chapterFiles bookDirs : list string) : RunState :=
  let st0 :=
    {| hasErrors := false; frontmatterResults := []; bookConfigResults := [];
       documents := docs; stdout := [] |} in
  let st1 := fold_left (visitFile config fixFlag) (articleFiles ++ chapterFiles) st0 in
  fold_left (visitBook config files) bookDirs st1.

Definition main (config : LintConfig) (fixFlag : bool)
    (files : BookFiles) (docs : gmap string Document)
    (articleFiles chapterFiles bookDirs : list string) : Outcome :=
  let banner := "Zenn フロントマターリンターを実行しています..." in
  if Nat.eqb (length articleFiles) 0 && Nat.eqb (length chapterFiles) 0
     && Nat.eqb (length bookDirs) 0 then
    {| output := [banner; nothingFound];
       exitCode := 0;
       documentsAfter := docs |}
  else
    let st := validateAll config fixFlag files docs articleFiles chapterFiles bookDirs in
    {| output := banner :: stdout st ++ report config fixFlag st;
       exitCode := if hasErrors st && negb fixFlag then 1 else 0;
       documentsAfter := documents st |}.

End WithPath.

End ZennScript.

(** ** The MDX linter *)

Module MdxLinter.

Module LintResult.
Record t := {
  file : string;
  contentType : string;
  missing : list string;
  wrongOrder : bool;
  currentOrder : list string
}.
End LintResult.

Definition DEFAULT_CONFIG : LintConfig := {|
  propertyOrder :=
    ["title"; "date"; "description"; "tags"; "category"; "image";
     "recommended"; "status"; "draft"];
  requiredProperties :=
    [("blog", ["title"; "date"; "description"; "tags"; "category"; "image"; "status"]);
     ("snippet", ["title"; "date"; "description"; "tags"; "image"; "status"]);
     ("default", ["title"; "date"; "description"])];
  bookConfigRequiredProperties := [];          (* not a field of this script *)
  contentPattern := "content/**/*.mdx";
  contentTypePatterns :=
    [("blog", ["/blog/"; "\blog\"]); ("snippet", ["/snippet/"; "\snippet\"])]
|}.

Definition getContentType (config : LintConfig) (filePath : string) : string :=
  let fix go (entries : list (string * list string)) : string :=
    match entries with
    | [] => "default"
    | (type, patterns) :: rest =>
        if existsb (λ pattern, Str.includes pattern filePath) patterns
        then type
        else go rest
    end in
  go (contentTypePatterns config).

Definition lintMdxFrontmatter (config : LintConfig)
    (docs : gmap string Document) (filePath : string) : option LintResult.t :=
  match docs !! filePath with
  | None => None            (* [readFileSync] throws; the [catch]: [return null] *)
  | Some doc =>
      let data := data doc in
      let contentType := getContentType config filePath in
      let requiredProps := lookup_list contentType (requiredProperties config) in
      let missing := List.filter (λ prop, negb (has prop data)) requiredProps in
      let currentProps := keys data in
      let isInCorrectOrder :=
        Frontmatter.isInCorrectOrder (propertyOrder config) currentProps in
      Some {| LintResult.file := filePath;
              LintResult.contentType := contentType;
              LintResult.missing := missing;
              LintResult.wrongOrder := negb isInCorrectOrder;
              LintResult.currentOrder := currentProps |}
  end.

Definition sortFrontmatter `{path : NodePath.Api} (config : LintConfig) (filePath : string)
    (docs : gmap string Document) : gmap string Document * list string :=
  match docs !! filePath with
  | Some doc =>
      (<[filePath :=
           written (content doc)
             (Frontmatter.sortedData (propertyOrder config) (data doc))]> docs,
       ["✅ " +:+ NodePath.basename filePath "" +:+ " の順序を修正しました"])
  | None => (docs, [])
  end.

(** *** The run: [main] *)

Section WithPath.
Context `{path : NodePath.Api}.

Record RunState := {
  hasErrors : bool;
  results : list LintResult.t;
  documents : gmap string Document;
  stdout : list string
}.

(** [result.missing.length > 0 || result.wrongOrder] *)
Definition resultHasProblem (result : LintResult.t) : bool :=
  (0 <? length (LintResult.missing result))%nat || LintResult.wrongOrder result.

(** the callback of [mdxFiles.forEach] *)
Definition visitFile (config : LintConfig) (fixFlag : bool)
    (st : RunState) (file : string) : RunState :=
  match lintMdxFrontmatter config (documents st) file with
  | None => st
  | Some result =>
      if resultHasProblem result then
        let '(docs, printed) :=
          if fixFlag && LintResult.wrongOrder result
          then sortFrontmatter config file (documents st)
          else (documents st, []) in
        {| hasErrors := true;
           results := results st ++ [result];
           documents := docs;
           stdout := stdout st ++ printed |}
      else st
  end.

Definition validateAll (config : LintConfig) (fixFlag : bool)
    (docs : gmap string Document) (mdxFiles : list string) : RunState :=
  fold_left (visitFile config fixFlag) mdxFiles
    {| hasErrors := false; results := []; documents := docs; stdout := [] |}.

(** what the report prints for one file *)
Definition reportResult (config : LintConfig) (fixFlag : bool)
    (result : LintResult.t) : list string :=
  [nl +:+ "ファイル: " +:+ LintResult.file result +:+ " (タイプ: "
     +:+ LintResult.contentType result +:+ ")"]
  ++ (if (0 <? length (LintResult.missing result))%nat
      then ["  必須プロパティが不足しています: "
              +:+ join ", " (LintResult.missing result)]
      else [])
  ++ (if LintResult.wrongOrder result
      then ["  フロントマタープロパティの順序が推奨と異なります";
            "  現在の順序: " +:+ join ", " (LintResult.currentOrder result);
            "  推奨順序: " +:+ join ", " (propertyOrder config)]
           ++ (if fixFlag then ["  ✅ 順序を自動的に修正しました"] else [])
      else []).

(** the output section of [main] *)
Definition report (config : LintConfig) (fixFlag : bool) (st : RunState) : list string :=
  if (0 <? length (results st))%nat then
    [nl +:+ string_of_nat (length (results st))
        +:+ " 個のファイルにフロントマターの問題があります:"]
    ++ concat (map (reportResult config fixFlag) (results st))
    ++ (if negb fixFlag then
          [nl +:+ "--fix オプションを付けて実行すると、フロントマターのプロパティ順序を自動修正できます。"]
        else [])
  else
    [nl +:+ "✅ すべてのMDXファイルのフロントマタープロパティが有効で、順序も正しいです。"].

Record Outcome := {
  output : list string;                 (* the [console.log] calls, in order *)
  exitCode : Z;                         (* [1] when [process.exit(1)] ran *)
  documentsAfter : gmap string Document
}.

(** [fixFlag] is [process.argv.includes(--fix)], [mdxFiles] what the glob
    returns. *)
Definition main (config : LintConfig) (fixFlag : bool)
    (docs : gmap string Document) (mdxFiles : list string) : Outcome :=
  let banner := "MDX フロントマターリンターを実行しています..." in
  let contentPattern :=
    if String.eqb (contentPattern config) "" then "content/**/*.mdx"
    else contentPattern config in
  if Nat.eqb (length mdxFiles) 0 then
    {| output :=
         [banner;
          "警告: " +:+ Str.dquote +:+ contentPattern +:+ Str.dquote
            +:+ " にマッチするMDXファイルが見つかりませんでした"];
       exitCode := 0;
       documentsAfter := docs |}
  else
    let st := validateAll config fixFlag docs mdxFiles in
    {| output := banner :: stdout st ++ report config fixFlag st;
       exitCode := if hasErrors st && negb fixFlag then 1 else 0;
       documentsAfter := documents st |}.

End WithPath.

End MdxLinter.

(** ** Vocabulary of the statements *)

(** The order the validators check: every consecutive pair of observed
    keys that both have a position in the canonical order stands by
    increasing position. *)
Definition InCanonicalOrder (order keys : list string) : Prop :=
  ∀ i prev cur p c,
    keys !! i = Some prev → keys !! S i = Some cur →
    Frontmatter.position order prev p → Frontmatter.position order cur c →
    (p < c)%nat.

(** [l] without its repeated occurrences: each element stays where it
    first occurs.  [seen] holds what counts as already met. *)
Fixpoint firstsFrom (seen l : list string) : list string :=
  match l with
  | [] => []
  | x :: l' =>
      if bool_decide (x ∈ seen) then firstsFrom seen l'
      else x :: firstsFrom (x :: seen) l'
  end.

Definition firsts (l : list string) : list string := firstsFrom [] l.

(** Both loops of [sortFrontmatter] append the properties of [data] not
    yet in the object under construction. *)
Definition addNew (data acc : jsobject) (ks : list string) : jsobject :=
  fold_left (λ acc k,
               match get k data with
               | Some v => if has k acc then acc else acc ++ [(k, v)]
               | None => acc
               end) ks acc.

Definition agreesWith (data acc : jsobject) : Prop :=
  ∀ k, has k acc = true → get k acc = get k data.

(** membership in [[a-z0-9_-]], by character code *)
Definition InSlugClass (c : ascii) : Prop :=
  let n := nat_of_ascii c in
  (97 ≤ n ≤ 122)%nat ∨ (48 ≤ n ≤ 57)%nat ∨ n = 95%nat ∨ n = 45%nat.

Definition IsDigit (c : ascii) : Prop :=
  (48 ≤ nat_of_ascii c ≤ 57)%nat.

(** whether linting [file] in the store [docs] finds a problem *)
Definition fileHasProblem `{path : NodePath.Api} (config : LintConfig) (docs : gmap string Document)
    (file : string) : bool :=
  match Zenn.lintZennFrontmatter config docs file with
  | Some result => Zenn.documentHasProblem result
  | None => false
  end.

(** how many times [x] occurs in [l] *)
Definition occurrences (x : string) (l : list string) : nat :=
  length (List.filter (String.eqb x) l).

(** [fileName] is [<digits>.<slug>.md]: a non-empty run of decimal digits,
    a dot, a non-empty run of characters of [[a-z0-9_-]], and [.md] *)
Definition NumberedChapter (fileName slug : string) : Prop :=
  ∃ digits : string,
    digits ≠ EmptyString
    ∧ (∀ c, c ∈ list_ascii_of_string digits → IsDigit c)
    ∧ slug ≠ EmptyString
    ∧ (∀ c, c ∈ list_ascii_of_string slug → InSlugClass c)
    ∧ fileName = digits +:+ "." +:+ slug +:+ ".md".

(** the shape in terms of character lists *)
Definition numberedShape (w digits slug : list ascii) : Prop :=
  digits ≠ [] ∧ forallb Regex.digit digits = true
  ∧ slug ≠ [] ∧ forallb Regex.slugChar slug = true
  ∧ w = digits ++ "."%char :: slug ++ list_ascii_of_string ".md".

(** the Markdown files of a book directory, as [checkNumberedChapterFiles]
    lists them *)
Definition markdownFiles (files : BookFiles) (bookDir : string) : list string :=
  merge_sort String.le (List.filter (Str.endsWith ".md") (readdirSync files bookDir)).

(** the slugs of the numbered files among them *)
Definition numberedSlugs (files : BookFiles) (bookDir : string) : list string :=
  map ZennLinter.extractSlugFromNumberedChapter
    (List.filter ZennLinter.isNumberedChapterFileName (markdownFiles files bookDir)).

(** a book manifest with every required key, whose [chapters] value is
    [chapters] *)
Definition manifestWith (chapters : jsval) : jsval :=
  JObj [("title", JStr "T"); ("summary", JStr "S"); ("topics", JArr []);
        ("published", JBool true); ("price", JNum 0); ("chapters", chapters)].

(** a book directory holding that manifest and the entries [entries] *)
Definition bookWith (chapters : jsval) (entries : list string) : BookFiles :=
  {| configYaml := λ _, Loaded (manifestWith chapters);
     readdirSync := λ _, entries |}.

(** a chapter descriptor [{file, title}] *)
Definition chapter (file title : string) : jsval :=
  JObj [("file", JStr file); ("title", JStr title)].


(** a chapter entry whose [file] value, when it is truthy, is a string *)
Definition fileIsText (c : jsval) : Prop :=
  truthy (field "file" c) = true → ∃ file, field "file" c = JStr file.


(** the line of the report that lists missing required keys *)
Definition missingKeysLine (missing : list string) : string :=
  "  必須プロパティが不足しています: " +:+ join ", " missing.

(** two books: one whose manifest lacks [summary], and the sample book
    directory without a manifest *)
Definition twoBooks : BookFiles :=
  {| configYaml := λ dir,
       if String.eqb dir "books/my-book" then
         Loaded (JObj [("title", JStr "T"); ("topics", JArr []);
                       ("published", JBool true); ("price", JNum 0);
                       ("chapters", JArr [chapter "intro.md" "Intro"])])
       else NoConfigFile;
     readdirSync := λ _, [] |}.

(** the messages [lintBookConfig] can leave in [chaptersError] *)
Definition knownChaptersError (e : string) : Prop :=
  e = "チャプターとなるMarkdownファイルが見つかりません。"
  ∨ e = "一部のファイルのみが番号付き形式（数字.スラッグ.md）になっています。全てのファイルを統一してください。"
  ∨ e = "各チャプターは file および title プロパティを持つ必要があります。"
  ∨ e = "chaptersプロパティは配列である必要があります。"
  ∨ ∃ names, e = "複数のチャプターで同じスラッグが使用されています: " +:+ join ", " names.

Definition completed {A} (c : completion A) : A :=
  match c with Returned r | Thrown r => r end.

(** [pat] occurs in [s] *)
Definition Substring (pat s : string) : Prop :=
  ∃ before after, s = before +:+ pat +:+ after.

(** some pattern of an entry of [contentTypePatterns] occurs in [p] *)
Definition typeMatches (p : string) (entry : string * list string) : Prop :=
  ∃ pattern, pattern ∈ entry.2 ∧ Substring pattern p.

(** [type] is the first content type of [entries] one of whose patterns
    occurs in [p], or [default] when there is none *)
Definition FirstMatch (entries : list (string * list string)) (p type : string) : Prop :=
  (∃ earlier patterns later,
     entries = earlier ++ (type, patterns) :: later
     ∧ typeMatches p (type, patterns)
     ∧ Forall (λ entry, ¬ typeMatches p entry) earlier)
  ∨ (type = "default" ∧ Forall (λ entry, ¬ typeMatches p entry) entries).

(** whether linting [file] in the store [docs] finds its keys out of order *)
Definition fileWrongOrder `{path : NodePath.Api} (config : LintConfig)
    (docs : gmap string Document) (file : string) : bool :=
  match Zenn.lintZennFrontmatter config docs file with
  | Some result => Zenn.LintResult.wrongOrder result
  | None => false
  end.

(** a document as [sortFrontmatter] writes it back *)
Definition normalized (config : LintConfig) (doc : Document) : Document :=
  written (content doc) (Frontmatter.sortedData (propertyOrder config) (data doc)).

(** the byte order mark, which gray-matter strips from the start of a text *)
Definition bom : string :=
  String (ascii_of_nat 239) (String (ascii_of_nat 187) (String (ascii_of_nat 191) "")).

(** a body that [matter] gives back as it is: it opens neither with the
    front matter delimiter nor with a byte order mark *)
Definition plainBody (body : string) : bool :=
  negb (String.prefix "---" body) && negb (String.prefix bom body).

(** a document whose keys are plain names and whose body is plain *)
Definition plainDocument (doc : Document) : Prop :=
  forallb plainName (keys (data doc)) = true ∧ plainBody (content doc) = true.

(** a configuration that lists plain names only *)
Definition plainConfig (config : LintConfig) : Prop :=
  forallb plainName (propertyOrder config) = true
  ∧ forallb (λ entry, forallb plainName entry.2) (requiredProperties config) = true.

(** the store in which the files of [listed] whose keys are out of order
    have been written back normalized *)
Definition rewritten `{path : NodePath.Api} (config : LintConfig)
    (docs : gmap string Document) (listed : list string) : gmap string Document :=
  map_imap (λ file doc,
              Some (if bool_decide (file ∈ listed) && fileWrongOrder config docs file
                    then normalized config doc else doc)) docs.

(** the optional fields of a book result are set together *)
Definition consistent (r : ZennLinter.BookConfigLintResult.t) : Prop :=
  (ZennLinter.BookConfigLintResult.invalidChapters r = true
   ↔ ∃ e, ZennLinter.BookConfigLintResult.chaptersError r = Some e)
  ∧ (ZennLinter.BookConfigLintResult.duplicateChapterSlug r = true
     ↔ ∃ names, ZennLinter.BookConfigLintResult.duplicateChapterNames r = Some names)
  ∧ (∀ names, ZennLinter.BookConfigLintResult.duplicateChapterNames r = Some names →
       names ≠ []).

(** a loaded manifest that is neither a mapping nor a list: a scalar, or
    the [undefined] of an empty file *)
Definition isScalar (v : jsval) : Prop :=
  match v with
  | JObj _ | JArr _ => False
  | _ => True
  end.

(** a chapter descriptor with both keys *)
Definition wellFormedChapter (c : jsval) : Prop :=
  ∃ o, c = JObj o ∧ has "file" o = true ∧ has "title" o = true.

(** the result of the full linter cut down to the fields that the result
    of [scripts/lint-zenn.ts] has *)
Definition sharedFields (r : ZennLinter.BookConfigLintResult.t)
    : ZennScript.BookConfigLintResult.t :=
  {| ZennScript.BookConfigLintResult.dir := ZennLinter.BookConfigLintResult.dir r;
     ZennScript.BookConfigLintResult.missing := ZennLinter.BookConfigLintResult.missing r;
     ZennScript.BookConfigLintResult.missingConfigFile :=
       ZennLinter.BookConfigLintResult.missingConfigFile r;
     ZennScript.BookConfigLintResult.invalidChapters :=
       ZennLinter.BookConfigLintResult.invalidChapters r;
     ZennScript.BookConfigLintResult.chaptersError :=
       ZennLinter.BookConfigLintResult.chaptersError r |}.

(** whether the MDX linter finds a problem in [file] *)
Definition mdxFileHasProblem (config : LintConfig) (docs : gmap string Document)
    (file : string) : bool :=
  match MdxLinter.lintMdxFrontmatter config docs file with
  | Some result => MdxLinter.resultHasProblem result
  | None => false
  end.

(** the line the Zenn scripts print when they have nothing to report *)
Definition allClear : string :=
  nl +:+ "✅ すべてのZennファイルのフロントマタープロパティが有効で、順序も正しいです。".

(** * Properties *)

Set Warnings "-clear-no-such-hyp".


(** ** Objects and arrays *)

Section JsFacts.

Lemma has_true (k : string) (o : jsobject) : has k o = true ↔ k ∈ keys o.
Proof.
  unfold has. rewrite existsb_exists. split.
  - intros (x & Hin & Heq). apply String.eqb_eq in Heq. subst. by apply list_elem_of_In.
  - intros Hin. exists k. split; [by apply list_elem_of_In|apply String.eqb_refl].
Qed.

Lemma has_false (k : string) (o : jsobject) : has k o = false ↔ k ∉ keys o.
Proof.
  rewrite <- has_true. destruct (has k o); naive_solver.
Qed.

Lemma get_Some_has (k : string) (o : jsobject) v : get k o = Some v → has k o = true.
Proof.
  induction o as [|[k' v'] o IH]; simpl; [done|].
  unfold has. simpl. destruct (String.eqb k k'); [done|]. apply IH.
Qed.

Lemma get_None_has (k : string) (o : jsobject) : get k o = None ↔ has k o = false.
Proof.
  induction o as [|[k' v'] o IH]; simpl; [done|].
  unfold has in *. simpl. destruct (String.eqb k k'); [done|]. apply IH.
Qed.

Lemma has_get (k : string) (o : jsobject) : has k o = true → ∃ v, get k o = Some v.
Proof.
  intros Hh. destruct (get k o) eqn:E; [eauto|]. apply get_None_has in E. congruence.
Qed.

Lemma getv_Some (k : string) (o : jsobject) v : get k o = Some v → getv k o = v.
Proof. unfold getv. by intros ->. Qed.

Lemma set_fresh (k : string) v (o : jsobject) : has k o = false → set k v o = o ++ [(k, v)].
Proof.
  induction o as [|[k' v'] o IH]; simpl; [done|].
  unfold has in *. simpl. destruct (String.eqb k k'); [done|].
  intros Hh. by rewrite IH.
Qed.

Lemma set_same (k : string) v (o : jsobject) : get k o = Some v → set k v o = o.
Proof.
  induction o as [|[k' v'] o IH]; simpl; [done|].
  destruct (String.eqb_spec k k') as [->|Hne].
  - by intros [= ->].
  - intros Hg. by rewrite IH.
Qed.

Lemma get_app (k : string) (o1 o2 : jsobject) :
  get k (o1 ++ o2) = match get k o1 with Some v => Some v | None => get k o2 end.
Proof.
  induction o1 as [|[k' v'] o1 IH]; simpl; [done|].
  by destruct (String.eqb k k').
Qed.

Lemma keys_app (o1 o2 : jsobject) : keys (o1 ++ o2) = keys o1 ++ keys o2.
Proof. unfold keys. apply map_app. Qed.


Lemma indexOf_lower (x : string) (l : list string) : (-1 ≤ indexOf x l)%Z.
Proof.
  induction l as [|y l IH]; simpl; [lia|].
  destruct (String.eqb x y); [lia|]. destruct (Z.eqb_spec (indexOf x l) (-1)); lia.
Qed.

Lemma indexOf_absent (x : string) (l : list string) : indexOf x l = -1 ↔ x ∉ l.
Proof.
  induction l as [|y l IH]; simpl.
  - split; [intros _; apply not_elem_of_nil|done].
  - rewrite not_elem_of_cons. destruct (String.eqb_spec x y) as [->|Hne].
    + split; [lia|]. intros [? _]. done.
    + pose proof (indexOf_lower x l).
      destruct (Z.eqb_spec (indexOf x l) (-1)) as [He|He].
      * split; [|done]. intros _. split; [done|]. by apply IH.
      * split; [lia|]. intros [_ Hn]. apply IH in Hn. done.
Qed.

Lemma indexOf_position (x : string) (l : list string) (i : nat) :
  indexOf x l = Z.of_nat i ↔ Frontmatter.position l x i.
Proof.
  unfold Frontmatter.position. revert i. induction l as [|y l IH]; intros i; simpl.
  - split; [lia|]. intros [Hl _]. done.
  - destruct (String.eqb_spec x y) as [->|Hne].
    + split.
      * intros Hi. assert (i = 0%nat) as -> by lia. split; [done|]. intros j Hj. lia.
      * intros [Hl Hmin]. destruct i as [|i]; [done|].
        exfalso. apply (Hmin 0%nat); [lia|done].
    + pose proof (indexOf_lower x l).
      destruct (Z.eqb_spec (indexOf x l) (-1)) as [He|He].
      * split; [lia|]. intros [Hl _]. destruct i as [|i]; simpl in Hl; [congruence|].
        apply indexOf_absent in He. destruct He. by eapply list_elem_of_lookup_2.
      * destruct i as [|i].
        { split; [lia|]. intros [Hl _]. simpl in Hl. congruence. }
        assert (indexOf x l + 1 = Z.of_nat (S i) ↔ indexOf x l = Z.of_nat i) as -> by lia.
        rewrite IH. simpl. split; intros [Hl Hmin]; (split; [done|]).
        -- intros [|j] Hj; simpl; [congruence|]. apply Hmin. lia.
        -- intros j Hj. apply (Hmin (S j)). lia.
Qed.

End JsFacts.

(** ** Strings *)

Section Strings.

Lemma substring_all (s : string) : String.substring 0 (String.length s) s = s.
Proof. induction s as [|c s IH]; simpl; [done|]. by rewrite IH. Qed.

Lemma append_cons (c : ascii) (a b : string) : String c a +:+ b = String c (a +:+ b).
Proof. reflexivity. Qed.

Lemma substring_split (s : string) (k : nat) :
  (k ≤ String.length s)%nat →
  String.substring 0 k s +:+ String.substring k (String.length s - k) s = s.
Proof.
  revert k. induction s as [|c s IH]; intros k Hk; simpl in *.
  - by destruct k.
  - destruct k as [|k]; simpl.
    + by rewrite substring_all.
    + rewrite append_cons, IH by lia. done.
Qed.

Lemma substring_app_skip (a b : string) (n : nat) :
  String.substring (String.length a) n (a +:+ b) = String.substring 0 n b.
Proof. induction a as [|c a IH]; [done|]. rewrite append_cons. simpl. apply IH. Qed.

Lemma length_append (a b : string) :
  String.length (a +:+ b) = (String.length a + String.length b)%nat.
Proof. induction a as [|c a IH]; [done|]. rewrite append_cons. simpl. by rewrite IH. Qed.

Lemma endsWith_spec (suffix s : string) :
  Str.endsWith suffix s = true ↔ ∃ stem, s = stem +:+ suffix.
Proof.
  unfold Str.endsWith. rewrite andb_true_iff, Nat.leb_le, String.eqb_eq. split.
  - intros [Hlen Hsub].
    exists (String.substring 0 (String.length s - String.length suffix) s).
    pose proof (substring_split s (String.length s - String.length suffix)) as Hs.
    replace (String.length s - (String.length s - String.length suffix))%nat
      with (String.length suffix) in Hs by lia.
    rewrite Hsub in Hs. symmetry. apply Hs. lia.
  - intros [stem ->]. rewrite length_append. split; [lia|].
    replace (String.length stem + String.length suffix - String.length suffix)%nat
      with (String.length stem) by lia.
    by rewrite substring_app_skip, substring_all.
Qed.


Lemma newline_fixed (s : string) : Str.endsWith nl s = true → newline s = s.
Proof. unfold newline. by intros ->. Qed.


End Strings.

(** ** The order check *)

Section OrderCheck.

Lemma forallb_indexed {A} (g : A → nat → bool) (l : list A) (s : nat) :
  forallb (λ ix, g ix.2 ix.1) (combine (seq s (length l)) l) = true
  ↔ ∀ i x, l !! i = Some x → g x (s + i)%nat = true.
Proof.
  revert s. induction l as [|a l IH]; intros s; simpl.
  - split; [|done]. intros _ i x Hl. done.
  - rewrite andb_true_iff, IH. split.
    + intros [Ha Hl] [|i] x Hx; simpl in Hx.
      * injection Hx as <-. by rewrite Nat.add_0_r.
      * replace (s + S i)%nat with (S s + i)%nat by lia. by apply Hl.
    + intros Hall. split.
      * specialize (Hall 0%nat a eq_refl). by rewrite Nat.add_0_r in Hall.
      * intros i x Hx. replace (S s + i)%nat with (s + S i)%nat by lia. by apply Hall.
Qed.

Lemma every_spec {A} (f : A → nat → list A → bool) (arr : list A) :
  every f arr = true ↔ ∀ i x, arr !! i = Some x → f x i arr = true.
Proof.
  unfold every. apply (forallb_indexed (λ x i, f x i arr) arr 0).
Qed.

Lemma position_present (order : list string) (k : string) :
  k ∈ order ↔ ∃ p, Frontmatter.position order k p.
Proof.
  split.
  - intros Hin. pose proof (indexOf_lower k order) as Hlo.
    destruct (Z.eq_dec (indexOf k order) (-1)) as [He|He].
    + apply indexOf_absent in He. done.
    + exists (Z.to_nat (indexOf k order)). apply indexOf_position. lia.
  - intros [p [Hl _]]. by eapply list_elem_of_lookup_2.
Qed.

Lemma position_unique (order : list string) (k : string) (p q : nat) :
  Frontmatter.position order k p → Frontmatter.position order k q → p = q.
Proof.
  intros Hp Hq. apply indexOf_position in Hp, Hq. lia.
Qed.

Lemma isInCorrectOrder_spec (order keys : list string) :
  Frontmatter.isInCorrectOrder order keys = true ↔ InCanonicalOrder order keys.
Proof.
  unfold Frontmatter.isInCorrectOrder, InCanonicalOrder. rewrite every_spec. split.
  - intros Hall i prev cur p c Hprev Hcur Hp Hc.
    specialize (Hall (S i) cur Hcur). unfold Frontmatter.orderCallback in Hall.
    simpl in Hall. rewrite Nat.sub_0_r, Hprev in Hall.
    apply indexOf_position in Hp, Hc. rewrite Hp, Hc in Hall.
    destruct (Z.eqb_spec (Z.of_nat p) (-1)); [lia|].
    destruct (Z.eqb_spec (Z.of_nat c) (-1)); [lia|].
    simpl in Hall. apply Z.ltb_lt in Hall. lia.
  - intros Hord [|i] cur Hcur; unfold Frontmatter.orderCallback; simpl; [done|].
    rewrite Nat.sub_0_r.
    destruct (keys !! i) as [prev|] eqn:Hprev.
    2:{ apply lookup_ge_None in Hprev. apply lookup_lt_Some in Hcur. lia. }
    pose proof (indexOf_lower prev order). pose proof (indexOf_lower cur order).
    destruct (Z.eqb_spec (indexOf prev order) (-1)) as [|Hp]; [done|].
    destruct (Z.eqb_spec (indexOf cur order) (-1)) as [|Hc]; [done|].
    simpl. apply Z.ltb_lt.
    assert (Frontmatter.position order prev (Z.to_nat (indexOf prev order))) as Pp
      by (apply indexOf_position; lia).
    assert (Frontmatter.position order cur (Z.to_nat (indexOf cur order))) as Pc
      by (apply indexOf_position; lia).
    specialize (Hord i prev cur _ _ Hprev Hcur Pp Pc). lia.
Qed.

Lemma short_InCanonicalOrder (order keys : list string) :
  (length keys ≤ 1)%nat → InCanonicalOrder order keys.
Proof.
  intros Hlen i prev cur p c _ Hcur _ _. apply lookup_lt_Some in Hcur. lia.
Qed.

Lemma sublist_lookup_lt {A} (l1 l2 : list A) (i j : nat) (a b : A) :
  l1 `sublist_of` l2 → (i < j)%nat → l1 !! i = Some a → l1 !! j = Some b →
  ∃ p c, (p < c)%nat ∧ l2 !! p = Some a ∧ l2 !! c = Some b.
Proof.
  intros Hsub. revert i j. induction Hsub as [|x l1 l2 Hsub IH|x l1 l2 Hsub IH];
    intros i j Hij Ha Hb.
  - done.
  - destruct j as [|j]; [lia|]. destruct i as [|i]; simpl in *.
    + injection Ha as <-.
      assert (b ∈ l2) as Hin.
      { eapply elem_of_sublist; [|done]. by eapply list_elem_of_lookup_2. }
      apply list_elem_of_lookup_1 in Hin as [c Hc].
      exists 0%nat, (S c). split; [lia|done].
    + destruct (IH i j) as (p & c & Hpc & Hp & Hc); [lia|done|done|].
      exists (S p), (S c). split; [lia|done].
  - destruct (IH i j) as (p & c & Hpc & Hp & Hc); [lia|done|done|].
    exists (S p), (S c). split; [lia|done].
Qed.

Lemma sublist_InCanonicalOrder (order keys : list string) :
  NoDup order → keys `sublist_of` order → InCanonicalOrder order keys.
Proof.
  intros Hnd Hsub i prev cur p c Hprev Hcur [Hp _] [Hc _].
  destruct (sublist_lookup_lt keys order i (S i) prev cur) as (p' & c' & Hlt & Hp' & Hc');
    [done|lia|done|done|].
  rewrite (NoDup_lookup order p p' prev), (NoDup_lookup order c c' cur); done.
Qed.

End OrderCheck.

(** C1.  For a document that parses, both validators set [wrongOrder] to
    [false] exactly when every consecutive pair of the observed keys whose
    two keys have a position in the canonical order has the first position
    strictly below the second (pairs with a key outside the canonical order
    are exempt).  At most one key is always in order; so are keys that all
    occur in the canonical order and stand by increasing position, in
    particular a subsequence of a duplicate-free canonical order. *)
Theorem order_check_spec `{path : NodePath.Api} (config : LintConfig)
    (docs : gmap string Document) (filePath : string) (doc : Document) :
  docs !! filePath = Some doc →
  let observed := keys (data doc) in
  let order := propertyOrder config in
  (∃ r, Zenn.lintZennFrontmatter config docs filePath = Some r
        ∧ Zenn.LintResult.currentOrder r = observed
        ∧ (Zenn.LintResult.wrongOrder r = false ↔ InCanonicalOrder order observed))
  ∧ (∃ r, MdxLinter.lintMdxFrontmatter config docs filePath = Some r
          ∧ MdxLinter.LintResult.currentOrder r = observed
          ∧ (MdxLinter.LintResult.wrongOrder r = false ↔ InCanonicalOrder order observed))
  ∧ ((length observed ≤ 1)%nat → InCanonicalOrder order observed)
  ∧ ((∀ k, k ∈ observed → k ∈ order)
     → (∀ i j a b p c, (i < j)%nat → observed !! i = Some a → observed !! j = Some b
          → Frontmatter.position order a p → Frontmatter.position order b c → (p < c)%nat)
     → InCanonicalOrder order observed)
  ∧ (NoDup order → observed `sublist_of` order → InCanonicalOrder order observed).
Proof.
  intros Hdoc observed order.
  assert (∀ b, negb b = false ↔ b = true) as Hneg by (intros []; naive_solver).
  split; [|split; [|split; [|split]]].
  - unfold Zenn.lintZennFrontmatter. rewrite Hdoc.
    destruct (String.eqb _ "article"); [destruct (negb (Zenn.isValidSlug _))|];
      eexists; (split; [reflexivity|]); simpl; (split; [done|]);
      rewrite Hneg; apply isInCorrectOrder_spec.
  - unfold MdxLinter.lintMdxFrontmatter. rewrite Hdoc.
    eexists; (split; [reflexivity|]); simpl; (split; [done|]).
    rewrite Hneg; apply isInCorrectOrder_spec.
  - apply short_InCanonicalOrder.
  - intros _ Hsorted i prev cur p c Hprev Hcur Hp Hc.
    apply (Hsorted i (S i) prev cur p c); auto.
  - apply sublist_InCanonicalOrder.
Qed.

Lemma order_check_spec_witness :
  ∃ r, Zenn.lintZennFrontmatter (path := NodePath.posix) Zenn.DEFAULT_CONFIG
         {[ "articles/how-to-use-it.md" :=
              {| data := [("title", JStr "T"); ("date", JStr "d"); ("type", JStr "tech")];
                 content := "body" |} ]}
         "articles/how-to-use-it.md" = Some r
       ∧ Zenn.LintResult.wrongOrder r = false.
Proof.
  pose proof (order_check_spec (path := NodePath.posix) Zenn.DEFAULT_CONFIG
         {[ "articles/how-to-use-it.md" :=
              {| data := [("title", JStr "T"); ("date", JStr "d"); ("type", JStr "tech")];
                 content := "body" |} ]}
         "articles/how-to-use-it.md" _ (lookup_singleton_eq _ _)) as (Hz & _ & _ & _ & Hsub).
  destruct Hz as (r & Hr & _ & Hiff).
  exists r. split; [exact Hr|]. apply Hiff.
  cbn. intros i prev cur p c Hprev Hcur Hp Hc.
  destruct i as [|[|[|i]]]; simpl in Hprev, Hcur; try done.
  - injection Hprev as <-. injection Hcur as <-.
    destruct Hc as [Hc _]. destruct c as [|[|[|[|[|[|c]]]]]]; simpl in Hc; done.
  - injection Hprev as <-. injection Hcur as <-.
    destruct Hp as [Hp _]. destruct p as [|[|[|[|[|[|p]]]]]]; simpl in Hp; done.
Defined.


(** ** The normalizer *)

Section Normalizer.

Lemma firstsFrom_ext (s1 s2 l : list string) :
  (∀ x, x ∈ s1 ↔ x ∈ s2) → firstsFrom s1 l = firstsFrom s2 l.
Proof.
  revert s1 s2. induction l as [|x l IH]; intros s1 s2 Hs; simpl; [done|].
  rewrite (bool_decide_ext (x ∈ s1) (x ∈ s2)) by apply Hs.
  destruct (bool_decide (x ∈ s2)); [by apply IH|].
  f_equal. apply IH. intros y. rewrite !elem_of_cons, Hs. done.
Qed.

Lemma firstsFrom_app (seen a b : list string) :
  firstsFrom seen (a ++ b) = firstsFrom seen a ++ firstsFrom (a ++ seen) b.
Proof.
  revert seen. induction a as [|x a IH]; intros seen; simpl; [done|].
  destruct (bool_decide (x ∈ seen)) eqn:E.
  - rewrite IH. f_equal. apply firstsFrom_ext. intros y.
    apply bool_decide_eq_true in E. rewrite elem_of_cons, !elem_of_app. naive_solver.
  - simpl. f_equal. rewrite IH. f_equal. apply firstsFrom_ext. intros y.
    rewrite elem_of_cons, !elem_of_app, elem_of_cons. naive_solver.
Qed.

Lemma elem_of_firstsFrom (seen l : list string) (x : string) :
  x ∈ firstsFrom seen l ↔ x ∈ l ∧ x ∉ seen.
Proof.
  revert seen. induction l as [|y l IH]; intros seen; simpl.
  - rewrite elem_of_nil. naive_solver.
  - destruct (bool_decide (y ∈ seen)) eqn:E.
    + apply bool_decide_eq_true in E. rewrite IH, elem_of_cons. naive_solver.
    + apply bool_decide_eq_false in E. rewrite !elem_of_cons, IH, elem_of_cons.
      destruct (decide (x = y)); naive_solver.
Qed.

Lemma NoDup_firstsFrom (seen l : list string) : NoDup (firstsFrom seen l).
Proof.
  revert seen. induction l as [|y l IH]; intros seen; simpl; [constructor|].
  destruct (bool_decide (y ∈ seen)); [apply IH|].
  constructor; [|apply IH]. rewrite elem_of_firstsFrom, elem_of_cons. naive_solver.
Qed.

Lemma firstsFrom_NoDup (seen l : list string) :
  NoDup l → firstsFrom seen l = List.filter (λ x, negb (bool_decide (x ∈ seen))) l.
Proof.
  revert seen. induction l as [|y l IH]; intros seen Hnd; simpl; [done|].
  apply NoDup_cons in Hnd as [Hy Hnd].
  destruct (bool_decide (y ∈ seen)) eqn:E; simpl; [by apply IH|].
  f_equal. rewrite IH by done. apply filter_ext_in. intros x Hx.
  apply list_elem_of_In in Hx. f_equal. apply bool_decide_ext.
  rewrite elem_of_cons. naive_solver.
Qed.

Lemma firsts_NoDup (l : list string) : NoDup l → firsts l = l.
Proof.
  intros Hnd. unfold firsts. rewrite firstsFrom_NoDup by done.
  induction l as [|x l IH]; simpl; [done|].
  apply NoDup_cons in Hnd as [_ Hnd]. f_equal. by apply IH.
Qed.

Lemma agreesWith_snoc (data acc : jsobject) (k : string) v :
  agreesWith data acc → has k acc = false → get k data = Some v →
  agreesWith data (acc ++ [(k, v)]).
Proof.
  intros Hinv Hk Hv k' Hk'. rewrite get_app.
  destruct (get k' acc) as [v'|] eqn:E.
  - rewrite <- E. apply Hinv. by eapply get_Some_has.
  - simpl. destruct (String.eqb_spec k' k) as [->|Hne]; [done|].
    apply get_None_has in E. apply has_true in Hk'. apply has_false in E.
    rewrite keys_app, elem_of_app in Hk'. unfold keys in Hk' at 2. simpl in Hk'.
    destruct Hk' as [?|Hk']; [done|]. apply list_elem_of_singleton in Hk'. done.
Qed.

Lemma addNew_agreesWith (data acc : jsobject) (ks : list string) :
  agreesWith data acc → agreesWith data (addNew data acc ks).
Proof.
  revert acc. induction ks as [|k ks IH]; intros acc Hinv; simpl; [done|].
  apply IH. destruct (get k data) as [v|] eqn:Hv; [|done].
  destruct (has k acc) eqn:Hk; [done|]. by apply agreesWith_snoc.
Qed.

Lemma first_loop (data acc : jsobject) (order : list string) :
  agreesWith data acc →
  fold_left (λ sortedData prop,
               if has prop data then set prop (getv prop data) sortedData
               else sortedData) order acc = addNew data acc order.
Proof.
  revert acc. induction order as [|k ks IH]; intros acc Hinv; simpl; [done|].
  destruct (has k data) eqn:Hkd.
  - destruct (has_get _ _ Hkd) as [v Hv]. rewrite Hv, (getv_Some _ _ _ Hv).
    destruct (has k acc) eqn:Hk.
    + rewrite set_same; [by apply IH|]. rewrite <- Hv. by apply Hinv.
    + rewrite set_fresh by done. apply IH. by apply agreesWith_snoc.
  - apply get_None_has in Hkd. rewrite Hkd. by apply IH.
Qed.

Lemma second_loop (data acc : jsobject) (ks : list string) :
  (∀ k, k ∈ ks → has k data = true) →
  fold_left (λ sortedData prop,
               if negb (has prop sortedData)
               then set prop (getv prop data) sortedData
               else sortedData) ks acc = addNew data acc ks.
Proof.
  revert acc. induction ks as [|k ks IH]; intros acc Hks; simpl; [done|].
  destruct (has_get k data) as [v Hv]; [apply Hks; left|].
  rewrite Hv, (getv_Some _ _ _ Hv).
  assert (∀ k', k' ∈ ks → has k' data = true) as Hks' by (intros k' Hk'; apply Hks; by right).
  destruct (has k acc) eqn:Hk; simpl; [by apply IH|].
  rewrite set_fresh by done. by apply IH.
Qed.

Lemma sortedData_addNew (order : list string) (data : jsobject) :
  Frontmatter.sortedData order data = addNew data [] (order ++ keys data).
Proof.
  unfold Frontmatter.sortedData.
  rewrite second_loop by (intros k Hk; by apply has_true).
  rewrite first_loop by (intros k [=]).
  unfold addNew. by rewrite fold_left_app.
Qed.

Lemma keys_addNew (data acc : jsobject) (ks : list string) :
  keys (addNew data acc ks)
  = keys acc ++ firstsFrom (keys acc) (List.filter (λ k, has k data) ks).
Proof.
  revert acc. induction ks as [|k ks IH]; intros acc; simpl.
  - by rewrite app_nil_r.
  - destruct (get k data) as [v|] eqn:Hv.
    + rewrite (get_Some_has _ _ _ Hv). simpl.
      destruct (has k acc) eqn:Hk.
      * rewrite bool_decide_eq_true_2 by (by apply has_true). apply IH.
      * rewrite bool_decide_eq_false_2 by (by apply has_false).
        rewrite IH, keys_app. simpl. rewrite <- app_assoc. simpl. do 2 f_equal.
        apply firstsFrom_ext. intros x.
        rewrite elem_of_app, list_elem_of_singleton, elem_of_cons. naive_solver.
    + apply get_None_has in Hv. rewrite Hv. apply IH.
Qed.

Lemma filter_has_keys (data : jsobject) :
  List.filter (λ k, has k data) (keys data) = keys data.
Proof.
  apply forallb_filter_id, forallb_forall. intros k Hk.
  apply has_true. by apply list_elem_of_In.
Qed.

Lemma keys_sortedData (order : list string) (data : jsobject) :
  keys (Frontmatter.sortedData order data)
  = firsts (List.filter (λ k, has k data) order ++ keys data).
Proof.
  rewrite sortedData_addNew, keys_addNew. simpl.
  by rewrite List.filter_app, filter_has_keys.
Qed.

Lemma NoDup_keys_sortedData (order : list string) (data : jsobject) :
  NoDup (keys (Frontmatter.sortedData order data)).
Proof. rewrite keys_sortedData. apply NoDup_firstsFrom. Qed.

Lemma has_sortedData (order : list string) (data : jsobject) (k : string) :
  has k (Frontmatter.sortedData order data) = has k data.
Proof.
  apply eq_true_iff_eq. rewrite !has_true, keys_sortedData.
  unfold firsts. rewrite elem_of_firstsFrom, elem_of_app, list_elem_of_In, filter_In.
  rewrite <- list_elem_of_In, has_true. pose proof (not_elem_of_nil k). naive_solver.
Qed.

Lemma get_sortedData (order : list string) (data : jsobject) (k : string) :
  get k (Frontmatter.sortedData order data) = get k data.
Proof.
  destruct (has k data) eqn:Hk.
  - rewrite sortedData_addNew. apply addNew_agreesWith; [intros k' [=]|].
    rewrite <- sortedData_addNew. by rewrite has_sortedData.
  - pose proof Hk as Hk'. rewrite <- (has_sortedData order) in Hk'.
    apply get_None_has in Hk, Hk'. congruence.
Qed.

End Normalizer.

Section NormalizerLaws.





Lemma keys_sortedData_split (order : list string) (m : jsobject) :
  NoDup (keys m) →
  keys (Frontmatter.sortedData order m)
  = firsts (List.filter (λ k, has k m) order)
    ++ List.filter (λ k, negb (bool_decide (k ∈ order))) (keys m).
Proof.
  intros Hnd. rewrite keys_sortedData. unfold firsts. rewrite firstsFrom_app. f_equal.
  rewrite firstsFrom_NoDup by done. apply filter_ext_in. intros k Hk.
  apply list_elem_of_In, has_true in Hk. f_equal. apply bool_decide_ext.
  rewrite app_nil_r, list_elem_of_In, filter_In, <- list_elem_of_In. naive_solver.
Qed.

Lemma filter_sublist {A} (f : A → bool) (l : list A) : List.filter f l `sublist_of` l.
Proof.
  induction l as [|x l IH]; simpl; [constructor|].
  destruct (f x); [by apply sublist_skip|by apply sublist_cons].
Qed.

End NormalizerLaws.


(** C5.  Under names that are neither array indices nor members of
    [Object.prototype], and for a body in which gray-matter finds no front
    matter of its own, the normalizer changes the key order and the end of
    the body, and nothing else: the normalized mapping has the keys of the
    input and the input's value at every key; the keys that occur in the
    canonical order come first, in canonical order, and the other keys
    follow in their original order; the file is written back with its body
    ending in a line feed (the body as it was when it ended in one, the
    body and a line feed when it did not), and no other file is touched. *)
Theorem normalize_frame `{path : NodePath.Api} (config : LintConfig) (m : jsobject)
    (body : string) :
  forallb plainName (propertyOrder config ++ keys m) = true →
  plainBody body = true →
  let order := propertyOrder config in
  let normalize := Frontmatter.sortedData order in
  (∀ k, k ∈ keys (normalize m) ↔ k ∈ keys m)
  ∧ (∀ k, get k (normalize m) = get k m)
  ∧ NoDup (keys (normalize m))
  ∧ (NoDup (keys m) →
       keys (normalize m)
       = firsts (List.filter (λ k, has k m) order)
         ++ List.filter (λ k, negb (bool_decide (k ∈ order))) (keys m))
  ∧ (NoDup (keys m) → NoDup order →
       keys (normalize m)
       = List.filter (λ k, has k m) order
         ++ List.filter (λ k, negb (bool_decide (k ∈ order))) (keys m))
  ∧ (∀ docs filePath,
       (Zenn.sortFrontmatter config filePath
          (<[filePath := {| data := m; content := body |}]> docs)).1
       = <[filePath := {| data := normalize m; content := newline body |}]> docs
       ∧ (MdxLinter.sortFrontmatter config filePath
            (<[filePath := {| data := m; content := body |}]> docs)).1
         = <[filePath := {| data := normalize m; content := newline body |}]> docs)
  ∧ (Str.endsWith nl body = true → newline body = body)
  ∧ (Str.endsWith nl body = false → newline body = body +:+ nl).
Proof.
  intros _ _ order normalize. unfold normalize.
  split; [|split; [|split; [|split; [|split; [|split; [|split]]]]]].
  - intros k. by rewrite <- !has_true, has_sortedData.
  - apply get_sortedData.
  - apply NoDup_keys_sortedData.
  - apply keys_sortedData_split.
  - intros Hm Ho. rewrite keys_sortedData_split by done. f_equal.
    apply firsts_NoDup. eapply sublist_NoDup; [exact Ho|apply filter_sublist].
  - intros docs filePath. unfold Zenn.sortFrontmatter, MdxLinter.sortFrontmatter.
    rewrite lookup_insert_eq. simpl. by rewrite insert_insert_eq.
  - apply newline_fixed.
  - unfold newline. by intros ->.
Qed.

Lemma normalize_frame_witness :
  keys (Frontmatter.sortedData (propertyOrder Zenn.DEFAULT_CONFIG)
          [("published", JBool true); ("lang", JStr "ja"); ("emoji", JStr "e");
           ("title", JStr "T"); ("draft", JBool false)])
  = ["title"; "emoji"; "published"; "lang"; "draft"]
  ∧ newline "# Heading" = "# Heading" +:+ nl.
Proof.
  pose proof (normalize_frame (path := NodePath.posix) Zenn.DEFAULT_CONFIG
          [("published", JBool true); ("lang", JStr "ja"); ("emoji", JStr "e");
           ("title", JStr "T"); ("draft", JBool false)] "# Heading"
          eq_refl eq_refl) as (_ & _ & _ & _ & Hkeys & _ & _ & Hbody).
  split.
  - rewrite Hkeys.
    + reflexivity.
    + apply (bool_decide_unpack _). vm_compute. exact I.
    + apply (bool_decide_unpack _). vm_compute. exact I.
  - apply Hbody. reflexivity.
Defined.

(** C5 as the claim has it, with the body untouched, fails:
    [sortFrontmatter] on a file whose body is [text], without a line feed
    at its end, leaves the body [text] followed by a line feed. *)
Lemma normalize_frame_counterexample :
  (Zenn.sortFrontmatter (path := NodePath.posix) Zenn.DEFAULT_CONFIG "articles/a.md"
     {[ "articles/a.md" :=
          {| data := [("emoji", JStr "e"); ("title", JStr "T")];
             content := "text" |} ]}).1 !! "articles/a.md"
  = Some {| data := [("title", JStr "T"); ("emoji", JStr "e")];
            content := "text" +:+ nl |}
  ∧ String.eqb ("text" +:+ nl) "text" = false.
Proof.
  split; [|reflexivity].
  unfold Zenn.sortFrontmatter. rewrite lookup_singleton_eq. simpl.
  by rewrite lookup_insert_eq.
Qed.

(** ** Regular expressions: the derivative test decides membership *)

Module RegexFacts.
Import Regex.

Lemma matches_Void_inv w : ¬ matches Void w.
Proof. inversion 1. Qed.

Lemma matches_Eps_inv w : matches Eps w ↔ w = [].
Proof. split; [by inversion 1|intros ->; constructor]. Qed.

Lemma matches_Cls_inv p w : matches (Cls p) w ↔ ∃ c, w = [c] ∧ p c = true.
Proof.
  split; [inversion 1; eauto|]. intros (c & -> & Hc). by constructor.
Qed.

Lemma matches_Cat_inv r1 r2 w :
  matches (Cat r1 r2) w ↔ ∃ w1 w2, w = w1 ++ w2 ∧ matches r1 w1 ∧ matches r2 w2.
Proof.
  split; [inversion 1; eauto|]. intros (w1 & w2 & -> & H1 & H2). by constructor.
Qed.

Lemma matches_Alt_inv r1 r2 w : matches (Alt r1 r2) w ↔ matches r1 w ∨ matches r2 w.
Proof.
  split; [inversion 1; eauto|]. intros [?|?]; [by apply MAltL|by apply MAltR].
Qed.

Lemma nullable_spec r : nullable r = true ↔ matches r [].
Proof.
  induction r as [| |p|r1 IH1 r2 IH2|r1 IH1 r2 IH2|r IH]; simpl.
  - split; [done|]. intros H. by apply matches_Void_inv in H.
  - split; [constructor|done].
  - split; [done|]. rewrite matches_Cls_inv. intros (c & [=] & _).
  - rewrite andb_true_iff, IH1, IH2, matches_Cat_inv. split.
    + intros [H1 H2]. exists [], []. done.
    + intros (w1 & w2 & Hw & H1 & H2). symmetry in Hw.
      apply app_eq_nil in Hw as [-> ->]. done.
  - rewrite orb_true_iff, IH1, IH2, matches_Alt_inv. done.
  - split; [constructor|done].
Qed.

Lemma matches_Star_cons r c w :
  matches (Star r) (c :: w) →
  ∃ w1 w2, w = w1 ++ w2 ∧ matches r (c :: w1) ∧ matches (Star r) w2.
Proof.
  remember (Star r) as sr eqn:Hsr. remember (c :: w) as cw eqn:Hcw.
  intros Hm. revert r c w Hsr Hcw.
  induction Hm as [| | | | | |r0 w1 w2 H1 _ H2 IH2]; intros r' c' w' Hsr Hcw; try done.
  injection Hsr as ->. destruct w1 as [|c1 w1]; simpl in Hcw.
  - by apply IH2.
  - injection Hcw as -> <-. eauto.
Qed.

Lemma deriv_spec c r w : matches (deriv c r) w ↔ matches r (c :: w).
Proof.
  revert w. induction r as [| |p|r1 IH1 r2 IH2|r1 IH1 r2 IH2|r IH]; intros w; simpl.
  - split; intros H; by apply matches_Void_inv in H.
  - split; intros H; [by apply matches_Void_inv in H|]. by apply matches_Eps_inv in H.
  - rewrite matches_Cls_inv. destruct (p c) eqn:Hp.
    + rewrite matches_Eps_inv. split; [intros ->; eauto|].
      intros (c' & [= -> ->] & _). done.
    + split; [intros H; by apply matches_Void_inv in H|].
      intros (c' & [= -> ->] & Hc). congruence.
  - assert (matches (Cat (deriv c r1) r2) w
            ↔ ∃ w1 w2, w = w1 ++ w2 ∧ matches r1 (c :: w1) ∧ matches r2 w2) as Hcat.
    { rewrite matches_Cat_inv. setoid_rewrite IH1. done. }
    rewrite (matches_Cat_inv r1 r2 (c :: w)).
    destruct (nullable r1) eqn:Hn.
    + rewrite matches_Alt_inv, Hcat, IH2. apply nullable_spec in Hn. split.
      * intros [(w1 & w2 & -> & H1 & H2)|H2].
        -- exists (c :: w1), w2. done.
        -- exists [], (c :: w). done.
      * intros (w1 & w2 & Hw & H1 & H2). destruct w1 as [|c1 w1]; simpl in Hw.
        -- right. by rewrite Hw.
        -- injection Hw as <- ->. left. eauto.
    + rewrite Hcat. split.
      * intros (w1 & w2 & -> & H1 & H2). exists (c :: w1), w2. done.
      * intros (w1 & w2 & Hw & H1 & H2). destruct w1 as [|c1 w1]; simpl in Hw.
        -- apply nullable_spec in H1. congruence.
        -- injection Hw as <- ->. eauto.
  - rewrite !matches_Alt_inv, IH1, IH2. done.
  - rewrite matches_Cat_inv. setoid_rewrite IH. split.
    + intros (w1 & w2 & -> & H1 & H2). by apply (MStarApp r (c :: w1) w2).
    + apply matches_Star_cons.
Qed.

Lemma matchb_spec r w : matchb r w = true ↔ matches r w.
Proof.
  unfold matchb. revert r. induction w as [|c w IH]; intros r; simpl.
  - apply nullable_spec.
  - rewrite IH. apply deriv_spec.
Qed.

Lemma test_spec r s : test r s = true ↔ matches r (list_ascii_of_string s).
Proof. apply matchb_spec. Qed.

(** What the shapes used by the scripts denote *)

Lemma matches_lit (l w : list ascii) : matches (lit l) w ↔ w = l.
Proof.
  revert w. induction l as [|c l IH]; intros w; simpl.
  - apply matches_Eps_inv.
  - rewrite matches_Cat_inv. setoid_rewrite matches_Cls_inv. setoid_rewrite IH. split.
    + intros (w1 & w2 & -> & (c' & -> & Hc) & ->). apply Ascii.eqb_eq in Hc. by subst.
    + intros ->. exists [c], l. split; [done|]. split; [|done].
      exists c. split; [done|]. apply Ascii.eqb_refl.
Qed.

Lemma matches_exactly p n w :
  matches (exactly n (Cls p)) w ↔ length w = n ∧ forallb p w = true.
Proof.
  revert w. induction n as [|n IH]; intros w; simpl.
  - rewrite matches_Eps_inv. split; [by intros ->|]. intros [Hl _]. by destruct w.
  - rewrite matches_Cat_inv. setoid_rewrite matches_Cls_inv. setoid_rewrite IH. split.
    + intros (w1 & w2 & -> & (c & -> & Hc) & Hl & Hall). simpl. rewrite Hc, Hall. auto.
    + intros [Hl Hall]. destruct w as [|c w]; [done|]. simpl in *.
      apply andb_true_iff in Hall as [Hc Hall]. exists [c], w. eauto 10.
Qed.

Lemma matches_upto p n w :
  matches (upto n (Cls p)) w ↔ (length w ≤ n)%nat ∧ forallb p w = true.
Proof.
  revert w. induction n as [|n IH]; intros w; simpl.
  - rewrite matches_Eps_inv. split; [by intros ->|]. intros [Hl _]. destruct w; [done|].
    simpl in Hl. lia.
  - rewrite matches_Alt_inv, matches_Eps_inv, matches_Cat_inv.
    setoid_rewrite matches_Cls_inv. setoid_rewrite IH. split.
    + intros [->|(w1 & w2 & -> & (c & -> & Hc) & Hl & Hall)]; simpl.
      * split; [lia|done].
      * rewrite Hc, Hall. split; [lia|done].
    + intros [Hl Hall]. destruct w as [|c w]; [by left|]. right. simpl in *.
      apply andb_true_iff in Hall as [Hc Hall]. exists [c], w.
      split; [done|]. split; [eauto|]. split; [lia|done].
Qed.

Lemma matches_between p m n w :
  (m ≤ n)%nat →
  matches (between m n (Cls p)) w ↔ (m ≤ length w ≤ n)%nat ∧ forallb p w = true.
Proof.
  intros Hmn. unfold between. rewrite matches_Cat_inv.
  setoid_rewrite matches_exactly. setoid_rewrite matches_upto. split.
  - intros (w1 & w2 & -> & [Hl1 Ha1] & [Hl2 Ha2]).
    rewrite length_app, forallb_app, Ha1, Ha2. split; [lia|done].
  - intros [Hl Hall]. exists (take m w), (drop m w).
    rewrite <- (take_drop m w) in Hall. rewrite forallb_app in Hall.
    apply andb_true_iff in Hall as [H1 H2].
    rewrite take_drop, length_take, length_drop. repeat split; try done; lia.
Qed.

Lemma matches_star_class p w : matches (Star (Cls p)) w ↔ forallb p w = true.
Proof.
  split.
  - induction w as [|c w IH]; [done|]. intros Hm.
    apply matches_Star_cons in Hm as (w1 & w2 & -> & Hc & Hs).
    apply matches_Cls_inv in Hc as (c' & [= -> ->] & Hc). simpl in *.
    rewrite Hc. by apply IH.
  - induction w as [|c w IH]; simpl; [constructor|].
    intros [Hc Hall]%andb_true_iff. apply (MStarApp _ [c] w); [by constructor|by apply IH].
Qed.

Lemma matches_plus_class p w :
  matches (plus (Cls p)) w ↔ w ≠ [] ∧ forallb p w = true.
Proof.
  unfold plus. rewrite matches_Cat_inv. setoid_rewrite matches_Cls_inv.
  setoid_rewrite matches_star_class. split.
  - intros (w1 & w2 & -> & (c & -> & Hc) & Hall). simpl. by rewrite Hc, Hall.
  - intros [Hne Hall]. destruct w as [|c w]; [done|]. simpl in Hall.
    apply andb_true_iff in Hall as [Hc Hall]. exists [c], w. eauto 10.
Qed.

End RegexFacts.

(** ** The slug check *)

Section SlugCheck.

Lemma slugChar_spec (c : ascii) : Regex.slugChar c = true ↔ InSlugClass c.
Proof.
  unfold InSlugClass.
  destruct c as [[] [] [] [] [] [] [] []]; vm_compute; split; intros Hc;
    solve [reflexivity | discriminate
          | right; right; right; reflexivity | right; right; left; reflexivity
          | left; lia | right; left; lia | exfalso; lia ].
Qed.

Lemma digit_spec (c : ascii) : Regex.digit c = true ↔ IsDigit c.
Proof.
  unfold IsDigit.
  destruct c as [[] [] [] [] [] [] [] []]; vm_compute; split; intros Hc;
    solve [reflexivity | discriminate | lia ].
Qed.

Lemma length_list_ascii (s : string) :
  length (list_ascii_of_string s) = String.length s.
Proof. induction s as [|c s IH]; simpl; [done|]. by rewrite IH. Qed.

Lemma forallb_elem_of {A} (p : A → bool) (l : list A) :
  forallb p l = true ↔ ∀ x, x ∈ l → p x = true.
Proof.
  rewrite forallb_forall. split; intros Hl x Hx; apply Hl; by apply list_elem_of_In.
Qed.

Lemma isValidSlug_spec (slug : string) :
  Zenn.isValidSlug slug = true
  ↔ (∀ c, c ∈ list_ascii_of_string slug → InSlugClass c)
    ∧ (12 ≤ String.length slug ≤ 50)%nat.
Proof.
  unfold Zenn.isValidSlug, Zenn.slugRegex.
  rewrite RegexFacts.test_spec, RegexFacts.matches_between by lia.
  rewrite length_list_ascii, forallb_elem_of.
  setoid_rewrite slugChar_spec. naive_solver.
Qed.

End SlugCheck.

(** C6.  The slug validator accepts exactly the strings made only of
    characters of [[a-z0-9_-]] whose length is between 12 and 50; the three
    examples come out as the spec says; the slug checked is the base name
    of the file without its extension, and the result flags an invalid slug
    only for a document of type [article]. *)
Theorem slug_check_spec `{path : NodePath.Api} (config : LintConfig)
    (docs : gmap string Document) (filePath : string) (doc : Document) :
  (∀ slug, Zenn.isValidSlug slug = true
           ↔ (∀ c, c ∈ list_ascii_of_string slug → InSlugClass c)
             ∧ (12 ≤ String.length slug ≤ 50)%nat)
  ∧ (Zenn.isValidSlug "how-to-use-it" = true ∧ String.length "how-to-use-it" = 13%nat)
  ∧ (Zenn.isValidSlug "bad" = false ∧ String.length "bad" = 3%nat)
  ∧ Zenn.isValidSlug "Has-Upper-Case-12" = false
  ∧ Zenn.extractSlugFromPath filePath
    = NodePath.basename filePath (NodePath.extname filePath)
  ∧ ∃ r, Zenn.lintZennFrontmatter config (<[filePath := doc]> docs) filePath = Some r
         ∧ Zenn.LintResult.contentType r = Zenn.getContentType config filePath
         ∧ (Zenn.LintResult.invalidSlug r = true
            ↔ Zenn.getContentType config filePath = "article"
              ∧ Zenn.isValidSlug (Zenn.extractSlugFromPath filePath) = false).
Proof.
  split; [apply isValidSlug_spec|].
  split; [by vm_compute|]. split; [by vm_compute|]. split; [by vm_compute|].
  split; [done|].
  unfold Zenn.lintZennFrontmatter. rewrite lookup_insert_eq.
  destruct (String.eqb_spec (Zenn.getContentType config filePath) "article") as [He|He].
  - destruct (Zenn.isValidSlug (Zenn.extractSlugFromPath filePath)) eqn:Hv; simpl;
      eexists; (split; [reflexivity|]); simpl; (split; [done|]); naive_solver.
  - eexists; (split; [reflexivity|]); simpl; (split; [done|]); naive_solver.
Qed.

(** With the POSIX reading of [path]: the slug of an article is its file
    name without [.md]; a short name is flagged in [articles/] and not in
    [books/]. *)
Example slug_of_article_path :
  let lint file :=
    Zenn.lintZennFrontmatter (path := NodePath.posix) Zenn.DEFAULT_CONFIG
      {[ file := {| data := [("title", JStr "T")]; content := "" |} ]} file in
  Zenn.extractSlugFromPath (path := NodePath.posix) "articles/how-to-use-it.md"
  = "how-to-use-it"
  ∧ Zenn.LintResult.invalidSlug <$> lint "articles/how-to-use-it.md" = Some false
  ∧ Zenn.LintResult.invalidSlug <$> lint "articles/bad.md" = Some true
  ∧ Zenn.LintResult.invalidSlug <$> lint "books/guide/bad.md" = Some false.
Proof. vm_compute. repeat split; reflexivity. Qed.

(** ** The validation loops *)

(** case analysis on the pair bound by [let '(docs, printed) := ...] *)
Ltac destruct_let_pair :=
  match goal with
  | |- context [let '(_, _) := ?e in _] => destruct e
  end.

Section Loops.
Context `{path : NodePath.Api}.

Lemma visitFile_clean config fixFlag st file :
  fileHasProblem config (ZennLinter.documents st) file = false →
  ZennLinter.visitFile config fixFlag st file = st.
Proof.
  unfold fileHasProblem, ZennLinter.visitFile.
  destruct (Zenn.lintZennFrontmatter _ _ _) as [r|]; [|done]. by intros ->.
Qed.

Lemma visitFile_problem config fixFlag st file :
  fileHasProblem config (ZennLinter.documents st) file = true →
  ZennLinter.hasErrors (ZennLinter.visitFile config fixFlag st file) = true.
Proof.
  unfold fileHasProblem, ZennLinter.visitFile.
  destruct (Zenn.lintZennFrontmatter _ _ _) as [r|]; [|done]. intros ->.
  by destruct_let_pair.
Qed.

Lemma visitFile_hasErrors_mono config fixFlag st file :
  ZennLinter.hasErrors st = true →
  ZennLinter.hasErrors (ZennLinter.visitFile config fixFlag st file) = true.
Proof.
  intros Hst. unfold ZennLinter.visitFile.
  destruct (Zenn.lintZennFrontmatter _ _ _) as [r|]; [|done].
  destruct (Zenn.documentHasProblem r); [|done].
  by destruct_let_pair.
Qed.

Lemma visitFile_books config fixFlag st file :
  ZennLinter.bookConfigResults (ZennLinter.visitFile config fixFlag st file)
  = ZennLinter.bookConfigResults st.
Proof.
  unfold ZennLinter.visitFile.
  destruct (Zenn.lintZennFrontmatter _ _ _) as [r|]; [|done].
  destruct (Zenn.documentHasProblem r); [|done].
  by destruct_let_pair.
Qed.

Lemma files_loop_mono config fixFlag files st :
  ZennLinter.hasErrors st = true →
  ZennLinter.hasErrors (fold_left (ZennLinter.visitFile config fixFlag) files st) = true.
Proof.
  revert st. induction files as [|f files IH]; intros st Hst; simpl; [done|].
  by apply IH, visitFile_hasErrors_mono.
Qed.

Lemma files_loop_hasErrors config fixFlag files st :
  ZennLinter.hasErrors st = false →
  ZennLinter.hasErrors (fold_left (ZennLinter.visitFile config fixFlag) files st)
  = existsb (fileHasProblem config (ZennLinter.documents st)) files.
Proof.
  revert st. induction files as [|f files IH]; intros st Hst; simpl; [done|].
  destruct (fileHasProblem config (ZennLinter.documents st) f) eqn:Hf; simpl.
  - by apply files_loop_mono, visitFile_problem.
  - rewrite visitFile_clean by done. by apply IH.
Qed.

Lemma files_loop_books config fixFlag files st :
  ZennLinter.bookConfigResults (fold_left (ZennLinter.visitFile config fixFlag) files st)
  = ZennLinter.bookConfigResults st.
Proof.
  revert st. induction files as [|f files IH]; intros st; simpl; [done|].
  by rewrite IH, visitFile_books.
Qed.

(** every file met by the first loop had a problem when it was linted *)
Lemma files_loop_results config fixFlag files st :
  Forall (λ r, Zenn.documentHasProblem r = true) (ZennLinter.frontmatterResults st) →
  Forall (λ r, Zenn.documentHasProblem r = true)
    (ZennLinter.frontmatterResults (fold_left (ZennLinter.visitFile config fixFlag) files st)).
Proof.
  revert st. induction files as [|f files IH]; intros st Hst; simpl; [done|].
  apply IH. unfold ZennLinter.visitFile.
  destruct (Zenn.lintZennFrontmatter _ _ _) as [r|]; [|done].
  destruct (Zenn.documentHasProblem r) eqn:Hr; [|done].
  destruct_let_pair; simpl. apply Forall_app; split; [done|by constructor].
Qed.

Lemma files_loop_nonempty config fixFlag files st :
  (ZennLinter.hasErrors st = true ↔ ZennLinter.frontmatterResults st ≠ []) →
  let st' := fold_left (ZennLinter.visitFile config fixFlag) files st in
  ZennLinter.hasErrors st' = true ↔ ZennLinter.frontmatterResults st' ≠ [].
Proof.
  revert st. induction files as [|f files IH]; intros st Hst; simpl; [done|].
  apply IH. unfold ZennLinter.visitFile.
  destruct (Zenn.lintZennFrontmatter _ _ _) as [r|]; [|done].
  destruct (Zenn.documentHasProblem r) eqn:Hr; [|done].
  destruct_let_pair; simpl.
  split; [intros _|done]. by destruct (ZennLinter.frontmatterResults st).
Qed.

Lemma books_loop config files dirs st :
  let st' := fold_left (ZennLinter.visitBook config files) dirs st in
  ZennLinter.hasErrors st'
  = ZennLinter.hasErrors st
    || existsb (λ dir, ZennLinter.bookHasProblem (ZennLinter.lintBookConfig config files dir)) dirs
  ∧ ZennLinter.bookConfigResults st'
    = ZennLinter.bookConfigResults st
      ++ List.filter ZennLinter.bookHasProblem
           (map (ZennLinter.lintBookConfig config files) dirs)
  ∧ ZennLinter.frontmatterResults st' = ZennLinter.frontmatterResults st
  ∧ ZennLinter.documents st' = ZennLinter.documents st
  ∧ ZennLinter.stdout st' = ZennLinter.stdout st.
Proof.
  revert st. induction dirs as [|d dirs IH]; intros st; simpl.
  - by rewrite orb_false_r, app_nil_r.
  - destruct (IH (ZennLinter.visitBook config files st d)) as (-> & -> & -> & -> & ->).
    unfold ZennLinter.visitBook.
    destruct (ZennLinter.bookHasProblem _) eqn:Hp; simpl.
    + by rewrite orb_true_r, <- app_assoc.
    + done.
Qed.

Lemma scriptFiles_loop_books config fixFlag files st :
  ZennScript.bookConfigResults (fold_left (ZennScript.visitFile config fixFlag) files st)
  = ZennScript.bookConfigResults st.
Proof.
  revert st. induction files as [|f files IH]; intros st; simpl; [done|].
  rewrite IH. unfold ZennScript.visitFile.
  destruct (Zenn.lintZennFrontmatter _ _ _) as [r|]; [|done].
  destruct (Zenn.documentHasProblem r); [|done].
  by destruct_let_pair.
Qed.

Lemma scriptBooks_loop config files dirs st :
  ZennScript.bookConfigResults (fold_left (ZennScript.visitBook config files) dirs st)
  = ZennScript.bookConfigResults st
    ++ List.filter ZennScript.bookHasProblem
         (map (ZennScript.lintBookConfig config files) dirs).
Proof.
  revert st. induction dirs as [|d dirs IH]; intros st; simpl.
  - by rewrite app_nil_r.
  - rewrite IH. unfold ZennScript.visitBook.
    destruct (ZennScript.bookHasProblem _) eqn:Hp; simpl; [|done].
    by rewrite <- app_assoc.
Qed.

Lemma validateAll_books config fixFlag files docs articleFiles chapterFiles bookDirs :
  ZennLinter.bookConfigResults
    (ZennLinter.validateAll config fixFlag files docs articleFiles chapterFiles bookDirs)
  = List.filter ZennLinter.bookHasProblem
      (map (ZennLinter.lintBookConfig config files) bookDirs).
Proof.
  unfold ZennLinter.validateAll.
  destruct (books_loop config files bookDirs
              (fold_left (ZennLinter.visitFile config fixFlag)
                 (articleFiles ++ chapterFiles)
                 {| ZennLinter.hasErrors := false; ZennLinter.frontmatterResults := [];
                    ZennLinter.bookConfigResults := []; ZennLinter.documents := docs;
                    ZennLinter.stdout := [] |})) as (_ & -> & _).
  by rewrite files_loop_books.
Qed.

Lemma scriptValidateAll_books config fixFlag files docs articleFiles chapterFiles bookDirs :
  ZennScript.bookConfigResults
    (ZennScript.validateAll config fixFlag files docs articleFiles chapterFiles bookDirs)
  = List.filter ZennScript.bookHasProblem
      (map (ZennScript.lintBookConfig config files) bookDirs).
Proof.
  unfold ZennScript.validateAll. by rewrite scriptBooks_loop, scriptFiles_loop_books.
Qed.

Lemma validateAll_hasErrors config fixFlag files docs articleFiles chapterFiles bookDirs :
  ZennLinter.hasErrors
    (ZennLinter.validateAll config fixFlag files docs articleFiles chapterFiles bookDirs)
  = existsb (fileHasProblem config docs) (articleFiles ++ chapterFiles)
    || existsb (λ dir, ZennLinter.bookHasProblem (ZennLinter.lintBookConfig config files dir))
         bookDirs.
Proof.
  unfold ZennLinter.validateAll.
  destruct (books_loop config files bookDirs
              (fold_left (ZennLinter.visitFile config fixFlag)
                 (articleFiles ++ chapterFiles)
                 {| ZennLinter.hasErrors := false; ZennLinter.frontmatterResults := [];
                    ZennLinter.bookConfigResults := []; ZennLinter.documents := docs;
                    ZennLinter.stdout := [] |})) as (-> & _).
  by rewrite files_loop_hasErrors.
Qed.

End Loops.

(** C7.  When [config.yaml] cannot be read or parsed, both versions of the
    book validator return a result whose [missing] list is the whole list
    of required manifest keys and in which no other check has left a
    trace; the loop over the book directories goes on: the books before
    and after are linted as if the failing one were not there. *)
Theorem unparseable_manifest `{path : NodePath.Api} (config : LintConfig) (files : BookFiles)
    (bookDir : string) (fixFlag : bool) (docs : gmap string Document)
    (articleFiles chapterFiles before after : list string) :
  configYaml files bookDir = Unparseable →
  let full := ZennLinter.lintBookConfig config files bookDir in
  let script := ZennScript.lintBookConfig config files bookDir in
  let problems := List.filter ZennLinter.bookHasProblem in
  let scriptProblems := List.filter ZennScript.bookHasProblem in
  full = {| ZennLinter.BookConfigLintResult.dir := bookDir;
            ZennLinter.BookConfigLintResult.missing := bookConfigRequiredProperties config;
            ZennLinter.BookConfigLintResult.missingConfigFile := false;
            ZennLinter.BookConfigLintResult.invalidChapters := false;
            ZennLinter.BookConfigLintResult.chaptersError := None;
            ZennLinter.BookConfigLintResult.duplicateChapterSlug := false;
            ZennLinter.BookConfigLintResult.duplicateChapterNames := None |}
  ∧ script = {| ZennScript.BookConfigLintResult.dir := bookDir;
                ZennScript.BookConfigLintResult.missing := bookConfigRequiredProperties config;
                ZennScript.BookConfigLintResult.missingConfigFile := false;
                ZennScript.BookConfigLintResult.invalidChapters := false;
                ZennScript.BookConfigLintResult.chaptersError := None |}
  ∧ ZennLinter.bookConfigResults
      (ZennLinter.validateAll config fixFlag files docs articleFiles chapterFiles
         (before ++ bookDir :: after))
    = problems (map (ZennLinter.lintBookConfig config files) before)
      ++ problems [full]
      ++ problems (map (ZennLinter.lintBookConfig config files) after)
  ∧ ZennScript.bookConfigResults
      (ZennScript.validateAll config fixFlag files docs articleFiles chapterFiles
         (before ++ bookDir :: after))
    = scriptProblems (map (ZennScript.lintBookConfig config files) before)
      ++ scriptProblems [script]
      ++ scriptProblems (map (ZennScript.lintBookConfig config files) after).
Proof.
  intros Hcfg full script problems scriptProblems.
  split; [|split; [|split]].
  - unfold full, ZennLinter.lintBookConfig. by rewrite Hcfg.
  - unfold script, ZennScript.lintBookConfig. by rewrite Hcfg.
  - rewrite validateAll_books. change (bookDir :: after) with ([bookDir] ++ after).
    unfold problems. by rewrite !map_app, !List.filter_app.
  - rewrite scriptValidateAll_books. change (bookDir :: after) with ([bookDir] ++ after).
    unfold scriptProblems. by rewrite !map_app, !List.filter_app.
Qed.

Lemma unparseable_manifest_witness :
  ZennLinter.BookConfigLintResult.missing
    (ZennLinter.lintBookConfig (path := NodePath.posix) Zenn.DEFAULT_CONFIG
       {| configYaml := λ _, Unparseable; readdirSync := λ _, [] |} "books/broken")
  = ["title"; "summary"; "topics"; "published"; "price"; "chapters"].
Proof.
  destruct (unparseable_manifest (path := NodePath.posix) Zenn.DEFAULT_CONFIG
              {| configYaml := λ _, Unparseable; readdirSync := λ _, [] |}
              "books/broken" false ∅ [] [] [] [] eq_refl) as (Hfull & _).
  rewrite Hfull. reflexivity.
Defined.

Section Aggregation.
Context `{path : NodePath.Api}.

Lemma existsb_elem_of {A} (f : A → bool) (l : list A) :
  existsb f l = true ↔ ∃ x, x ∈ l ∧ f x = true.
Proof. rewrite existsb_exists. by setoid_rewrite list_elem_of_In. Qed.

Lemma existsb_Permutation {A} (f : A → bool) (l l' : list A) :
  l ≡ₚ l' → existsb f l = existsb f l'.
Proof.
  intros Hp. apply eq_true_iff_eq. rewrite !existsb_elem_of.
  by setoid_rewrite Hp.
Qed.

Lemma positive_length {A} (l : list A) : (0 <? length l)%nat = true ↔ l ≠ [].
Proof. destruct l; simpl; naive_solver. Qed.

Lemma documentHasProblem_spec (r : Zenn.LintResult.t) :
  Zenn.documentHasProblem r = true
  ↔ Zenn.LintResult.missing r ≠ [] ∨ Zenn.LintResult.wrongOrder r = true
    ∨ Zenn.LintResult.invalidSlug r = true.
Proof.
  unfold Zenn.documentHasProblem. rewrite !orb_true_iff, positive_length. naive_solver.
Qed.

Lemma bookHasProblem_spec (r : ZennLinter.BookConfigLintResult.t) :
  ZennLinter.bookHasProblem r = true
  ↔ ZennLinter.BookConfigLintResult.missingConfigFile r = true
    ∨ ZennLinter.BookConfigLintResult.missing r ≠ []
    ∨ ZennLinter.BookConfigLintResult.invalidChapters r = true
    ∨ ZennLinter.BookConfigLintResult.duplicateChapterSlug r = true.
Proof.
  unfold ZennLinter.bookHasProblem. rewrite !orb_true_iff, positive_length. naive_solver.
Qed.

Lemma existsb_fmap {A B} (f : A → B) (p : B → bool) (l : list A) :
  existsb p (map f l) = existsb (λ x, p (f x)) l.
Proof. induction l as [|x l IH]; simpl; [done|]. by rewrite IH. Qed.

Lemma filter_nonempty {A} (f : A → bool) (l : list A) :
  List.filter f l ≠ [] ↔ existsb f l = true.
Proof.
  induction l as [|x l IH]; simpl; [naive_solver|].
  destruct (f x); simpl; naive_solver.
Qed.

Lemma validateAll_frontmatterResults config fixFlag files docs articleFiles chapterFiles bookDirs :
  let st := ZennLinter.validateAll config fixFlag files docs articleFiles chapterFiles bookDirs in
  ZennLinter.frontmatterResults st ≠ []
  ↔ existsb (fileHasProblem config docs) (articleFiles ++ chapterFiles) = true.
Proof.
  unfold ZennLinter.validateAll.
  set (st0 := {| ZennLinter.hasErrors := false; ZennLinter.frontmatterResults := [];
                 ZennLinter.bookConfigResults := []; ZennLinter.documents := docs;
                 ZennLinter.stdout := [] |}).
  destruct (books_loop config files bookDirs
              (fold_left (ZennLinter.visitFile config fixFlag)
                 (articleFiles ++ chapterFiles) st0)) as (_ & _ & Hres & _).
  simpl. rewrite Hres.
  rewrite <- (files_loop_hasErrors config fixFlag (articleFiles ++ chapterFiles) st0 eq_refl).
  symmetry. apply (files_loop_nonempty config fixFlag (articleFiles ++ chapterFiles) st0).
  simpl. naive_solver.
Qed.

End Aggregation.

(** C8.  The run is erroring exactly when some linted document has a
    missing required key, a wrong order or an invalid slug, or some book
    has no manifest, a missing required manifest key, invalid chapters or a
    duplicated chapter slug; this is the disjunction of the per-item
    findings, the same in whatever order the items are visited; the exit
    code is [1] when the run is erroring and [--fix] was not given, and [0]
    otherwise. *)
Theorem run_erroring `{path : NodePath.Api} (config : LintConfig) (fixFlag : bool)
    (files : BookFiles) (docs : gmap string Document)
    (articleFiles chapterFiles bookDirs : list string) :
  let st := ZennLinter.validateAll config fixFlag files docs
              articleFiles chapterFiles bookDirs in
  let run := ZennLinter.runMainWithoutExit config fixFlag files docs
               articleFiles chapterFiles bookDirs in
  (ZennLinter.hasErrors st = true
   ↔ (∃ file r, file ∈ articleFiles ++ chapterFiles
        ∧ Zenn.lintZennFrontmatter config docs file = Some r
        ∧ (Zenn.LintResult.missing r ≠ [] ∨ Zenn.LintResult.wrongOrder r = true
           ∨ Zenn.LintResult.invalidSlug r = true))
     ∨ (∃ dir, dir ∈ bookDirs
          ∧ let r := ZennLinter.lintBookConfig config files dir in
            ZennLinter.BookConfigLintResult.missingConfigFile r = true
            ∨ ZennLinter.BookConfigLintResult.missing r ≠ []
            ∨ ZennLinter.BookConfigLintResult.invalidChapters r = true
            ∨ ZennLinter.BookConfigLintResult.duplicateChapterSlug r = true))
  ∧ (ZennLinter.hasErrors st = true
     ↔ ZennLinter.frontmatterResults st ≠ [] ∨ ZennLinter.bookConfigResults st ≠ [])
  ∧ (∀ articleFiles' chapterFiles' bookDirs',
       articleFiles ++ chapterFiles ≡ₚ articleFiles' ++ chapterFiles' →
       bookDirs ≡ₚ bookDirs' →
       ZennLinter.hasErrors
         (ZennLinter.validateAll config fixFlag files docs
            articleFiles' chapterFiles' bookDirs')
       = ZennLinter.hasErrors st)
  ∧ ZennLinter.exitCode run = (if ZennLinter.hasErrors st && negb fixFlag then 1 else 0)%Z
  ∧ (ZennLinter.exitCode run ≠ 0%Z ↔ ZennLinter.hasErrors st = true ∧ fixFlag = false).
Proof.
  intros st run.
  assert (ZennLinter.exitCode run
          = (if ZennLinter.hasErrors st && negb fixFlag then 1 else 0)%Z) as Hexit.
  { unfold run, ZennLinter.runMainWithoutExit.
    destruct (Nat.eqb _ 0 && Nat.eqb _ 0 && Nat.eqb _ 0) eqn:Hempty; [|done].
    apply andb_true_iff in Hempty as [[Ha Hc]%andb_true_iff Hb].
    apply Nat.eqb_eq in Ha, Hc, Hb.
    apply nil_length_inv in Ha, Hc, Hb. unfold st. by rewrite Ha, Hc, Hb. }
  split; [|split; [|split; [|split]]].
  - unfold st. rewrite validateAll_hasErrors, orb_true_iff, !existsb_elem_of.
    split; (intros [Hd|Hb]; [left|right]).
    + destruct Hd as (file & Hin & Hp). unfold fileHasProblem in Hp.
      destruct (Zenn.lintZennFrontmatter config docs file) as [r|] eqn:Hr; [|done].
      exists file, r. by rewrite <- documentHasProblem_spec.
    + destruct Hb as (dir & Hin & Hp). exists dir. split; [done|].
      by apply bookHasProblem_spec.
    + destruct Hd as (file & r & Hin & Hr & Hp). exists file. split; [done|].
      unfold fileHasProblem. rewrite Hr. by apply documentHasProblem_spec.
    + destruct Hb as (dir & Hin & Hp). exists dir. split; [done|].
      by apply bookHasProblem_spec.
  - unfold st. rewrite validateAll_frontmatterResults, validateAll_books.
    by rewrite validateAll_hasErrors, orb_true_iff, filter_nonempty, existsb_fmap.
  - intros articleFiles' chapterFiles' bookDirs' Hf Hb. unfold st.
    rewrite !validateAll_hasErrors.
    by rewrite (existsb_Permutation _ _ _ Hf), (existsb_Permutation _ _ _ Hb).
  - done.
  - rewrite Hexit. destruct (ZennLinter.hasErrors st), fixFlag; simpl; naive_solver.
Qed.

Lemma run_erroring_witness :
  ZennLinter.hasErrors
    (ZennLinter.validateAll (path := NodePath.posix) Zenn.DEFAULT_CONFIG false
       {| configYaml := λ _, NoConfigFile; readdirSync := λ _, [] |}
       ∅ ["articles/b.md"] ["books/x/1.a.md"] ["books/y"; "books/x"])
  = true.
Proof.
  destruct (run_erroring (path := NodePath.posix) Zenn.DEFAULT_CONFIG false
       {| configYaml := λ _, NoConfigFile; readdirSync := λ _, [] |}
       ∅ ["books/x/1.a.md"] ["articles/b.md"] ["books/x"; "books/y"])
    as (_ & _ & Hperm & _).
  rewrite (Hperm ["articles/b.md"] ["books/x/1.a.md"] ["books/y"; "books/x"]).
  - reflexivity.
  - apply Permutation_swap.
  - apply Permutation_swap.
Defined.

(** ** Numbered chapter files and duplicate slugs *)

Section NumberedChapters.

Lemma span_app (p : ascii → bool) (w a b : list ascii) :
  Str.span p w = (a, b) → w = a ++ b ∧ forallb p a = true.
Proof.
  revert a b. induction w as [|c w IH]; intros a b; simpl.
  - by intros [= <- <-].
  - destruct (p c) eqn:Hc.
    + destruct (Str.span p w) as [a' b'] eqn:Hs. intros [= <- <-].
      destruct (IH a' b' eq_refl) as [-> Ha]. simpl. by rewrite Hc, Ha.
    + by intros [= <- <-].
Qed.

Lemma span_stop (p : ascii → bool) (a b : list ascii) :
  forallb p a = true → (∀ c b', b = c :: b' → p c = false) →
  Str.span p (a ++ b) = (a, b).
Proof.
  intros Ha Hb. induction a as [|c a IH]; simpl in *.
  - destruct b as [|c b']; [done|]. simpl. by rewrite (Hb c b' eq_refl).
  - apply andb_true_iff in Ha as [Hc Ha]. by rewrite Hc, IH.
Qed.

Lemma list_ascii_append (s1 s2 : string) :
  list_ascii_of_string (s1 +:+ s2) = list_ascii_of_string s1 ++ list_ascii_of_string s2.
Proof. induction s1 as [|c s1 IH]; simpl; [done|]. by rewrite IH. Qed.

Lemma list_ascii_inj (s1 s2 : string) :
  list_ascii_of_string s1 = list_ascii_of_string s2 → s1 = s2.
Proof.
  intros Heq. rewrite <- (string_of_list_ascii_of_string s1), Heq.
  apply string_of_list_ascii_of_string.
Qed.

Lemma list_ascii_nil (s : string) : list_ascii_of_string s = [] ↔ s = EmptyString.
Proof. destruct s; naive_solver. Qed.

Lemma NumberedChapter_shape (fileName slug : string) :
  NumberedChapter fileName slug
  ↔ ∃ digits, numberedShape (list_ascii_of_string fileName) digits (list_ascii_of_string slug).
Proof.
  unfold NumberedChapter, numberedShape. split.
  - intros (digits & Hd & Hds & Hs & Hss & ->). exists (list_ascii_of_string digits).
    rewrite !list_ascii_append, !list_ascii_nil, !forallb_elem_of.
    setoid_rewrite digit_spec. setoid_rewrite slugChar_spec. done.
  - intros (digits & Hd & Hds & Hs & Hss & Hw). exists (string_of_list_ascii digits).
    rewrite list_ascii_of_string_of_list_ascii.
    rewrite forallb_elem_of in Hds, Hss.
    setoid_rewrite digit_spec in Hds. setoid_rewrite slugChar_spec in Hss.
    rewrite list_ascii_nil in Hs.
    split; [|split; [done|split; [done|split; [done|]]]].
    + intros He. apply Hd. apply (f_equal list_ascii_of_string) in He.
      by rewrite list_ascii_of_string_of_list_ascii in He.
    + apply list_ascii_inj. by rewrite !list_ascii_append, list_ascii_of_string_of_list_ascii.
Qed.

Lemma matches_plus_then p r w :
  Regex.matches (Regex.Cat (Regex.plus (Regex.Cls p)) r) w
  ↔ ∃ a b, w = a ++ b ∧ a ≠ [] ∧ forallb p a = true ∧ Regex.matches r b.
Proof.
  rewrite RegexFacts.matches_Cat_inv. split.
  - intros (a & b & -> & [Ha Hp]%RegexFacts.matches_plus_class & Hr). eauto 10.
  - intros (a & b & -> & Ha & Hp & Hr). exists a, b.
    split; [done|]. split; [|done]. by apply RegexFacts.matches_plus_class.
Qed.

Lemma matches_lit_then l r w :
  Regex.matches (Regex.Cat (Regex.lit l) r) w ↔ ∃ b, w = l ++ b ∧ Regex.matches r b.
Proof.
  rewrite RegexFacts.matches_Cat_inv. split.
  - intros (a & b & -> & ->%RegexFacts.matches_lit & Hr). eauto.
  - intros (b & -> & Hr). exists l, b. split; [done|]. split; [|done].
    by apply RegexFacts.matches_lit.
Qed.

Lemma isNumbered_shape (fileName : string) :
  ZennLinter.isNumberedChapterFileName fileName = true
  ↔ ∃ digits slug, numberedShape (list_ascii_of_string fileName) digits slug.
Proof.
  unfold ZennLinter.isNumberedChapterFileName, ZennLinter.chapterNumberPattern, numberedShape.
  rewrite RegexFacts.test_spec, matches_plus_then. split.
  - intros (d & rest & -> & Hd & Hds & Hrest).
    apply matches_lit_then in Hrest as (rest' & -> & Hrest).
    apply matches_plus_then in Hrest as (s & md & -> & Hs & Hss & Hmd).
    apply RegexFacts.matches_lit in Hmd as ->. exists d, s. done.
  - intros (d & s & Hd & Hds & Hs & Hss & ->).
    exists d, ("."%char :: s ++ list_ascii_of_string ".md").
    split; [done|]. split; [done|]. split; [done|].
    apply matches_lit_then. exists (s ++ list_ascii_of_string ".md"). split; [done|].
    apply matches_plus_then. exists s, (list_ascii_of_string ".md").
    split; [done|]. split; [done|]. split; [done|]. by apply RegexFacts.matches_lit.
Qed.

Lemma dot_not_digit : Regex.digit "." = false.
Proof. reflexivity. Qed.

Lemma dot_not_slugChar : Regex.slugChar "." = false.
Proof. reflexivity. Qed.

Lemma matchNumbered_shape (fileName slug : string) :
  ZennLinter.matchNumberedChapter fileName = Some slug
  ↔ ∃ digits, numberedShape (list_ascii_of_string fileName) digits (list_ascii_of_string slug).
Proof.
  unfold ZennLinter.matchNumberedChapter, numberedShape. split.
  - destruct (Str.span Regex.digit _) as [digits rest] eqn:Hd.
    apply span_app in Hd as [Hw Hds].
    destruct digits as [|d digits]; [done|]. destruct rest as [|dot rest]; [done|].
    destruct (Str.span Regex.slugChar rest) as [group tail] eqn:Hs.
    apply span_app in Hs as [-> Hss].
    destruct (Ascii.eqb_spec dot ".") as [->|]; [|done]. simpl.
    destruct group as [|g group]; [done|]. simpl negb. cbv iota.
    destruct (String.eqb_spec (string_of_list_ascii tail) ".md") as [Ht|]; [|done].
    intros [= <-]. exists (d :: digits).
    change (String g (string_of_list_ascii group)) with (string_of_list_ascii (g :: group)).
    rewrite list_ascii_of_string_of_list_ascii, Hw.
    apply (f_equal list_ascii_of_string) in Ht.
    rewrite list_ascii_of_string_of_list_ascii in Ht. rewrite Ht. done.
  - intros (digits & Hd & Hds & Hs & Hss & ->).
    rewrite (span_stop Regex.digit digits _ Hds).
    2:{ intros c b' [= <- _]. apply dot_not_digit. }
    destruct digits as [|d digits]; [done|].
    rewrite (span_stop Regex.slugChar (list_ascii_of_string slug) _ Hss).
    2:{ intros c b' [= <- _]. apply dot_not_slugChar. }
    rewrite Ascii.eqb_refl. rewrite string_of_list_ascii_of_string.
    assert (Nat.eqb (length (list_ascii_of_string slug)) 0 = false) as ->.
    { destruct (list_ascii_of_string slug); done. }
    by rewrite !string_of_list_ascii_of_string.
Qed.

Lemma isNumbered_match (fileName : string) :
  ZennLinter.isNumberedChapterFileName fileName = true
  ↔ ∃ slug, ZennLinter.matchNumberedChapter fileName = Some slug.
Proof.
  rewrite isNumbered_shape. setoid_rewrite matchNumbered_shape. split.
  - intros (d & s & Hshape). exists (string_of_list_ascii s), d.
    by rewrite list_ascii_of_string_of_list_ascii.
  - intros (slug & d & Hshape). eauto.
Qed.

(** A numbered file name has exactly one reading, and the slug extracted
    from it is the one between the number and [.md]. *)
Lemma extractSlug_numbered (fileName : string) :
  ZennLinter.isNumberedChapterFileName fileName = true
  ↔ ∃ slug, NumberedChapter fileName slug
            ∧ ZennLinter.extractSlugFromNumberedChapter fileName = slug.
Proof.
  rewrite isNumbered_match. split.
  - intros (slug & Hm). exists slug. split.
    + by apply NumberedChapter_shape, matchNumbered_shape.
    + unfold ZennLinter.extractSlugFromNumberedChapter. rewrite Hm.
      apply matchNumbered_shape in Hm as (d & _ & _ & Hs & _).
      destruct (String.eqb_spec slug "") as [->|]; done.
  - intros (slug & Hn & _). exists slug.
    by apply matchNumbered_shape, NumberedChapter_shape.
Qed.

Lemma occurrences_nil (x : string) : occurrences x [] = 0%nat.
Proof. done. Qed.

Lemma occurrences_cons (x y : string) (l : list string) :
  occurrences x (y :: l) = ((if String.eqb x y then 1 else 0) + occurrences x l)%nat.
Proof. unfold occurrences. simpl. by destruct (String.eqb x y). Qed.

Lemma occurrences_app (x : string) (l1 l2 : list string) :
  occurrences x (l1 ++ l2) = (occurrences x l1 + occurrences x l2)%nat.
Proof. unfold occurrences. by rewrite List.filter_app, length_app. Qed.

Lemma occurrences_zero (x : string) (l : list string) :
  occurrences x l = 0%nat ↔ x ∉ l.
Proof.
  induction l as [|y l IH].
  { split; [intros _; apply not_elem_of_nil|done]. }
  rewrite occurrences_cons, not_elem_of_cons.
  destruct (String.eqb_spec x y); [|simpl; naive_solver].
  split; [lia|naive_solver].
Qed.

Lemma NoDup_occurrences (l : list string) :
  NoDup l ↔ ∀ x, (occurrences x l ≤ 1)%nat.
Proof.
  induction l as [|y l IH].
  - split; [intros _ x; unfold occurrences; simpl; lia|constructor].
  - rewrite NoDup_cons, IH. setoid_rewrite occurrences_cons. split.
    + intros [Hy Hl] x. destruct (String.eqb_spec x y) as [->|]; [|apply Hl].
      apply occurrences_zero in Hy. lia.
    + intros Hall. split.
      * apply occurrences_zero. specialize (Hall y). rewrite String.eqb_refl in Hall. lia.
      * intros x. specialize (Hall x). destruct (String.eqb x y); lia.
Qed.

Lemma noteSlug_fold (l : list string) (seen : gset string) (dups : list string)
    (x : string) :
  occurrences x (fold_left ZennLinter.noteSlug l (seen, dups)).2
  = (occurrences x dups
     + (if bool_decide (x ∈ seen) then occurrences x l
        else Nat.pred (occurrences x l)))%nat.
Proof.
  revert seen dups. induction l as [|y l IH]; intros seen dups; simpl.
  - rewrite occurrences_nil. destruct (bool_decide _); simpl; lia.
  - unfold ZennLinter.noteSlug at 2. simpl. rewrite occurrences_cons.
    destruct (bool_decide (y ∈ seen)) eqn:Hy.
    + rewrite IH, occurrences_app, occurrences_cons, occurrences_nil.
      apply bool_decide_eq_true in Hy.
      destruct (String.eqb_spec x y) as [->|Hne].
      * rewrite bool_decide_eq_true_2 by done. lia.
      * destruct (bool_decide (x ∈ seen)); lia.
    + rewrite IH. apply bool_decide_eq_false in Hy.
      destruct (String.eqb_spec x y) as [->|Hne].
      * rewrite bool_decide_eq_true_2 by set_solver.
        rewrite bool_decide_eq_false_2 by done. simpl. lia.
      * rewrite (bool_decide_ext (x ∈ {[y]} ∪ seen) (x ∈ seen)) by set_solver.
        simpl. done.
Qed.

(** Each slug is listed once for every occurrence after its first. *)
Lemma duplicateSlugsOf_occurrences (slugs : list string) (x : string) :
  occurrences x (ZennLinter.duplicateSlugsOf slugs) = Nat.pred (occurrences x slugs).
Proof.
  unfold ZennLinter.duplicateSlugsOf. rewrite noteSlug_fold.
  rewrite bool_decide_eq_false_2 by set_solver. rewrite occurrences_nil. lia.
Qed.

Lemma elem_of_duplicateSlugsOf (slugs : list string) (x : string) :
  x ∈ ZennLinter.duplicateSlugsOf slugs ↔ (2 ≤ occurrences x slugs)%nat.
Proof.
  pose proof (duplicateSlugsOf_occurrences slugs x) as Hocc.
  pose proof (occurrences_zero x (ZennLinter.duplicateSlugsOf slugs)) as Hz.
  destruct (decide (x ∈ ZennLinter.duplicateSlugsOf slugs)) as [Hin|Hin].
  - split; [|done]. intros _.
    destruct (occurrences x (ZennLinter.duplicateSlugsOf slugs)) eqn:E; [|lia].
    naive_solver.
  - split; [done|]. intros Hge. apply Hz in Hin. lia.
Qed.

Lemma duplicateSlugsOf_nil (slugs : list string) :
  ZennLinter.duplicateSlugsOf slugs = [] ↔ NoDup slugs.
Proof.
  rewrite NoDup_occurrences. split.
  - intros Hnil x. pose proof (duplicateSlugsOf_occurrences slugs x) as Hocc.
    rewrite Hnil, occurrences_nil in Hocc. lia.
  - intros Hall. destruct (ZennLinter.duplicateSlugsOf slugs) as [|x dups] eqn:E; [done|].
    assert (x ∈ ZennLinter.duplicateSlugsOf slugs) as Hin by (rewrite E; left).
    apply elem_of_duplicateSlugsOf in Hin. specialize (Hall x). lia.
Qed.

End NumberedChapters.

(** ** The book manifest validator *)

Section BookManifest.
Context `{path : NodePath.Api}.

Lemma missingProps_object (required : list string) (props : jsobject) :
  missingProps required (JObj props)
  = Some (List.filter (λ prop, negb (has prop props)) required).
Proof.
  induction required as [|prop rest IH]; simpl; [done|].
  rewrite IH. simpl. by destruct (has prop props).
Qed.

Lemma field_get (k : string) (props : jsobject) v :
  get k props = Some v → field k (JObj props) = v.
Proof. intros Hg. simpl. by apply getv_Some. Qed.






Lemma markdownFiles_sorted (files : BookFiles) (bookDir : string) :
  StronglySorted String.le (markdownFiles files bookDir)
  ∧ markdownFiles files bookDir
    ≡ₚ List.filter (Str.endsWith ".md") (readdirSync files bookDir).
Proof.
  split; [apply StronglySorted_merge_sort; apply _|apply merge_sort_Permutation].
Qed.



End BookManifest.


(** C2.  With [chapters: []] and the directory entries [1.a.md], [2.b.md]
    the full linter finds nothing wrong, and with [1.a.md], [2.a.md] it
    reports invalid chapters and the duplicate [a]
    ([empty_chapters_fallback] has the general statement); on the same
    manifests [scripts/lint-zenn.ts] never looks at the directory and
    reports an empty chapter list as an error. *)
Theorem empty_chapters_script_rejects :
  let full := ZennLinter.lintBookConfig (path := NodePath.posix) Zenn.DEFAULT_CONFIG in
  let script := ZennScript.lintBookConfig Zenn.DEFAULT_CONFIG in
  let good := bookWith (JArr []) ["2.b.md"; "config.yaml"; "1.a.md"] in
  let twice := bookWith (JArr []) ["2.a.md"; "config.yaml"; "1.a.md"] in
  full good "books/x"
  = {| ZennLinter.BookConfigLintResult.dir := "books/x";
       ZennLinter.BookConfigLintResult.missing := [];
       ZennLinter.BookConfigLintResult.missingConfigFile := false;
       ZennLinter.BookConfigLintResult.invalidChapters := false;
       ZennLinter.BookConfigLintResult.chaptersError := None;
       ZennLinter.BookConfigLintResult.duplicateChapterSlug := false;
       ZennLinter.BookConfigLintResult.duplicateChapterNames := None |}
  ∧ numberedSlugs good "books/x" = ["a"; "b"]
  ∧ full twice "books/x"
    = {| ZennLinter.BookConfigLintResult.dir := "books/x";
         ZennLinter.BookConfigLintResult.missing := [];
         ZennLinter.BookConfigLintResult.missingConfigFile := false;
         ZennLinter.BookConfigLintResult.invalidChapters := true;
         ZennLinter.BookConfigLintResult.chaptersError :=
           Some "複数のチャプターで同じスラッグが使用されています: a";
         ZennLinter.BookConfigLintResult.duplicateChapterSlug := true;
         ZennLinter.BookConfigLintResult.duplicateChapterNames := Some ["a"] |}
  ∧ script good "books/x"
    = {| ZennScript.BookConfigLintResult.dir := "books/x";
         ZennScript.BookConfigLintResult.missing := [];
         ZennScript.BookConfigLintResult.missingConfigFile := false;
         ZennScript.BookConfigLintResult.invalidChapters := true;
         ZennScript.BookConfigLintResult.chaptersError :=
           Some "chaptersプロパティは少なくとも1つの章を含む必要があります。" |}
  ∧ script twice "books/x" = script good "books/x".
Proof. vm_compute. repeat split; reflexivity. Qed.

(** Whatever the directory holds, [scripts/lint-zenn.ts] rejects an empty
    chapter list. *)
Lemma script_rejects_empty_chapters (config : LintConfig) (files : BookFiles)
    (bookDir : string) (props : jsobject) :
  configYaml files bookDir = Loaded (JObj props) →
  get "chapters" props = Some (JArr []) →
  let r := ZennScript.lintBookConfig config files bookDir in
  ZennScript.BookConfigLintResult.invalidChapters r = true
  ∧ ZennScript.BookConfigLintResult.chaptersError r
    = Some "chaptersプロパティは少なくとも1つの章を含む必要があります。".
Proof.
  intros Hcfg Hch. unfold ZennScript.lintBookConfig, ZennScript.lintBookConfigBody.
  rewrite Hcfg, missingProps_object. simpl in_op.
  by rewrite (get_Some_has _ _ _ Hch), (field_get _ _ _ Hch).
Qed.

Section ChapterList.
Context `{path : NodePath.Api}.

Lemma chapterLacksFileOrTitle_object (o : jsobject) :
  ZennLinter.chapterLacksFileOrTitle (JObj o)
  = Some (negb (has "file" o) || negb (has "title" o)).
Proof.
  unfold ZennLinter.chapterLacksFileOrTitle. simpl.
  by destruct (has "file" o); simpl.
Qed.


Lemma chapterSlugs_cons (c : jsval) (rest : list jsval) :
  ZennLinter.chapterSlugs (c :: rest)
  = if truthy c && truthy (field "file" c) then
      match field "file" c with
      | JStr file =>
          slugs ← ZennLinter.chapterSlugs rest;
          Some (NodePath.basename file (NodePath.extname file) :: slugs)
      | _ => None
      end
    else ZennLinter.chapterSlugs rest.
Proof. reflexivity. Qed.




(** [scripts/lint-zenn.ts] on the same manifest: [null] is not an array. *)
Lemma script_rejects_null_chapters (config : LintConfig) (files : BookFiles)
    (bookDir : string) (props : jsobject) :
  configYaml files bookDir = Loaded (JObj props) →
  get "chapters" props = Some JNull →
  let r := ZennScript.lintBookConfig config files bookDir in
  ZennScript.BookConfigLintResult.invalidChapters r = true
  ∧ ZennScript.BookConfigLintResult.chaptersError r
    = Some "chaptersプロパティは配列である必要があります。".
Proof.
  intros Hcfg Hch. unfold ZennScript.lintBookConfig, ZennScript.lintBookConfigBody.
  rewrite Hcfg, missingProps_object. simpl in_op.
  by rewrite (get_Some_has _ _ _ Hch), (field_get _ _ _ Hch).
Qed.

End ChapterList.



(** C3.  A descriptor without [title] makes the chapters invalid in both
    versions.  On two descriptors with the same file the full linter flags
    the duplicate slug and lists it ([chapter_list_checks] has the general
    statement); [scripts/lint-zenn.ts] has no duplicate check: its result
    is clean and its run exits with [0]. *)
Theorem duplicate_slugs_script_misses :
  let full := ZennLinter.lintBookConfig (path := NodePath.posix) Zenn.DEFAULT_CONFIG in
  let script := ZennScript.lintBookConfig Zenn.DEFAULT_CONFIG in
  let lacking := bookWith (JArr [JObj [("file", JStr "x.md")]]) [] in
  let repeated := bookWith (JArr [chapter "a.md" "One"; chapter "a.md" "Two"]) [] in
  ZennLinter.BookConfigLintResult.invalidChapters (full lacking "books/x") = true
  ∧ ZennScript.BookConfigLintResult.invalidChapters (script lacking "books/x") = true
  ∧ full repeated "books/x"
    = {| ZennLinter.BookConfigLintResult.dir := "books/x";
         ZennLinter.BookConfigLintResult.missing := [];
         ZennLinter.BookConfigLintResult.missingConfigFile := false;
         ZennLinter.BookConfigLintResult.invalidChapters := false;
         ZennLinter.BookConfigLintResult.chaptersError := None;
         ZennLinter.BookConfigLintResult.duplicateChapterSlug := true;
         ZennLinter.BookConfigLintResult.duplicateChapterNames := Some ["a"] |}
  ∧ script repeated "books/x"
    = {| ZennScript.BookConfigLintResult.dir := "books/x";
         ZennScript.BookConfigLintResult.missing := [];
         ZennScript.BookConfigLintResult.missingConfigFile := false;
         ZennScript.BookConfigLintResult.invalidChapters := false;
         ZennScript.BookConfigLintResult.chaptersError := None |}
  ∧ ZennLinter.exitCode
      (ZennLinter.runMainWithoutExit (path := NodePath.posix) Zenn.DEFAULT_CONFIG false
         repeated ∅ [] [] ["books/x"]) = 1%Z
  ∧ ZennScript.exitCode
      (ZennScript.main (path := NodePath.posix) Zenn.DEFAULT_CONFIG false
         repeated ∅ [] [] ["books/x"]) = 0%Z.
Proof. vm_compute. repeat split; reflexivity. Qed.

(** Entries that are not mappings.  [find] hands back the entry itself and
    the scripts test that entry for truthiness, so a falsy entry ([0], the
    empty string, [false]) is found but not flagged; on a [null] entry the
    [in] operator throws and the [catch] reports every required key
    missing.  Both versions behave alike here. *)
Example chapter_entries_not_mappings :
  let full := ZennLinter.lintBookConfig (path := NodePath.posix) Zenn.DEFAULT_CONFIG in
  let script := ZennScript.lintBookConfig Zenn.DEFAULT_CONFIG in
  ZennLinter.BookConfigLintResult.invalidChapters
    (full (bookWith (JArr [JStr "intro.md"]) []) "books/x") = true
  ∧ ZennLinter.BookConfigLintResult.invalidChapters
      (full (bookWith (JArr [JNum 0]) []) "books/x") = false
  ∧ ZennScript.BookConfigLintResult.invalidChapters
      (script (bookWith (JArr [JNum 0]) []) "books/x") = false
  ∧ ZennLinter.BookConfigLintResult.missing
      (full (bookWith (JArr [JNull]) []) "books/x")
    = bookConfigRequiredProperties Zenn.DEFAULT_CONFIG
  ∧ ZennScript.BookConfigLintResult.missing
      (script (bookWith (JArr [JNull]) []) "books/x")
    = bookConfigRequiredProperties Zenn.DEFAULT_CONFIG.
Proof. vm_compute. repeat split; reflexivity. Qed.

(** C10.  On a manifest whose [chapters] value is [null] the full linter
    reports nothing ([null_chapters_pass] has the general statement);
    [scripts/lint-zenn.ts] reports invalid chapters, [null] not being an
    array ([script_rejects_null_chapters]). *)
Theorem null_chapters_script_rejects :
  let full := ZennLinter.lintBookConfig (path := NodePath.posix) Zenn.DEFAULT_CONFIG in
  let script := ZennScript.lintBookConfig Zenn.DEFAULT_CONFIG in
  full (bookWith JNull ["1.a.md"]) "books/x"
  = {| ZennLinter.BookConfigLintResult.dir := "books/x";
       ZennLinter.BookConfigLintResult.missing := [];
       ZennLinter.BookConfigLintResult.missingConfigFile := false;
       ZennLinter.BookConfigLintResult.invalidChapters := false;
       ZennLinter.BookConfigLintResult.chaptersError := None;
       ZennLinter.BookConfigLintResult.duplicateChapterSlug := false;
       ZennLinter.BookConfigLintResult.duplicateChapterNames := None |}
  ∧ script (bookWith JNull ["1.a.md"]) "books/x"
    = {| ZennScript.BookConfigLintResult.dir := "books/x";
         ZennScript.BookConfigLintResult.missing := [];
         ZennScript.BookConfigLintResult.missingConfigFile := false;
         ZennScript.BookConfigLintResult.invalidChapters := true;
         ZennScript.BookConfigLintResult.chaptersError :=
           Some "chaptersプロパティは配列である必要があります。" |}.
Proof. vm_compute. split; reflexivity. Qed.

(** ** The report *)

Section Report.
Context `{path : NodePath.Api}.

(** What the full linter prints for a book holds a line for each of its
    findings. *)
Lemma reportBook_findings (r : ZennLinter.BookConfigLintResult.t) :
  (ZennLinter.BookConfigLintResult.missingConfigFile r = true →
     "  config.yamlファイルが見つかりません" ∈ ZennLinter.reportBook r)
  ∧ (ZennLinter.BookConfigLintResult.missing r ≠ [] →
       missingKeysLine (ZennLinter.BookConfigLintResult.missing r)
       ∈ ZennLinter.reportBook r)
  ∧ (ZennLinter.BookConfigLintResult.invalidChapters r = true →
       "  " +:+ default "undefined" (ZennLinter.BookConfigLintResult.chaptersError r)
       ∈ ZennLinter.reportBook r)
  ∧ (ZennLinter.BookConfigLintResult.duplicateChapterSlug r = true →
       "  複数のチャプターで同じスラッグが使用されています: "
         +:+ join ", " (default [] (ZennLinter.BookConfigLintResult.duplicateChapterNames r))
       ∈ ZennLinter.reportBook r).
Proof.
  unfold ZennLinter.reportBook, missingKeysLine.
  split; [|split; [|split]].
  - intros ->. rewrite !elem_of_app. right. left. left.
  - intros Hm. apply positive_length in Hm. rewrite Hm.
    rewrite !elem_of_app. right. right. left. left.
  - intros ->. rewrite !elem_of_app. right. right. right. left. left.
  - intros ->. rewrite !elem_of_app. right. right. right. right. left.
Qed.

(** What it prints for a document holds a line for each of its findings. *)
Lemma reportDocument_findings (config : LintConfig) (fixFlag : bool)
    (r : Zenn.LintResult.t) :
  (Zenn.LintResult.missing r ≠ [] →
     missingKeysLine (Zenn.LintResult.missing r) ∈ Zenn.reportDocument config fixFlag r)
  ∧ (Zenn.LintResult.wrongOrder r = true →
       "  フロントマタープロパティの順序が推奨と異なります"
       ∈ Zenn.reportDocument config fixFlag r)
  ∧ (Zenn.LintResult.invalidSlug r = true →
       "  " +:+ default "undefined" (Zenn.LintResult.slugError r)
       ∈ Zenn.reportDocument config fixFlag r).
Proof.
  unfold Zenn.reportDocument, missingKeysLine.
  split; [|split].
  - intros Hm. apply positive_length in Hm. rewrite Hm.
    rewrite !elem_of_app. right. left. left.
  - intros ->. rewrite !elem_of_app. right. right. left. left. left.
  - intros ->. rewrite !elem_of_app. right. right. right. left.
Qed.

Lemma elem_of_concat_map {A} (f : A → list string) (l : list A) (x : A) (line : string) :
  x ∈ l → line ∈ f x → line ∈ concat (map f l).
Proof.
  intros Hx Hline. apply list_elem_of_In, in_concat. exists (f x).
  split; [apply in_map; by apply list_elem_of_In|by apply list_elem_of_In].
Qed.

(** X24.  Every result kept by the run is printed in full, and every book with
    a finding is kept. *)
Lemma report_complete (config : LintConfig) (fixFlag : bool) (files : BookFiles)
    (docs : gmap string Document) (articleFiles chapterFiles bookDirs : list string) :
  let st := ZennLinter.validateAll config fixFlag files docs
              articleFiles chapterFiles bookDirs in
  let out := ZennLinter.output
               (ZennLinter.runMainWithoutExit config fixFlag files docs
                  articleFiles chapterFiles bookDirs) in
  (∀ dir, dir ∈ bookDirs →
     ZennLinter.bookHasProblem (ZennLinter.lintBookConfig config files dir) = true →
     ZennLinter.lintBookConfig config files dir ∈ ZennLinter.bookConfigResults st)
  ∧ (∀ r line, r ∈ ZennLinter.bookConfigResults st →
       line ∈ ZennLinter.reportBook r → line ∈ out)
  ∧ (∀ r line, r ∈ ZennLinter.frontmatterResults st →
       line ∈ Zenn.reportDocument config fixFlag r → line ∈ out).
Proof.
  intros st out.
  assert (ZennLinter.bookConfigResults st ≠ [] ∨ ZennLinter.frontmatterResults st ≠ [] →
          out = ZennLinter.stdout st ++ ZennLinter.report config fixFlag st) as Hout.
  { intros Hres. unfold out, ZennLinter.runMainWithoutExit.
    destruct (Nat.eqb _ 0 && Nat.eqb _ 0 && Nat.eqb _ 0) eqn:Hempty; [|done].
    apply andb_true_iff in Hempty as [[Ha Hc]%andb_true_iff Hb].
    apply Nat.eqb_eq in Ha, Hc, Hb. apply nil_length_inv in Ha, Hc, Hb.
    unfold st in Hres. rewrite Ha, Hc, Hb in Hres. simpl in Hres. naive_solver. }
  split; [|split].
  - intros dir Hdir Hp. unfold st. rewrite validateAll_books.
    apply list_elem_of_In, filter_In. split; [|done].
    apply in_map. by apply list_elem_of_In.
  - intros r line Hr Hline. rewrite Hout.
    2:{ left. intros Hnil. rewrite Hnil in Hr. by apply elem_of_nil in Hr. }
    unfold ZennLinter.report.
    assert ((0 <? length (ZennLinter.bookConfigResults st))%nat = true) as ->.
    { apply positive_length. intros Hnil. rewrite Hnil in Hr. by apply elem_of_nil in Hr. }
    rewrite !elem_of_app. right. right. left. right.
    by apply (elem_of_concat_map _ _ r).
  - intros r line Hr Hline. rewrite Hout.
    2:{ right. intros Hnil. rewrite Hnil in Hr. by apply elem_of_nil in Hr. }
    unfold ZennLinter.report.
    assert ((0 <? length (ZennLinter.frontmatterResults st))%nat = true) as ->.
    { apply positive_length. intros Hnil. rewrite Hnil in Hr. by apply elem_of_nil in Hr. }
    rewrite !elem_of_app. right. left. right.
    by apply (elem_of_concat_map _ _ r).
Qed.

End Report.

(** C9.  In [scripts/lint-zenn.ts] the report of a book does not print the
    [missing] list: the book whose manifest lacks [summary] is listed
    without its missing key, and the book directory whose name contains
    [zenn-book-sample] is told that [price] is missing although nothing
    was computed missing.  The full linter prints the computed list, and
    only it ([reportBook_findings], [report_complete],
    [reportBook_missing_line_only]). *)
Theorem report_script_drops_missing_keys :
  let scriptLint := ZennScript.lintBookConfig Zenn.DEFAULT_CONFIG twoBooks in
  let fullLint := ZennLinter.lintBookConfig (path := NodePath.posix) Zenn.DEFAULT_CONFIG twoBooks in
  ZennScript.BookConfigLintResult.missing (scriptLint "books/my-book") = ["summary"]
  ∧ ZennScript.reportBook (scriptLint "books/my-book")
    = [nl +:+ "本ディレクトリ: books/my-book"]
  ∧ ZennScript.BookConfigLintResult.missing (scriptLint "books/zenn-book-sample") = []
  ∧ ZennScript.reportBook (scriptLint "books/zenn-book-sample")
    = [nl +:+ "本ディレクトリ: books/zenn-book-sample";
       "  config.yamlファイルが見つかりません";
       "  必須プロパティが不足しています: price"]
  ∧ ZennLinter.reportBook (fullLint "books/my-book")
    = [nl +:+ "本ディレクトリ: books/my-book";
       "  必須プロパティが不足しています: summary"]
  ∧ ZennLinter.reportBook (fullLint "books/zenn-book-sample")
    = [nl +:+ "本ディレクトリ: books/zenn-book-sample";
       "  config.yamlファイルが見つかりません"]
  ∧ ZennScript.output
      (ZennScript.main (path := NodePath.posix) Zenn.DEFAULT_CONFIG false twoBooks ∅
         [] [] ["books/my-book"; "books/zenn-book-sample"])
    = ["Zenn フロントマターリンターを実行しています...";
       nl +:+ "2 個の本に設定の問題があります:";
       nl +:+ "本ディレクトリ: books/my-book";
       nl +:+ "本ディレクトリ: books/zenn-book-sample";
       "  config.yamlファイルが見つかりません";
       "  必須プロパティが不足しています: price";
       nl +:+ "--fix オプションを付けて実行すると、フロントマターのプロパティ順序を自動修正できます。"].
Proof. vm_compute. repeat split; reflexivity. Qed.

(** reduce the fields of an updated result *)
Ltac simpl_result :=
  unfold ZennLinter.BookConfigLintResult.withMissing,
    ZennLinter.BookConfigLintResult.withMissingConfigFile,
    ZennLinter.BookConfigLintResult.withInvalidChapters,
    ZennLinter.BookConfigLintResult.withDuplicates;
  simpl.

Section ReportOnly.
Context `{path : NodePath.Api}.

Lemma checkNumberedChapterFiles_error (files : BookFiles) (bookDir : string)
    (result : ZennLinter.BookConfigLintResult.t) :
  ZennLinter.BookConfigLintResult.chaptersError result = None →
  ∀ e, ZennLinter.BookConfigLintResult.chaptersError
         (ZennLinter.checkNumberedChapterFiles files bookDir result) = Some e →
       knownChaptersError e.
Proof.
  intros Hnone e. unfold ZennLinter.checkNumberedChapterFiles, knownChaptersError.
  destruct (Nat.eqb _ 0); simpl_result; [intros [= <-]; eauto|].
  destruct (_ && _); simpl_result; [intros [= <-]; eauto|].
  destruct (0 <? _)%nat; simpl_result; [intros [= <-]; eauto 10|].
  intros He. congruence.
Qed.

Lemma lintBookConfigBody_error (config : LintConfig) (files : BookFiles)
    (bookDir : string) (configData : jsval) (result : ZennLinter.BookConfigLintResult.t) :
  ZennLinter.BookConfigLintResult.chaptersError result = None →
  ∀ e, ZennLinter.BookConfigLintResult.chaptersError
         (completed (ZennLinter.lintBookConfigBody config files bookDir configData result))
       = Some e →
       knownChaptersError e.
Proof.
  intros Hnone e. unfold ZennLinter.lintBookConfigBody.
  destruct (missingProps _ _) as [ms|]; simpl_result; [|intros He; congruence].
  destruct (in_op "chapters" configData) as [[]|]; simpl_result;
    [|intros He; congruence|intros He; congruence].
  destruct (field "chapters" configData) as [| |b|n|s|items|o]; simpl_result;
    try (intros He; congruence);
    try (intros [= <-]; unfold knownChaptersError; by eauto 10).
  destruct items as [|c cs].
  { simpl_result. by apply checkNumberedChapterFiles_error. }
  destruct (find ZennLinter.chapterLacksFileOrTitle (c :: cs)) as [found|].
  2:{ simpl_result. intros He; congruence. }
  destruct (truthy (default JUndefined found));
    destruct (ZennLinter.chapterSlugs (c :: cs)) as [slugs|];
    try destruct (0 <? _)%nat; simpl_result;
    try (intros He; congruence); intros [= <-]; unfold knownChaptersError; eauto 10.
Qed.

Lemma chaptersError_known (config : LintConfig) (files : BookFiles) (bookDir e : string) :
  ZennLinter.BookConfigLintResult.chaptersError
    (ZennLinter.lintBookConfig config files bookDir) = Some e →
  knownChaptersError e.
Proof.
  unfold ZennLinter.lintBookConfig.
  destruct (configYaml files bookDir) as [| |configData]; simpl;
    try (intros He; congruence).
  pose proof (lintBookConfigBody_error config files bookDir configData
                {| ZennLinter.BookConfigLintResult.dir := bookDir;
                   ZennLinter.BookConfigLintResult.missing := [];
                   ZennLinter.BookConfigLintResult.missingConfigFile := false;
                   ZennLinter.BookConfigLintResult.invalidChapters := false;
                   ZennLinter.BookConfigLintResult.chaptersError := None;
                   ZennLinter.BookConfigLintResult.duplicateChapterSlug := false;
                   ZennLinter.BookConfigLintResult.duplicateChapterNames := None |}
                eq_refl e) as Hbody.
  destruct (ZennLinter.lintBookConfigBody _ _ _ _ _); simpl in *; exact Hbody.
Qed.

(** X25.  In the report of the full linter, a line that announces missing
    required keys is the line of the computed [missing] list, which is
    then not empty. *)
Lemma reportBook_missing_line_only (config : LintConfig) (files : BookFiles)
    (bookDir line : string) :
  let r := ZennLinter.lintBookConfig config files bookDir in
  line ∈ ZennLinter.reportBook r →
  String.prefix "  必須プロパティが不足しています: " line = true →
  line = missingKeysLine (ZennLinter.BookConfigLintResult.missing r)
  ∧ ZennLinter.BookConfigLintResult.missing r ≠ [].
Proof.
  intros r Hline Hprefix. unfold ZennLinter.reportBook in Hline.
  rewrite !elem_of_app in Hline.
  destruct Hline as [Hl|[Hl|[Hl|[Hl|Hl]]]].
  - apply list_elem_of_singleton in Hl. subst line. by vm_compute in Hprefix.
  - destruct (ZennLinter.BookConfigLintResult.missingConfigFile r);
      [|by apply elem_of_nil in Hl].
    apply list_elem_of_singleton in Hl. subst line. by vm_compute in Hprefix.
  - destruct (0 <? length _)%nat eqn:Hm; [|by apply elem_of_nil in Hl].
    apply list_elem_of_singleton in Hl. apply positive_length in Hm. done.
  - destruct (ZennLinter.BookConfigLintResult.invalidChapters r);
      [|by apply elem_of_nil in Hl].
    apply list_elem_of_singleton in Hl. subst line.
    destruct (ZennLinter.BookConfigLintResult.chaptersError r) as [e|] eqn:He;
      [|by vm_compute in Hprefix].
    apply chaptersError_known in He as [->|[->|[->|[->|[names ->]]]]];
      simpl in Hprefix; by vm_compute in Hprefix.
  - destruct (ZennLinter.BookConfigLintResult.duplicateChapterSlug r);
      [|by apply elem_of_nil in Hl].
    apply list_elem_of_singleton in Hl. subst line. simpl in Hprefix. done.
Qed.

End ReportOnly.

Lemma reportBook_missing_line_only_witness :
  "  必須プロパティが不足しています: summary"
  = missingKeysLine
      (ZennLinter.BookConfigLintResult.missing
         (ZennLinter.lintBookConfig (path := NodePath.posix) Zenn.DEFAULT_CONFIG twoBooks
            "books/my-book")).
Proof.
  apply (reportBook_missing_line_only (path := NodePath.posix) Zenn.DEFAULT_CONFIG twoBooks
           "books/my-book" "  必須プロパティが不足しています: summary").
  - vm_compute. right. left.
  - reflexivity.
Defined.

(** ** Content types *)

Section ContentTypes.

Lemma prefix_spec (pat s : string) :
  String.prefix pat s = true ↔ ∃ after, s = pat +:+ after.
Proof.
  revert s. induction pat as [|a pat IH]; intros s.
  - split; [intros _|intros _; by destruct s]. by exists s.
  - destruct s as [|b s]; simpl; [split; [done|intros [after Hs]; done]|].
    destruct (ascii_dec a b) as [->|Hne].
    + rewrite IH. split; intros [after Hs]; exists after;
        [by rewrite Hs|by injection Hs].
    + split; [done|]. intros [after Hs]. injection Hs as ? _. done.
Qed.

Lemma includes_spec (pat s : string) :
  Str.includes pat s = true ↔ Substring pat s.
Proof.
  unfold Substring. induction s as [|c s IH].
  - destruct pat as [|a pat]; simpl.
    + split; [intros _|done]. by exists "", "".
    + split; [done|]. intros (before & after & Hs). by destruct before.
  - change (Str.includes pat (String c s))
      with (String.prefix pat (String c s) || Str.includes pat s).
    rewrite orb_true_iff, IH, prefix_spec. split.
    + intros [[after Hs]|(before & after & ->)].
      * by exists "", after.
      * by exists (String c before), after.
    + intros (before & after & Hs). destruct before as [|b before].
      * left. by exists after.
      * right. injection Hs as -> ->. by exists before, after.
Qed.

Lemma existsb_includes (patterns : list string) (p type : string) :
  existsb (λ pattern, Str.includes pattern p) patterns = true
  ↔ typeMatches p (type, patterns).
Proof.
  unfold typeMatches. rewrite existsb_elem_of. simpl.
  by setoid_rewrite includes_spec.
Qed.

(** the loop of [getContentType] over [Object.entries(typePatterns)] *)
Lemma first_match_loop (entries : list (string * list string)) (p type : string) :
  (fix go (entries : list (string * list string)) : string :=
     match entries with
     | [] => "default"
     | (type, patterns) :: rest =>
         if existsb (λ pattern, Str.includes pattern p) patterns then type else go rest
     end) entries = type
  ↔ FirstMatch entries p type.
Proof.
  unfold FirstMatch. induction entries as [|[t ps] rest IH].
  - split.
    + intros <-. right. split; [done|constructor].
    + intros [(earlier & patterns & later & Hnil & _)|[-> _]]; [|done].
      by destruct earlier.
  - destruct (existsb (λ pattern, Str.includes pattern p) ps) eqn:Hps.
    + apply (existsb_includes ps p t) in Hps. split.
      * intros <-. left. exists [], ps, rest. split; [done|]. split; [done|constructor].
      * intros [(earlier & patterns & later & Heq & Hm & Hearlier)|[_ Hnone]].
        -- destruct earlier as [|e earlier]; [by injection Heq as -> _ _|].
           injection Heq as <- _. apply Forall_cons in Hearlier as [Hno _]. done.
        -- apply Forall_cons in Hnone as [Hno _]. done.
    + assert (¬ typeMatches p (t, ps)) as Hno.
      { rewrite <- (existsb_includes ps p t). congruence. }
      rewrite IH. split.
      * intros [(earlier & patterns & later & -> & Hm & Hearlier)|[-> Hnone]].
        -- left. exists ((t, ps) :: earlier), patterns, later.
           split; [done|]. split; [done|]. by constructor.
        -- right. split; [done|]. by constructor.
      * intros [(earlier & patterns & later & Heq & Hm & Hearlier)|[-> Hnone]].
        -- destruct earlier as [|e earlier].
           { injection Heq as -> -> _. done. }
           injection Heq as <- ->. apply Forall_cons in Hearlier as [_ Hearlier].
           left. by exists earlier, patterns, later.
        -- right. split; [done|]. by apply Forall_cons in Hnone as [_ Hnone].
Qed.

Lemma backslashesToSlashes_idemp (s : string) :
  Str.backslashesToSlashes (Str.backslashesToSlashes s) = Str.backslashesToSlashes s.
Proof.
  induction s as [|c s IH]; simpl; [done|]. rewrite IH. f_equal.
  destruct (Ascii.eqb c "\") eqn:Hc; [done|by rewrite Hc].
Qed.

Lemma backslashesToSlashes_clean (s : string) :
  "\"%char ∉ list_ascii_of_string s → Str.backslashesToSlashes s = s.
Proof.
  induction s as [|c s IH]; simpl; [done|]. rewrite not_elem_of_cons. intros [Hc Hs].
  rewrite IH by done. f_equal. destruct (Ascii.eqb_spec c "\"); congruence.
Qed.

End ContentTypes.

(** X1.  [getContentType] of the two Zenn scripts returns the first content
    type of [contentTypePatterns] one of whose patterns occurs in the path
    once its backslashes are replaced by slashes, and [default] when no
    pattern occurs; so a path is classified as its spelling with slashes
    is. *)
Theorem content_type_first_match (config : LintConfig) (filePath type : string) :
  (Zenn.getContentType config filePath = type
   ↔ FirstMatch (contentTypePatterns config) (Str.backslashesToSlashes filePath) type)
  ∧ Zenn.getContentType config (Str.backslashesToSlashes filePath)
    = Zenn.getContentType config filePath
  ∧ ("\"%char ∉ list_ascii_of_string filePath →
       Zenn.getContentType config filePath = type
       ↔ FirstMatch (contentTypePatterns config) filePath type).
Proof.
  split; [|split].
  - apply first_match_loop.
  - unfold Zenn.getContentType. by rewrite backslashesToSlashes_idemp.
  - intros Hclean. unfold Zenn.getContentType.
    rewrite (backslashesToSlashes_clean _ Hclean). apply first_match_loop.
Qed.

(** X2.  With the default configuration of the Zenn scripts a file is an
    [article] exactly when its path (backslashes read as slashes) contains
    [articles/], a [bookChapter] when it contains [books/] and not
    [articles/], and of type [default] otherwise; the keys required of it
    are then those of its type. *)
Theorem default_content_types (filePath : string) :
  let p := Str.backslashesToSlashes filePath in
  let type := Zenn.getContentType Zenn.DEFAULT_CONFIG filePath in
  let required := lookup_list type (requiredProperties Zenn.DEFAULT_CONFIG) in
  (type = "article" ↔ Substring "articles/" p)
  ∧ (type = "bookChapter" ↔ Substring "books/" p ∧ ¬ Substring "articles/" p)
  ∧ (type = "default" ↔ ¬ Substring "books/" p ∧ ¬ Substring "articles/" p)
  ∧ (type = "article" → required = ["title"; "emoji"; "type"; "topics"; "published"])
  ∧ (type = "bookChapter" → required = ["title"])
  ∧ (type = "default" → required = ["title"; "published"]).
Proof.
  intros p type required. unfold required, type, Zenn.getContentType. fold p. simpl.
  rewrite !orb_false_r. rewrite <- !includes_spec.
  destruct (Str.includes "articles/" p); [|destruct (Str.includes "books/" p)];
    repeat split; try done; intros; try done; naive_solver.
Qed.

(** X3.  [getContentType] of the MDX linter looks for the patterns in the
    path as it is given, separators included: the first content type with
    a pattern that occurs in it, and [default] when there is none.  The
    default configuration lists each directory with slashes and with
    backslashes. *)
Theorem mdx_content_types (config : LintConfig) (filePath type : string) :
  (MdxLinter.getContentType config filePath = type
   ↔ FirstMatch (contentTypePatterns config) filePath type)
  ∧ let type := MdxLinter.getContentType MdxLinter.DEFAULT_CONFIG filePath in
    let blog := Substring "/blog/" filePath ∨ Substring "\blog\" filePath in
    let snippet := Substring "/snippet/" filePath ∨ Substring "\snippet\" filePath in
    (type = "blog" ↔ blog)
    ∧ (type = "snippet" ↔ snippet ∧ ¬ blog)
    ∧ (type = "default" ↔ ¬ snippet ∧ ¬ blog).
Proof.
  split; [apply first_match_loop|].
  intros type' blog snippet. unfold type', blog, snippet, MdxLinter.getContentType. simpl.
  rewrite !orb_false_r. rewrite <- !includes_spec.
  destruct (Str.includes "/blog/" filePath); destruct (Str.includes "\blog\" filePath);
    destruct (Str.includes "/snippet/" filePath);
    destruct (Str.includes "\snippet\" filePath);
    simpl; repeat split; try done; intros; try done; naive_solver.
Qed.

(** ** Required keys of a document *)

Section RequiredKeys.



End RequiredKeys.



(** ** Rewriting a file and linting it again *)

Section FixThenLint.
Context `{path : NodePath.Api}.

Lemma indexOf_cons_other (x y : string) (l : list string) :
  x ≠ y → x ∈ l → indexOf x (y :: l) = indexOf x l + 1.
Proof.
  intros Hne Hin. simpl. destruct (String.eqb_spec x y); [done|].
  destruct (Z.eqb_spec (indexOf x l) (-1)) as [He|]; [|done].
  by apply indexOf_absent in He.
Qed.

Lemma StronglySorted_change {A} (R R' : relation A) (l : list A) :
  (∀ a b, a ∈ l → b ∈ l → R a b → R' a b) →
  StronglySorted R l → StronglySorted R' l.
Proof.
  intros Himpl Hs. induction Hs as [|x l Hs IH Hall]; constructor.
  - apply IH. intros a b Ha Hb. apply Himpl; by right.
  - rewrite Forall_forall in *. intros b Hb. apply Himpl; [left|by right|by apply Hall].
Qed.

(** the canonical keys of a normalized mapping stand by increasing position *)
Lemma firstsFrom_filter_sorted (f : string → bool) (order seen : list string) :
  StronglySorted (λ a b, indexOf a order < indexOf b order)
    (firstsFrom seen (List.filter f order)).
Proof.
  revert seen. induction order as [|y l IH]; intros seen; [constructor|].
  assert (∀ seen', (∀ x, x ∈ firstsFrom seen' (List.filter f l) → x ≠ y) →
            StronglySorted (λ a b, indexOf a (y :: l) < indexOf b (y :: l))
              (firstsFrom seen' (List.filter f l))) as Hshift.
  { intros seen' Hney. eapply StronglySorted_change; [|apply (IH seen')].
    intros a b Ha Hb Hlt.
    assert (∀ x, x ∈ firstsFrom seen' (List.filter f l) → x ∈ l) as Hl.
    { intros x [Hx _]%elem_of_firstsFrom.
      by apply list_elem_of_In, filter_In in Hx as [Hx%list_elem_of_In _]. }
    cbv beta in *. rewrite !indexOf_cons_other by auto. lia. }
  assert (∀ seen' x, x ∈ firstsFrom seen' (List.filter f l) → f x = true) as Hf.
  { intros seen' x [Hx _]%elem_of_firstsFrom.
    by apply list_elem_of_In, filter_In in Hx as [_ Hx]. }
  cbn [List.filter]. destruct (f y) eqn:Hfy; cbn [firstsFrom].
  - destruct (bool_decide (y ∈ seen)) eqn:Hy.
    + apply bool_decide_eq_true in Hy. apply Hshift.
      intros x [_ Hx]%elem_of_firstsFrom ->. done.
    + assert (∀ x, x ∈ firstsFrom (y :: seen) (List.filter f l) → x ≠ y) as Hney.
      { intros x [_ Hx]%elem_of_firstsFrom ->. apply Hx. left. }
      constructor; [by apply Hshift|].
      apply Forall_forall. intros b Hb.
      assert (b ∈ l) as Hbl.
      { apply elem_of_firstsFrom in Hb as [Hb _].
        by apply list_elem_of_In, filter_In in Hb as [Hb%list_elem_of_In _]. }
      rewrite (indexOf_cons_other b y l) by auto.
      simpl. rewrite String.eqb_refl. pose proof (indexOf_lower b l).
      assert (indexOf b l ≠ -1) by (intros He; by apply indexOf_absent in He). lia.
  - apply Hshift. intros x Hx ->. apply Hf in Hx. congruence.
Qed.

Lemma sorted_then_unlisted (order l1 l2 : list string) :
  StronglySorted (λ a b, indexOf a order < indexOf b order) l1 →
  (∀ x, x ∈ l2 → x ∉ order) →
  InCanonicalOrder order (l1 ++ l2).
Proof.
  intros Hs Hl2 i prev cur p c Hprev Hcur Hp Hc.
  assert (cur ∈ order) as Hco by (apply position_present; eauto).
  destruct (decide (S i < length l1)%nat) as [Hlt|Hge].
  2:{ rewrite lookup_app_r in Hcur by lia.
      apply list_elem_of_lookup_2 in Hcur. by apply Hl2 in Hcur. }
  rewrite lookup_app_l in Hprev, Hcur by lia.
  rewrite <- (take_drop (S i) l1) in Hs.
  assert (prev ∈ take (S i) l1) as Hpt.
  { apply list_elem_of_lookup. exists i. rewrite lookup_take_lt by lia. done. }
  assert (cur ∈ drop (S i) l1) as Hcd.
  { apply list_elem_of_lookup. exists 0%nat. rewrite lookup_drop, Nat.add_0_r. done. }
  pose proof (StronglySorted_app_1_elem_of _ _ _ _ _ Hs Hpt Hcd) as Hlt'. simpl in Hlt'.
  apply indexOf_position in Hp, Hc. lia.
Qed.

Lemma sortedData_in_order (order : list string) (data : jsobject) :
  Frontmatter.isInCorrectOrder order (keys (Frontmatter.sortedData order data)) = true.
Proof.
  apply isInCorrectOrder_spec. rewrite keys_sortedData. unfold firsts.
  rewrite firstsFrom_app. apply sorted_then_unlisted.
  - apply firstsFrom_filter_sorted.
  - intros x [Hx Hno]%elem_of_firstsFrom Hin. apply Hno.
    rewrite app_nil_r. apply list_elem_of_In, filter_In.
    split; [by apply list_elem_of_In|by apply has_true].
Qed.

Lemma missing_sortedData (order required : list string) (data : jsobject) :
  List.filter (λ prop, negb (has prop (Frontmatter.sortedData order data))) required
  = List.filter (λ prop, negb (has prop data)) required.
Proof. apply filter_ext. intros k. by rewrite has_sortedData. Qed.

(** linting a document and linting it normalized *)
Lemma lint_normalized (config : LintConfig) (docs docs' : gmap string Document)
    (filePath : string) (doc : Document) :
  docs !! filePath = Some doc →
  docs' !! filePath = Some (normalized config doc) →
  ∃ r r', Zenn.lintZennFrontmatter config docs filePath = Some r
          ∧ Zenn.lintZennFrontmatter config docs' filePath = Some r'
          ∧ Zenn.LintResult.wrongOrder r' = false
          ∧ Zenn.LintResult.missing r' = Zenn.LintResult.missing r
          ∧ Zenn.LintResult.invalidSlug r' = Zenn.LintResult.invalidSlug r
          ∧ Zenn.LintResult.slugError r' = Zenn.LintResult.slugError r
          ∧ Zenn.LintResult.contentType r' = Zenn.LintResult.contentType r
          ∧ Zenn.LintResult.currentOrder r = keys (data doc)
          ∧ Zenn.LintResult.currentOrder r'
            = keys (Frontmatter.sortedData (propertyOrder config) (data doc)).
Proof.
  intros Hdoc Hdoc'. unfold Zenn.lintZennFrontmatter. rewrite Hdoc, Hdoc'. simpl.
  rewrite sortedData_in_order, missing_sortedData.
  destruct (String.eqb _ "article"); [destruct (negb (Zenn.isValidSlug _))|];
    do 2 eexists; (split; [reflexivity|]); (split; [reflexivity|]); simpl; done.
Qed.

Lemma mdx_lint_normalized (config : LintConfig) (docs docs' : gmap string Document)
    (filePath : string) (doc : Document) :
  docs !! filePath = Some doc →
  docs' !! filePath = Some (normalized config doc) →
  ∃ r r', MdxLinter.lintMdxFrontmatter config docs filePath = Some r
          ∧ MdxLinter.lintMdxFrontmatter config docs' filePath = Some r'
          ∧ MdxLinter.LintResult.wrongOrder r' = false
          ∧ MdxLinter.LintResult.missing r' = MdxLinter.LintResult.missing r
          ∧ MdxLinter.LintResult.contentType r' = MdxLinter.LintResult.contentType r
          ∧ MdxLinter.LintResult.currentOrder r = keys (data doc)
          ∧ MdxLinter.LintResult.currentOrder r'
            = keys (Frontmatter.sortedData (propertyOrder config) (data doc)).
Proof.
  intros Hdoc Hdoc'. unfold MdxLinter.lintMdxFrontmatter. rewrite Hdoc, Hdoc'. simpl.
  rewrite sortedData_in_order, missing_sortedData.
  do 2 eexists; (split; [reflexivity|]); (split; [reflexivity|]); simpl; done.
Qed.

Lemma keys_normalized (config : LintConfig) (doc : Document) (k : string) :
  k ∈ keys (Frontmatter.sortedData (propertyOrder config) (data doc)) ↔ k ∈ keys (data doc).
Proof. by rewrite <- !has_true, has_sortedData. Qed.

End FixThenLint.

(** X5.  Rewriting repairs the order and nothing else that the validators
    look at.  Take a configuration that lists plain names only (no array
    index, no member of [Object.prototype]) and a file whose keys are plain
    names and in whose body gray-matter finds no front matter: once
    [sortFrontmatter] has written the file back, linting it again finds
    its keys in order, the same keys, and the same missing keys, slug
    verdict and content type as before; what is left to report is what
    [--fix] cannot repair. *)
Theorem fix_then_lint `{path : NodePath.Api} (config : LintConfig)
    (docs : gmap string Document) (filePath : string) (doc : Document) :
  docs !! filePath = Some doc →
  plainConfig config →
  plainDocument doc →
  (∃ r r', Zenn.lintZennFrontmatter config docs filePath = Some r
           ∧ Zenn.lintZennFrontmatter config
               (Zenn.sortFrontmatter config filePath docs).1 filePath = Some r'
           ∧ Zenn.LintResult.wrongOrder r' = false
           ∧ Zenn.LintResult.missing r' = Zenn.LintResult.missing r
           ∧ Zenn.LintResult.invalidSlug r' = Zenn.LintResult.invalidSlug r
           ∧ Zenn.LintResult.slugError r' = Zenn.LintResult.slugError r
           ∧ Zenn.LintResult.contentType r' = Zenn.LintResult.contentType r
           ∧ (∀ k, k ∈ Zenn.LintResult.currentOrder r' ↔ k ∈ Zenn.LintResult.currentOrder r)
           ∧ (Zenn.documentHasProblem r' = true
              ↔ Zenn.LintResult.missing r ≠ [] ∨ Zenn.LintResult.invalidSlug r = true))
  ∧ (∃ r r', MdxLinter.lintMdxFrontmatter config docs filePath = Some r
             ∧ MdxLinter.lintMdxFrontmatter config
                 (MdxLinter.sortFrontmatter config filePath docs).1 filePath = Some r'
             ∧ MdxLinter.LintResult.wrongOrder r' = false
             ∧ MdxLinter.LintResult.missing r' = MdxLinter.LintResult.missing r
             ∧ MdxLinter.LintResult.contentType r' = MdxLinter.LintResult.contentType r
             ∧ (∀ k, k ∈ MdxLinter.LintResult.currentOrder r'
                     ↔ k ∈ MdxLinter.LintResult.currentOrder r)
             ∧ (MdxLinter.resultHasProblem r' = true ↔ MdxLinter.LintResult.missing r ≠ [])).
Proof.
  intros Hdoc _ _. split.
  - destruct (lint_normalized config docs (Zenn.sortFrontmatter config filePath docs).1
                filePath doc Hdoc)
      as (r & r' & Hr & Hr' & Hw & Hm & Hs & He & Ht & Hc & Hc').
    { unfold Zenn.sortFrontmatter. rewrite Hdoc. simpl. by rewrite lookup_insert_eq. }
    exists r, r'. repeat (split; [done|]). split.
    + intros k. rewrite Hc, Hc'. apply keys_normalized.
    + rewrite documentHasProblem_spec, Hw, Hm, Hs. naive_solver.
  - destruct (mdx_lint_normalized config docs (MdxLinter.sortFrontmatter config filePath docs).1
                filePath doc Hdoc)
      as (r & r' & Hr & Hr' & Hw & Hm & Ht & Hc & Hc').
    { unfold MdxLinter.sortFrontmatter. rewrite Hdoc. simpl. by rewrite lookup_insert_eq. }
    exists r, r'. repeat (split; [done|]). split.
    + intros k. rewrite Hc, Hc'. apply keys_normalized.
    + unfold MdxLinter.resultHasProblem. rewrite Hw, Hm, orb_false_r. apply positive_length.
Qed.

Lemma fix_then_lint_witness :
  ∃ r', Zenn.lintZennFrontmatter (path := NodePath.posix) Zenn.DEFAULT_CONFIG
          (Zenn.sortFrontmatter (path := NodePath.posix) Zenn.DEFAULT_CONFIG
             "articles/invalid-wrong-order.md"
             {[ "articles/invalid-wrong-order.md" :=
                  {| data := [("published", JBool true); ("emoji", JStr "e");
                              ("title", JStr "T"); ("type", JStr "tech");
                              ("topics", JArr [])];
                     content := "body" |} ]}).1
          "articles/invalid-wrong-order.md" = Some r'
        ∧ Zenn.LintResult.wrongOrder r' = false.
Proof.
  destruct (fix_then_lint (path := NodePath.posix) Zenn.DEFAULT_CONFIG
             {[ "articles/invalid-wrong-order.md" :=
                  {| data := [("published", JBool true); ("emoji", JStr "e");
                              ("title", JStr "T"); ("type", JStr "tech");
                              ("topics", JArr [])];
                     content := "body" |} ]}
             "articles/invalid-wrong-order.md" _ (lookup_singleton_eq _ _)
             (conj eq_refl eq_refl) (conj eq_refl eq_refl))
    as [(r & r' & _ & Hr' & Hwo & _) _].
  exists r'. split; [exact Hr'|exact Hwo].
Defined.

(** ** What a run does to the documents *)

Section Runs.
Context `{path : NodePath.Api}.

Lemma lint_ext (config : LintConfig) (docs1 docs2 : gmap string Document) (file : string) :
  docs1 !! file = docs2 !! file →
  Zenn.lintZennFrontmatter config docs1 file = Zenn.lintZennFrontmatter config docs2 file.
Proof. unfold Zenn.lintZennFrontmatter. by intros ->. Qed.

Lemma fileWrongOrder_lookup (config : LintConfig) (docs : gmap string Document)
    (file : string) :
  fileWrongOrder config docs file
  = match docs !! file with
    | Some doc =>
        negb (Frontmatter.isInCorrectOrder (propertyOrder config) (keys (data doc)))
    | None => false
    end.
Proof.
  unfold fileWrongOrder, Zenn.lintZennFrontmatter.
  destruct (docs !! file); [|done].
  by destruct (String.eqb _ "article"); [destruct (negb (Zenn.isValidSlug _))|].
Qed.

Lemma sortFrontmatter_store (config : LintConfig) (file : string)
    (docs : gmap string Document) :
  (Zenn.sortFrontmatter config file docs).1
  = match docs !! file with
    | Some doc => <[file := normalized config doc]> docs
    | None => docs
    end.
Proof. unfold Zenn.sortFrontmatter. by destruct (docs !! file). Qed.

Lemma wrongOrder_problem (r : Zenn.LintResult.t) :
  Zenn.LintResult.wrongOrder r = true → Zenn.documentHasProblem r = true.
Proof. intros Hw. apply documentHasProblem_spec. auto. Qed.

Lemma visitFile_documents (config : LintConfig) (fixFlag : bool)
    (st : ZennLinter.RunState) (file : string) :
  ZennLinter.documents (ZennLinter.visitFile config fixFlag st file)
  = if fixFlag && fileWrongOrder config (ZennLinter.documents st) file
    then (Zenn.sortFrontmatter config file (ZennLinter.documents st)).1
    else ZennLinter.documents st.
Proof.
  unfold ZennLinter.visitFile, fileWrongOrder.
  destruct (Zenn.lintZennFrontmatter _ _ _) as [r|]; [|by rewrite andb_false_r].
  destruct (Zenn.documentHasProblem r) eqn:Hp.
  - destruct (fixFlag && Zenn.LintResult.wrongOrder r); [|done].
    by destruct (Zenn.sortFrontmatter _ _ _).
  - destruct (Zenn.LintResult.wrongOrder r) eqn:Hw; [|by rewrite andb_false_r].
    apply wrongOrder_problem in Hw. congruence.
Qed.

Lemma visitFile_documents_other (config : LintConfig) (fixFlag : bool)
    (st : ZennLinter.RunState) (file other : string) :
  other ≠ file →
  ZennLinter.documents (ZennLinter.visitFile config fixFlag st file) !! other
  = ZennLinter.documents st !! other.
Proof.
  intros Hne. rewrite visitFile_documents.
  destruct (fixFlag && _); [|done]. rewrite sortFrontmatter_store.
  destruct (ZennLinter.documents st !! file); [|done]. by rewrite lookup_insert_ne.
Qed.

Lemma visitFile_unreadable (config : LintConfig) (fixFlag : bool)
    (st : ZennLinter.RunState) (file : string) :
  ZennLinter.documents st !! file = None →
  ZennLinter.visitFile config fixFlag st file = st.
Proof.
  intros Hnone. unfold ZennLinter.visitFile, Zenn.lintZennFrontmatter. by rewrite Hnone.
Qed.

Lemma files_loop_unreadable (config : LintConfig) (fixFlag : bool)
    (l : list string) (st : ZennLinter.RunState) (file : string) :
  ZennLinter.documents st !! file = None →
  ZennLinter.documents (fold_left (ZennLinter.visitFile config fixFlag) l st) !! file = None.
Proof.
  revert st. induction l as [|g l IH]; intros st Hnone; simpl; [done|].
  apply IH. destruct (decide (file = g)) as [->|Hne].
  - by rewrite visitFile_unreadable.
  - by rewrite visitFile_documents_other.
Qed.

Lemma files_loop_skip (config : LintConfig) (fixFlag : bool)
    (before after : list string) (file : string) (st : ZennLinter.RunState) :
  ZennLinter.documents st !! file = None →
  fold_left (ZennLinter.visitFile config fixFlag) (before ++ file :: after) st
  = fold_left (ZennLinter.visitFile config fixFlag) (before ++ after) st.
Proof.
  intros Hnone. rewrite !fold_left_app. simpl.
  rewrite visitFile_unreadable; [done|]. by apply files_loop_unreadable.
Qed.

Lemma check_loop_documents (config : LintConfig) (l : list string)
    (st : ZennLinter.RunState) :
  ZennLinter.documents (fold_left (ZennLinter.visitFile config false) l st)
  = ZennLinter.documents st.
Proof.
  revert st. induction l as [|g l IH]; intros st; simpl; [done|].
  by rewrite IH, visitFile_documents.
Qed.

Lemma check_loop_stdout (config : LintConfig) (l : list string)
    (st : ZennLinter.RunState) :
  ZennLinter.stdout (fold_left (ZennLinter.visitFile config false) l st)
  = ZennLinter.stdout st.
Proof.
  revert st. induction l as [|g l IH]; intros st; simpl; [done|].
  rewrite IH. unfold ZennLinter.visitFile.
  destruct (Zenn.lintZennFrontmatter _ _ _) as [r|]; [|done].
  destruct (Zenn.documentHasProblem r); [|done]. simpl. by rewrite app_nil_r.
Qed.

Lemma lookup_rewritten (config : LintConfig) (docs : gmap string Document)
    (listed : list string) (file : string) :
  rewritten config docs listed !! file
  = (λ doc, if bool_decide (file ∈ listed) && fileWrongOrder config docs file
            then normalized config doc else doc) <$> docs !! file.
Proof. unfold rewritten. rewrite map_lookup_imap. by destruct (docs !! file). Qed.

Lemma rewritten_nil (config : LintConfig) (docs : gmap string Document) :
  rewritten config docs [] = docs.
Proof.
  apply map_eq. intros file. rewrite lookup_rewritten.
  rewrite bool_decide_eq_false_2 by apply not_elem_of_nil. by destruct (docs !! file).
Qed.

Lemma fileWrongOrder_rewritten (config : LintConfig) (docs : gmap string Document)
    (listed : list string) (file : string) :
  fileWrongOrder config (rewritten config docs listed) file
  = fileWrongOrder config docs file && negb (bool_decide (file ∈ listed)).
Proof.
  rewrite (fileWrongOrder_lookup config (rewritten config docs listed)), lookup_rewritten.
  pose proof (fileWrongOrder_lookup config docs file) as Hw.
  destruct (docs !! file) as [doc|]; simpl; [|by rewrite Hw].
  destruct (bool_decide (file ∈ listed)); simpl.
  - destruct (fileWrongOrder config docs file); simpl.
    + by rewrite sortedData_in_order.
    + by rewrite <- Hw.
  - by rewrite andb_true_r.
Qed.

Lemma rewritten_snoc (config : LintConfig) (docs : gmap string Document)
    (listed : list string) (file : string) :
  rewritten config docs (listed ++ [file])
  = if fileWrongOrder config docs file
    then match docs !! file with
         | Some doc => <[file := normalized config doc]> (rewritten config docs listed)
         | None => rewritten config docs listed
         end
    else rewritten config docs listed.
Proof.
  apply map_eq. intros f. rewrite lookup_rewritten.
  assert (∀ g, g ≠ file →
            bool_decide (g ∈ listed ++ [file]) = bool_decide (g ∈ listed)) as Hother.
  { intros g Hg. apply bool_decide_ext.
    rewrite elem_of_app, list_elem_of_singleton. naive_solver. }
  destruct (fileWrongOrder config docs file) eqn:Hw.
  - destruct (docs !! file) as [doc|] eqn:Hdoc.
    + destruct (decide (f = file)) as [->|Hne].
      * rewrite lookup_insert_eq, Hdoc. simpl.
        rewrite bool_decide_eq_true_2 by (rewrite elem_of_app, list_elem_of_singleton; auto).
        by rewrite Hw.
      * rewrite lookup_insert_ne by done. by rewrite lookup_rewritten, Hother.
    + rewrite fileWrongOrder_lookup, Hdoc in Hw. done.
  - rewrite lookup_rewritten. destruct (decide (f = file)) as [->|Hne].
    + by rewrite Hw, !andb_false_r.
    + by rewrite Hother.
Qed.

Lemma fix_loop_documents (config : LintConfig) (docs : gmap string Document)
    (l listed : list string) (st : ZennLinter.RunState) :
  ZennLinter.documents st = rewritten config docs listed →
  ZennLinter.documents (fold_left (ZennLinter.visitFile config true) l st)
  = rewritten config docs (listed ++ l).
Proof.
  revert listed st. induction l as [|g l IH]; intros listed st Hst; simpl.
  - by rewrite app_nil_r.
  - replace (listed ++ g :: l) with ((listed ++ [g]) ++ l) by (by rewrite <- app_assoc).
    apply IH. rewrite visitFile_documents, Hst. simpl (true && _).
    rewrite fileWrongOrder_rewritten, sortFrontmatter_store, rewritten_snoc, lookup_rewritten.
    pose proof (fileWrongOrder_lookup config docs g) as Hw.
    destruct (docs !! g) as [doc|] eqn:Hdoc; simpl.
    2:{ rewrite Hw. done. }
    destruct (fileWrongOrder config docs g) eqn:Hwg; simpl; [|done].
    destruct (bool_decide (g ∈ listed)) eqn:Hin; simpl; [|done].
    symmetry. apply insert_id. by rewrite lookup_rewritten, Hdoc, Hin, Hwg.
Qed.

Lemma visitFile_results (config : LintConfig) (fixFlag : bool)
    (st : ZennLinter.RunState) (file : string) :
  ZennLinter.frontmatterResults (ZennLinter.visitFile config fixFlag st file)
  = ZennLinter.frontmatterResults st
    ++ List.filter Zenn.documentHasProblem
         (option_list (Zenn.lintZennFrontmatter config (ZennLinter.documents st) file)).
Proof.
  unfold ZennLinter.visitFile.
  destruct (Zenn.lintZennFrontmatter _ _ _) as [r|]; simpl; [|by rewrite app_nil_r].
  destruct (Zenn.documentHasProblem r); [|by rewrite app_nil_r].
  by destruct_let_pair.
Qed.

Lemma omap_cons_list {A B} (f : A → option B) (x : A) (l : list A) :
  omap f (x :: l) = option_list (f x) ++ omap f l.
Proof. simpl. by destruct (f x). Qed.

Lemma files_loop_results_exact (config : LintConfig) (fixFlag : bool)
    (docs : gmap string Document) (l : list string) (st : ZennLinter.RunState) :
  fixFlag = false ∨ NoDup l →
  (∀ f, f ∈ l → ZennLinter.documents st !! f = docs !! f) →
  ZennLinter.frontmatterResults (fold_left (ZennLinter.visitFile config fixFlag) l st)
  = ZennLinter.frontmatterResults st
    ++ List.filter Zenn.documentHasProblem (omap (Zenn.lintZennFrontmatter config docs) l).
Proof.
  revert st. induction l as [|g l IH]; intros st Hmode Hst; simpl fold_left.
  - by rewrite app_nil_r.
  - rewrite IH.
    + rewrite visitFile_results, omap_cons_list, List.filter_app, <- app_assoc.
      do 4 f_equal. apply lint_ext, Hst. left.
    + destruct Hmode as [->|Hnd]; [by left|right]. by apply NoDup_cons in Hnd as [_ Hnd].
    + intros f Hf. destruct Hmode as [->|Hnd].
      * rewrite visitFile_documents. simpl. apply Hst. by right.
      * apply NoDup_cons in Hnd as [Hg _].
        rewrite visitFile_documents_other by (intros ->; done). apply Hst. by right.
Qed.

Lemma validateAll_documents (config : LintConfig) (fixFlag : bool) (files : BookFiles)
    (docs : gmap string Document) (articleFiles chapterFiles bookDirs : list string) :
  ZennLinter.documents
    (ZennLinter.validateAll config fixFlag files docs articleFiles chapterFiles bookDirs)
  = if fixFlag then rewritten config docs (articleFiles ++ chapterFiles) else docs.
Proof.
  unfold ZennLinter.validateAll.
  set (st0 := {| ZennLinter.hasErrors := false; ZennLinter.frontmatterResults := [];
                 ZennLinter.bookConfigResults := []; ZennLinter.documents := docs;
                 ZennLinter.stdout := [] |}).
  destruct (books_loop config files bookDirs
              (fold_left (ZennLinter.visitFile config fixFlag)
                 (articleFiles ++ chapterFiles) st0)) as (_ & _ & _ & -> & _).
  destruct fixFlag.
  - rewrite (fix_loop_documents config docs _ [] st0); [done|].
    simpl. by rewrite rewritten_nil.
  - by rewrite check_loop_documents.
Qed.

Lemma run_documents (config : LintConfig) (fixFlag : bool) (files : BookFiles)
    (docs : gmap string Document) (articleFiles chapterFiles bookDirs : list string) :
  ZennLinter.documentsAfter
    (ZennLinter.runMainWithoutExit config fixFlag files docs
       articleFiles chapterFiles bookDirs)
  = if fixFlag then rewritten config docs (articleFiles ++ chapterFiles) else docs.
Proof.
  unfold ZennLinter.runMainWithoutExit.
  destruct (Nat.eqb _ 0 && Nat.eqb _ 0 && Nat.eqb _ 0) eqn:Hempty.
  - apply andb_true_iff in Hempty as [[Ha Hc]%andb_true_iff Hb].
    apply Nat.eqb_eq in Ha, Hc. apply nil_length_inv in Ha, Hc. subst. simpl.
    by rewrite rewritten_nil; destruct fixFlag.
  - simpl. apply validateAll_documents.
Qed.

End Runs.

(** X6.  A listed file that cannot be read (no such file, or a directory)
    is skipped: [lintZennFrontmatter] returns [null] for it, the validation
    loop ends in the state it would end in without that file in the list,
    and so does the whole run unless the file was the only thing found. *)
Theorem unreadable_file_skipped `{path : NodePath.Api} (config : LintConfig)
    (fixFlag : bool) (files : BookFiles) (docs : gmap string Document)
    (before after chapterFiles bookDirs : list string) (file : string) :
  docs !! file = None →
  Zenn.lintZennFrontmatter config docs file = None
  ∧ ZennLinter.validateAll config fixFlag files docs
      (before ++ file :: after) chapterFiles bookDirs
    = ZennLinter.validateAll config fixFlag files docs
        (before ++ after) chapterFiles bookDirs
  ∧ ZennLinter.validateAll config fixFlag files docs
      chapterFiles (before ++ file :: after) bookDirs
    = ZennLinter.validateAll config fixFlag files docs
        chapterFiles (before ++ after) bookDirs
  ∧ (before ++ after ≠ [] ∨ chapterFiles ≠ [] ∨ bookDirs ≠ [] →
       ZennLinter.runMainWithoutExit config fixFlag files docs
         (before ++ file :: after) chapterFiles bookDirs
       = ZennLinter.runMainWithoutExit config fixFlag files docs
           (before ++ after) chapterFiles bookDirs).
Proof.
  intros Hnone.
  assert (ZennLinter.validateAll config fixFlag files docs
            (before ++ file :: after) chapterFiles bookDirs
          = ZennLinter.validateAll config fixFlag files docs
              (before ++ after) chapterFiles bookDirs) as Harticle.
  { unfold ZennLinter.validateAll. f_equal. rewrite <- !app_assoc.
    change ((file :: after) ++ chapterFiles) with (file :: after ++ chapterFiles).
    by apply files_loop_skip. }
  split; [|split; [|split]].
  - unfold Zenn.lintZennFrontmatter. by rewrite Hnone.
  - exact Harticle.
  - unfold ZennLinter.validateAll. f_equal. rewrite !app_assoc.
    by apply files_loop_skip.
  - intros Hfound. unfold ZennLinter.runMainWithoutExit. rewrite Harticle.
    assert (Nat.eqb (length (before ++ file :: after)) 0 = false) as ->.
    { rewrite length_app. simpl. apply Nat.eqb_neq. lia. }
    destruct (Nat.eqb _ 0 && Nat.eqb _ 0 && Nat.eqb _ 0) eqn:Hempty; [|done].
    apply andb_true_iff in Hempty as [[Ha Hc]%andb_true_iff Hb].
    apply Nat.eqb_eq in Ha, Hc, Hb. apply nil_length_inv in Ha, Hc, Hb. naive_solver.
Qed.

Lemma unreadable_file_skipped_witness :
  ZennLinter.validateAll (path := NodePath.posix) Zenn.DEFAULT_CONFIG false
    {| configYaml := λ _, NoConfigFile; readdirSync := λ _, [] |}
    {[ "articles/a.md" := {| data := []; content := "" |} ]}
    (["articles/a.md"] ++ "articles/gone.md" :: []) [] []
  = ZennLinter.validateAll (path := NodePath.posix) Zenn.DEFAULT_CONFIG false
      {| configYaml := λ _, NoConfigFile; readdirSync := λ _, [] |}
      {[ "articles/a.md" := {| data := []; content := "" |} ]}
      (["articles/a.md"] ++ []) [] [].
Proof.
  apply (unreadable_file_skipped (path := NodePath.posix) Zenn.DEFAULT_CONFIG false
    {| configYaml := λ _, NoConfigFile; readdirSync := λ _, [] |}
    {[ "articles/a.md" := {| data := []; content := "" |} ]}
    ["articles/a.md"] [] [] [] "articles/gone.md").
  apply lookup_singleton_ne. by apply (bool_decide_unpack _).
Defined.

(** X7.  Without [--fix] a run leaves every document as it is.  With
    [--fix], for a configuration that lists plain names only and files
    whose keys are plain names and in whose bodies gray-matter finds no
    front matter, the documents after the run are the initial ones in which
    exactly the listed files whose keys were out of order have been written
    back: such a file has the same keys with the same values, in normalized
    order, and its body ends in a line feed (one is added when it did not);
    no file is created or removed, and no other file changes.  (A file that
    could be read can be written.) *)
Theorem run_rewrites `{path : NodePath.Api} (config : LintConfig) (fixFlag : bool)
    (files : BookFiles) (docs : gmap string Document)
    (articleFiles chapterFiles bookDirs : list string) :
  plainConfig config →
  (∀ file doc, docs !! file = Some doc → plainDocument doc) →
  let after :=
    ZennLinter.documentsAfter
      (ZennLinter.runMainWithoutExit config fixFlag files docs
         articleFiles chapterFiles bookDirs) in
  after = (if fixFlag then rewritten config docs (articleFiles ++ chapterFiles) else docs)
  ∧ (∀ file, docs !! file = None → after !! file = None)
  ∧ (∀ file doc, docs !! file = Some doc →
       ∃ doc', after !! file = Some doc'
               ∧ (∀ k, get k (data doc') = get k (data doc))
               ∧ (∀ k, k ∈ keys (data doc') ↔ k ∈ keys (data doc))
               ∧ (doc' = normalized config doc
                  ∧ content doc' = newline (content doc)
                  ∧ Frontmatter.isInCorrectOrder (propertyOrder config)
                      (keys (data doc')) = true
                  ∧ fixFlag = true ∧ file ∈ articleFiles ++ chapterFiles
                  ∧ fileWrongOrder config docs file = true
                  ∨ doc' = doc
                    ∧ (fixFlag = false ∨ file ∉ articleFiles ++ chapterFiles
                       ∨ fileWrongOrder config docs file = false))).
Proof.
  intros _ _ after. unfold after. rewrite run_documents.
  split; [done|]. split.
  - intros file Hnone. destruct fixFlag; [|done]. by rewrite lookup_rewritten, Hnone.
  - intros file doc Hdoc. destruct fixFlag.
    + rewrite lookup_rewritten, Hdoc. simpl.
      destruct (bool_decide (file ∈ articleFiles ++ chapterFiles)) eqn:Hin; simpl.
      * apply bool_decide_eq_true in Hin.
        destruct (fileWrongOrder config docs file) eqn:Hw.
        -- exists (normalized config doc).
           split; [done|]. split; [apply get_sortedData|].
           split; [apply keys_normalized|]. left.
           split; [done|]. split; [done|]. split; [apply sortedData_in_order|done].
        -- exists doc. repeat (split; [done|]). right. auto.
      * apply bool_decide_eq_false in Hin.
        exists doc. repeat (split; [done|]). right. auto.
    + exists doc. repeat (split; [done|]). right. auto.
Qed.

Lemma run_rewrites_witness :
  ZennLinter.documentsAfter
    (ZennLinter.runMainWithoutExit (path := NodePath.posix) Zenn.DEFAULT_CONFIG true
       {| configYaml := λ _, NoConfigFile; readdirSync := λ _, [] |}
       {[ "books/guide/1.intro.md" :=
            {| data := [("emoji", JStr "e"); ("note", JNull); ("title", JStr "T")];
               content := "# Intro" |} ]}
       [] ["books/guide/1.intro.md"] [])
  = rewritten (path := NodePath.posix) Zenn.DEFAULT_CONFIG
      {[ "books/guide/1.intro.md" :=
           {| data := [("emoji", JStr "e"); ("note", JNull); ("title", JStr "T")];
              content := "# Intro" |} ]}
      ([] ++ ["books/guide/1.intro.md"]).
Proof.
  apply (run_rewrites (path := NodePath.posix) Zenn.DEFAULT_CONFIG true
       {| configYaml := λ _, NoConfigFile; readdirSync := λ _, [] |}
       {[ "books/guide/1.intro.md" :=
            {| data := [("emoji", JStr "e"); ("note", JNull); ("title", JStr "T")];
               content := "# Intro" |} ]}
       [] ["books/guide/1.intro.md"] [] (conj eq_refl eq_refl)).
  intros file doc Hdoc. apply lookup_singleton_Some in Hdoc as [_ <-].
  split; reflexivity.
Defined.

(** X8.  The documents reported are the listed files that have a problem,
    articles before chapters, each in the place of its file in the list and
    with the findings of the files as they were before the run: always so
    without [--fix], and with [--fix] when no file is listed twice. *)
Theorem results_in_list_order `{path : NodePath.Api} (config : LintConfig)
    (fixFlag : bool) (files : BookFiles) (docs : gmap string Document)
    (articleFiles chapterFiles bookDirs : list string) :
  fixFlag = false ∨ NoDup (articleFiles ++ chapterFiles) →
  let st := ZennLinter.validateAll config fixFlag files docs
              articleFiles chapterFiles bookDirs in
  ZennLinter.frontmatterResults st
  = List.filter Zenn.documentHasProblem
      (omap (Zenn.lintZennFrontmatter config docs) (articleFiles ++ chapterFiles))
  ∧ ZennLinter.bookConfigResults st
    = List.filter ZennLinter.bookHasProblem
        (map (ZennLinter.lintBookConfig config files) bookDirs).
Proof.
  intros Hmode st. split; [|apply validateAll_books].
  unfold st, ZennLinter.validateAll.
  set (st0 := {| ZennLinter.hasErrors := false; ZennLinter.frontmatterResults := [];
                 ZennLinter.bookConfigResults := []; ZennLinter.documents := docs;
                 ZennLinter.stdout := [] |}).
  destruct (books_loop config files bookDirs
              (fold_left (ZennLinter.visitFile config fixFlag)
                 (articleFiles ++ chapterFiles) st0)) as (_ & _ & -> & _).
  by rewrite (files_loop_results_exact config fixFlag docs).
Qed.

Lemma results_in_list_order_witness :
  ZennLinter.frontmatterResults
    (ZennLinter.validateAll (path := NodePath.posix) Zenn.DEFAULT_CONFIG true
       {| configYaml := λ _, NoConfigFile; readdirSync := λ _, [] |}
       {[ "articles/bad.md" := {| data := [("title", JStr "T")]; content := "" |} ]}
       ["articles/bad.md"] ["books/b/1.a.md"] [])
  = List.filter Zenn.documentHasProblem
      (omap (Zenn.lintZennFrontmatter (path := NodePath.posix) Zenn.DEFAULT_CONFIG
               {[ "articles/bad.md" := {| data := [("title", JStr "T")]; content := "" |} ]})
         (["articles/bad.md"] ++ ["books/b/1.a.md"])).
Proof.
  apply (results_in_list_order (path := NodePath.posix) Zenn.DEFAULT_CONFIG true
       {| configYaml := λ _, NoConfigFile; readdirSync := λ _, [] |}
       {[ "articles/bad.md" := {| data := [("title", JStr "T")]; content := "" |} ]}
       ["articles/bad.md"] ["books/b/1.a.md"] []).
  right. apply (bool_decide_unpack _). vm_compute. exact I.
Defined.

(** ** A check run after a fix run *)

Section FixThenCheck.
Context `{path : NodePath.Api}.






End FixThenCheck.


(** ** Book results: invariants and edge cases *)

Ltac simpl_script_result :=
  unfold ZennScript.BookConfigLintResult.withMissing,
    ZennScript.BookConfigLintResult.withMissingConfigFile,
    ZennScript.BookConfigLintResult.withInvalidChapters;
  simpl.

Section BookResults.
Context `{path : NodePath.Api}.

Lemma missingProps_sublist (required : list string) (v : jsval) (ms : list string) :
  missingProps required v = Some ms → ms `sublist_of` required.
Proof.
  revert ms. induction required as [|prop rest IH]; intros ms; simpl.
  - by intros [= <-].
  - destruct (in_op prop v) as [b|]; [|done]. simpl.
    destruct (missingProps rest v) as [ms'|]; [|done]. simpl.
    intros [= <-]. destruct b; [by apply sublist_cons, IH|by apply sublist_skip, IH].
Qed.

Lemma checkNumberedChapterFiles_frame (files : BookFiles) (bookDir : string)
    (result : ZennLinter.BookConfigLintResult.t) :
  let r := ZennLinter.checkNumberedChapterFiles files bookDir result in
  ZennLinter.BookConfigLintResult.dir r = ZennLinter.BookConfigLintResult.dir result
  ∧ ZennLinter.BookConfigLintResult.missing r
    = ZennLinter.BookConfigLintResult.missing result
  ∧ ZennLinter.BookConfigLintResult.missingConfigFile r
    = ZennLinter.BookConfigLintResult.missingConfigFile result.
Proof.
  unfold ZennLinter.checkNumberedChapterFiles.
  destruct (Nat.eqb _ 0); simpl_result; [done|].
  destruct (_ && _); simpl_result; [done|].
  by destruct (0 <? _)%nat; simpl_result.
Qed.

Lemma checkNumberedChapterFiles_consistent (files : BookFiles) (bookDir : string)
    (result : ZennLinter.BookConfigLintResult.t) :
  consistent result →
  consistent (ZennLinter.checkNumberedChapterFiles files bookDir result).
Proof.
  intros (Hi & Hd & Hn). unfold ZennLinter.checkNumberedChapterFiles, consistent.
  destruct (Nat.eqb _ 0); simpl_result; [naive_solver|].
  destruct (_ && _); simpl_result; [naive_solver|].
  destruct (0 <? _)%nat eqn:Hdup; simpl_result; [|done].
  apply positive_length in Hdup. naive_solver.
Qed.

(** what the [try] block of [lintBookConfig] leaves in the result *)
Lemma lintBookConfigBody_frame (config : LintConfig) (files : BookFiles)
    (bookDir : string) (configData : jsval) (result : ZennLinter.BookConfigLintResult.t) :
  let c := ZennLinter.lintBookConfigBody config files bookDir configData result in
  ZennLinter.BookConfigLintResult.dir (completed c)
  = ZennLinter.BookConfigLintResult.dir result
  ∧ ZennLinter.BookConfigLintResult.missingConfigFile (completed c)
    = ZennLinter.BookConfigLintResult.missingConfigFile result
  ∧ (∀ r, c = Returned r →
       ZennLinter.BookConfigLintResult.missing r
       `sublist_of` bookConfigRequiredProperties config)
  ∧ (consistent result → consistent (completed c)).
Proof.
  unfold ZennLinter.lintBookConfigBody.
  destruct (missingProps _ _) as [ms|] eqn:Hms; simpl_result; [|done].
  apply missingProps_sublist in Hms.
  destruct (in_op "chapters" configData) as [[]|]; simpl_result;
    [|split; [done|]; split; [done|]; split; [by intros r [= <-]|done]|done].
  destruct (field "chapters" configData) as [| |b|n|s|items|o]; simpl_result;
    try (split; [done|]; split; [done|]; split; [by intros r [= <-]|];
         unfold consistent; simpl; naive_solver).
  destruct items as [|c cs].
  { simpl_result.
    match goal with
    | |- context [ZennLinter.checkNumberedChapterFiles files bookDir ?r] =>
        destruct (checkNumberedChapterFiles_frame files bookDir r)
          as (Hdir & Hmissing & Hfile);
        pose proof (checkNumberedChapterFiles_consistent files bookDir r) as Hcons
    end.
    simpl in Hdir, Hmissing, Hfile.
    split; [done|]. split; [done|]. split.
    - intros r [= <-]. by rewrite Hmissing.
    - intros Hres. apply Hcons. unfold consistent in *. simpl. done. }
  destruct (find ZennLinter.chapterLacksFileOrTitle (c :: cs)) as [found|];
    [|simpl_result; done].
  destruct (truthy (default JUndefined found));
    destruct (ZennLinter.chapterSlugs (c :: cs)) as [slugs|];
    try destruct (0 <? length (ZennLinter.duplicateSlugsOf slugs))%nat eqn:Hdup;
    simpl_result;
    (split; [done|]; split; [done|]; split; [by intros r [= <-]|]);
    try apply positive_length in Hdup;
    unfold consistent; simpl; naive_solver.
Qed.

Lemma chapters_not_an_index (n : nat) (key : string) :
  key = "chapters" ∨ key = "file" ∨ key = "title" →
  String.eqb key (string_of_nat n) = false.
Proof.
  unfold string_of_nat. intros [->|[->| ->]]; by destruct (Nat.to_uint n).
Qed.

Lemma in_op_array (key : string) (l : list jsval) :
  key = "chapters" ∨ key = "file" ∨ key = "title" →
  in_op key (JArr l) = Some false.
Proof.
  intros Hkey. simpl. f_equal. rewrite existsb_app. apply orb_false_iff. split.
  - generalize 0%nat. induction (length l) as [|n IH]; intros s; simpl; [done|].
    by rewrite chapters_not_an_index, IH.
  - destruct Hkey as [->|[->| ->]]; reflexivity.
Qed.

Lemma find_wellFormed (before rest : list jsval) :
  Forall wellFormedChapter before →
  find ZennLinter.chapterLacksFileOrTitle (before ++ rest)
  = find ZennLinter.chapterLacksFileOrTitle rest.
Proof.
  induction 1 as [|c before (o & -> & Hfile & Htitle) _ IH]; [done|].
  simpl. rewrite chapterLacksFileOrTitle_object, Hfile, Htitle. simpl. apply IH.
Qed.

Lemma chapterSlugs_total (items : list jsval) :
  Forall fileIsText items → ∃ slugs, ZennLinter.chapterSlugs items = Some slugs.
Proof.
  induction 1 as [|c items Hc _ [slugs IH]]; [by exists []|].
  rewrite chapterSlugs_cons, IH. unfold fileIsText in Hc.
  destruct (truthy c); simpl; [|by eauto].
  destruct (truthy (field "file" c)) eqn:Ht; [|by eauto].
  destruct (Hc eq_refl) as [file ->]. eauto.
Qed.

Lemma offender_found (offender : jsval) :
  offender ≠ JNull → ¬ wellFormedChapter offender →
  ZennLinter.chapterLacksFileOrTitle offender = Some true.
Proof.
  intros Hnull Hnot. destruct offender as [| |b|n|s|l|o]; try done.
  - unfold ZennLinter.chapterLacksFileOrTitle. simpl typeof_not_object. cbv iota.
    rewrite (in_op_array "file") by auto. reflexivity.
  - rewrite chapterLacksFileOrTitle_object. f_equal.
    destruct (has "file" o) eqn:Hf; [|done]. destruct (has "title" o) eqn:Ht; [|done].
    destruct Hnot. by exists o.
Qed.

End BookResults.

(** X10.  Whatever the book directory holds, the result of the full
    validator names that directory, lists as missing a subsequence of the
    required manifest keys, says that the manifest file is missing exactly
    when there is none (and then reports nothing else), and sets its
    optional fields together: there is an error text exactly when the
    chapters are invalid, one of the texts of the script, and there are
    duplicate names, at least one, exactly when a duplicate slug is
    flagged. *)
Theorem book_result_invariants `{path : NodePath.Api} (config : LintConfig)
    (files : BookFiles) (bookDir : string) :
  let r := ZennLinter.lintBookConfig config files bookDir in
  ZennLinter.BookConfigLintResult.dir r = bookDir
  ∧ ZennLinter.BookConfigLintResult.missing r
    `sublist_of` bookConfigRequiredProperties config
  ∧ (ZennLinter.BookConfigLintResult.missingConfigFile r = true
     ↔ configYaml files bookDir = NoConfigFile)
  ∧ (ZennLinter.BookConfigLintResult.missingConfigFile r = true →
       ZennLinter.BookConfigLintResult.missing r = []
       ∧ ZennLinter.BookConfigLintResult.invalidChapters r = false
       ∧ ZennLinter.BookConfigLintResult.duplicateChapterSlug r = false)
  ∧ consistent r
  ∧ (∀ e, ZennLinter.BookConfigLintResult.chaptersError r = Some e →
          knownChaptersError e).
Proof.
  intros r. unfold r.
  split; [|split; [|split; [|split; [|split]]]]; try (intros e; apply chaptersError_known).
  all: unfold ZennLinter.lintBookConfig.
  all: set (result := {| ZennLinter.BookConfigLintResult.dir := bookDir;
                         ZennLinter.BookConfigLintResult.missing := [];
                         ZennLinter.BookConfigLintResult.missingConfigFile := false;
                         ZennLinter.BookConfigLintResult.invalidChapters := false;
                         ZennLinter.BookConfigLintResult.chaptersError := None;
                         ZennLinter.BookConfigLintResult.duplicateChapterSlug := false;
                         ZennLinter.BookConfigLintResult.duplicateChapterNames := None |}).
  all: assert (consistent result) as Hres by (unfold consistent; simpl; naive_solver).
  all: destruct (configYaml files bookDir) as [| |configData] eqn:Hcfg.
  all: try (destruct (lintBookConfigBody_frame config files bookDir configData result)
              as (Hdir & Hfile & Hmissing & Hcons);
            specialize (Hcons Hres);
            destruct (ZennLinter.lintBookConfigBody config files bookDir configData result)
              as [r'|r'] eqn:Hbody; simpl in Hdir, Hfile, Hcons).
  all: simpl_result; try done.
  all: try (by apply sublist_nil_l).
  all: try (by apply Hmissing).
  all: try (rewrite Hfile; by split).
  all: try (by split).
  all: try (intros Hmf; rewrite Hfile in Hmf; done).
Qed.

(** X11.  A manifest that loads as something other than a mapping or a
    list (a scalar, or nothing at all for an empty file) makes the [in]
    test throw: both versions report every required key missing and
    nothing else, as for a manifest that cannot be parsed. *)
Theorem manifest_not_a_mapping `{path : NodePath.Api} (config : LintConfig)
    (files : BookFiles) (bookDir : string) (loaded : jsval) :
  configYaml files bookDir = Loaded loaded →
  isScalar loaded →
  ZennLinter.lintBookConfig config files bookDir
  = {| ZennLinter.BookConfigLintResult.dir := bookDir;
       ZennLinter.BookConfigLintResult.missing := bookConfigRequiredProperties config;
       ZennLinter.BookConfigLintResult.missingConfigFile := false;
       ZennLinter.BookConfigLintResult.invalidChapters := false;
       ZennLinter.BookConfigLintResult.chaptersError := None;
       ZennLinter.BookConfigLintResult.duplicateChapterSlug := false;
       ZennLinter.BookConfigLintResult.duplicateChapterNames := None |}
  ∧ ZennScript.lintBookConfig config files bookDir
    = {| ZennScript.BookConfigLintResult.dir := bookDir;
         ZennScript.BookConfigLintResult.missing := bookConfigRequiredProperties config;
         ZennScript.BookConfigLintResult.missingConfigFile := false;
         ZennScript.BookConfigLintResult.invalidChapters := false;
         ZennScript.BookConfigLintResult.chaptersError := None |}.
Proof.
  intros Hcfg Hscalar.
  unfold ZennLinter.lintBookConfig, ZennLinter.lintBookConfigBody,
    ZennScript.lintBookConfig, ZennScript.lintBookConfigBody.
  rewrite Hcfg.
  destruct loaded; try done; by destruct (bookConfigRequiredProperties config).
Qed.

Lemma manifest_not_a_mapping_witness :
  ZennLinter.BookConfigLintResult.missing
    (ZennLinter.lintBookConfig (path := NodePath.posix) Zenn.DEFAULT_CONFIG
       {| configYaml := λ _, Loaded JUndefined; readdirSync := λ _, [] |} "books/empty")
  = ["title"; "summary"; "topics"; "published"; "price"; "chapters"].
Proof.
  destruct (manifest_not_a_mapping (path := NodePath.posix) Zenn.DEFAULT_CONFIG
       {| configYaml := λ _, Loaded JUndefined; readdirSync := λ _, [] |} "books/empty"
       JUndefined eq_refl I) as [-> _].
  reflexivity.
Defined.

(** X12.  An empty entry in the chapter list ([null]) that is met before
    any entry lacking [file] or [title] makes the [in] test throw: both
    versions then report every required key missing, and neither invalid
    chapters nor duplicates. *)
Theorem null_chapter_entry `{path : NodePath.Api} (config : LintConfig)
    (files : BookFiles) (bookDir : string) (props : jsobject)
    (before after : list jsval) :
  configYaml files bookDir = Loaded (JObj props) →
  get "chapters" props = Some (JArr (before ++ JNull :: after)) →
  Forall wellFormedChapter before →
  ZennLinter.lintBookConfig config files bookDir
  = {| ZennLinter.BookConfigLintResult.dir := bookDir;
       ZennLinter.BookConfigLintResult.missing := bookConfigRequiredProperties config;
       ZennLinter.BookConfigLintResult.missingConfigFile := false;
       ZennLinter.BookConfigLintResult.invalidChapters := false;
       ZennLinter.BookConfigLintResult.chaptersError := None;
       ZennLinter.BookConfigLintResult.duplicateChapterSlug := false;
       ZennLinter.BookConfigLintResult.duplicateChapterNames := None |}
  ∧ ZennScript.lintBookConfig config files bookDir
    = {| ZennScript.BookConfigLintResult.dir := bookDir;
         ZennScript.BookConfigLintResult.missing := bookConfigRequiredProperties config;
         ZennScript.BookConfigLintResult.missingConfigFile := false;
         ZennScript.BookConfigLintResult.invalidChapters := false;
         ZennScript.BookConfigLintResult.chaptersError := None |}.
Proof.
  intros Hcfg Hch Hbefore.
  assert (find ZennLinter.chapterLacksFileOrTitle (before ++ JNull :: after) = None) as Hfind.
  { by rewrite find_wellFormed. }
  unfold ZennLinter.lintBookConfig, ZennLinter.lintBookConfigBody,
    ZennScript.lintBookConfig, ZennScript.lintBookConfigBody.
  rewrite Hcfg, missingProps_object. simpl in_op.
  rewrite (get_Some_has _ _ _ Hch), (field_get _ _ _ Hch).
  change ZennScript.chapterLacksFileOrTitle with ZennLinter.chapterLacksFileOrTitle.
  destruct (before ++ JNull :: after) as [|c cs] eqn:Hitems.
  { by destruct before. }
  by rewrite Hfind.
Qed.

Lemma null_chapter_entry_witness :
  ZennLinter.BookConfigLintResult.missing
    (ZennLinter.lintBookConfig (path := NodePath.posix) Zenn.DEFAULT_CONFIG
       (bookWith (JArr ([chapter "a.md" "A"] ++ JNull :: [chapter "b.md" "B"])) [])
       "books/x")
  = ["title"; "summary"; "topics"; "published"; "price"; "chapters"].
Proof.
  destruct (null_chapter_entry (path := NodePath.posix) Zenn.DEFAULT_CONFIG
       (bookWith (JArr ([chapter "a.md" "A"] ++ JNull :: [chapter "b.md" "B"])) [])
       "books/x" _ [chapter "a.md" "A"] [chapter "b.md" "B"] eq_refl eq_refl) as [-> _].
  - constructor; [|constructor]. eexists. split; [reflexivity|]. by split.
  - reflexivity.
Defined.

(** X13.  In a chapter list the first entry that is not a mapping holding
    both [file] and [title] decides, provided it is not [null]: both
    versions flag invalid chapters exactly when that entry is truthy, so a
    mapping without [title] or a plain string is flagged, and an entry [0],
    an empty string or [false] is not. *)
Theorem first_offender_decides `{path : NodePath.Api} (config : LintConfig)
    (files : BookFiles) (bookDir : string) (props : jsobject)
    (before after : list jsval) (offender : jsval) :
  configYaml files bookDir = Loaded (JObj props) →
  get "chapters" props = Some (JArr (before ++ offender :: after)) →
  Forall wellFormedChapter before →
  offender ≠ JNull →
  ¬ wellFormedChapter offender →
  ZennLinter.BookConfigLintResult.invalidChapters
    (ZennLinter.lintBookConfig config files bookDir) = truthy offender
  ∧ ZennScript.BookConfigLintResult.invalidChapters
      (ZennScript.lintBookConfig config files bookDir) = truthy offender.
Proof.
  intros Hcfg Hch Hbefore Hnull Hnot.
  assert (find ZennLinter.chapterLacksFileOrTitle (before ++ offender :: after)
          = Some (Some offender)) as Hfind.
  { rewrite find_wellFormed by done. simpl. by rewrite offender_found. }
  unfold ZennLinter.lintBookConfig, ZennLinter.lintBookConfigBody,
    ZennScript.lintBookConfig, ZennScript.lintBookConfigBody.
  rewrite Hcfg, missingProps_object. simpl in_op.
  rewrite (get_Some_has _ _ _ Hch), (field_get _ _ _ Hch).
  change ZennScript.chapterLacksFileOrTitle with ZennLinter.chapterLacksFileOrTitle.
  destruct (before ++ offender :: after) as [|c cs] eqn:Hitems.
  { by destruct before. }
  rewrite Hfind. simpl default.
  destruct (truthy offender); (split; [|done]);
    by destruct (ZennLinter.chapterSlugs (c :: cs));
      [destruct (0 <? length _)%nat|].
Qed.

Lemma first_offender_decides_witness :
  ZennLinter.BookConfigLintResult.invalidChapters
    (ZennLinter.lintBookConfig (path := NodePath.posix) Zenn.DEFAULT_CONFIG
       (bookWith (JArr ([chapter "a.md" "A"] ++ JStr "" :: [JStr "intro"])) [])
       "books/x")
  = false.
Proof.
  destruct (first_offender_decides (path := NodePath.posix) Zenn.DEFAULT_CONFIG
       (bookWith (JArr ([chapter "a.md" "A"] ++ JStr "" :: [JStr "intro"])) [])
       "books/x" _ [chapter "a.md" "A"] [JStr "intro"] (JStr "") eq_refl eq_refl)
    as [-> _].
  - constructor; [|constructor]. eexists. split; [reflexivity|]. by split.
  - discriminate.
  - intros (o & [=] & _).
  - reflexivity.
Defined.

(** X14.  The two versions of the book validator give the same directory,
    missing keys, missing-file flag, invalid-chapters flag and error text,
    unless the manifest is a mapping whose [chapters] value is [null], an
    empty list, or a list with an entry whose [file] value is truthy and
    not a string: those are the cases the full linter treats on its own
    (no error for [null], the numbered files for an empty list); the
    duplicate slugs it finds besides are not in the shorter result. *)
Theorem linters_agree `{path : NodePath.Api} (config : LintConfig)
    (files : BookFiles) (bookDir : string) :
  (∀ props chapters,
     configYaml files bookDir = Loaded (JObj props) →
     get "chapters" props = Some chapters →
     chapters ≠ JNull ∧ chapters ≠ JUndefined ∧ chapters ≠ JArr []
     ∧ ∀ items, chapters = JArr items → Forall fileIsText items) →
  ZennScript.lintBookConfig config files bookDir
  = sharedFields (ZennLinter.lintBookConfig config files bookDir).
Proof.
  intros Hdiff.
  unfold ZennLinter.lintBookConfig, ZennLinter.lintBookConfigBody,
    ZennScript.lintBookConfig, ZennScript.lintBookConfigBody.
  destruct (configYaml files bookDir) as [| |configData] eqn:Hcfg; [done|done|].
  destruct (missingProps _ configData) as [ms|]; [|done].
  destruct configData as [| |b|n|s|l|props]; try done.
  { rewrite (in_op_array "chapters") by auto. reflexivity. }
  simpl in_op. destruct (has "chapters" props) eqn:Hhas; [|done].
  destruct (has_get _ _ Hhas) as [chapters Hch].
  destruct (Hdiff props chapters eq_refl Hch) as (Hnull & Hundef & Hnil & Htext).
  rewrite (field_get _ _ _ Hch).
  destruct chapters as [| |b|n|s|items|o]; try done.
  destruct items as [|c cs]; [done|].
  change ZennScript.chapterLacksFileOrTitle with ZennLinter.chapterLacksFileOrTitle.
  destruct (find ZennLinter.chapterLacksFileOrTitle (c :: cs)) as [found|]; [|done].
  destruct (chapterSlugs_total (c :: cs) (Htext _ eq_refl)) as [slugs ->].
  by destruct (truthy (default JUndefined found));
    destruct (0 <? length (ZennLinter.duplicateSlugsOf slugs))%nat.
Qed.

Lemma linters_agree_witness :
  ZennScript.lintBookConfig Zenn.DEFAULT_CONFIG
    (bookWith (JArr [chapter "a.md" "A"; JObj [("file", JStr "a.md")]]) []) "books/x"
  = sharedFields
      (ZennLinter.lintBookConfig (path := NodePath.posix) Zenn.DEFAULT_CONFIG
         (bookWith (JArr [chapter "a.md" "A"; JObj [("file", JStr "a.md")]]) [])
         "books/x").
Proof.
  apply (linters_agree (path := NodePath.posix)).
  intros props chapters [= <-] [= <-].
  split; [done|]. split; [done|]. split; [done|].
  intros items [= <-]. repeat constructor; intros _; by eexists.
Defined.

(** ** The chapters block, case by case *)

Section ChaptersBlock.
Context `{path : NodePath.Api}.



End ChaptersBlock.





(** ** The numbered-file fallback *)

Section Fallback.

Lemma filter_Permutation_list {A} (f : A → bool) (l1 l2 : list A) :
  l1 ≡ₚ l2 → List.filter f l1 ≡ₚ List.filter f l2.
Proof.
  induction 1 as [|x l1 l2 _ IH|x y l|l1 l2 l3 _ IH1 _ IH2]; simpl.
  - done.
  - destruct (f x); [by constructor|done].
  - destruct (f x); destruct (f y); try done. apply Permutation_swap.
  - by etrans.
Qed.

Lemma merge_sort_Permutation_eq (l1 l2 : list string) :
  l1 ≡ₚ l2 → merge_sort String.le l1 = merge_sort String.le l2.
Proof.
  intros Hp. apply (StronglySorted_unique String.le).
  - apply StronglySorted_merge_sort; apply _.
  - apply StronglySorted_merge_sort; apply _.
  - by rewrite !merge_sort_Permutation.
Qed.

Lemma noteSlug_sublist (l : list string) (seen : gset string) (dups : list string) :
  ∃ more, (fold_left ZennLinter.noteSlug l (seen, dups)).2 = dups ++ more
          ∧ more `sublist_of` l.
Proof.
  revert seen dups. induction l as [|y l IH]; intros seen dups; simpl.
  - exists []. by rewrite app_nil_r.
  - unfold ZennLinter.noteSlug at 2. simpl.
    destruct (bool_decide (y ∈ seen)).
    + destruct (IH seen (dups ++ [y])) as (more & -> & Hsub).
      exists (y :: more). rewrite <- app_assoc. split; [done|]. by apply sublist_skip.
    + destruct (IH ({[y]} ∪ seen) dups) as (more & -> & Hsub).
      exists more. split; [done|]. by apply sublist_cons.
Qed.

End Fallback.

(** X15.  The fallback on numbered files depends on the directory only
    through the set of its entries whose name ends in [.md]: the other
    entries, and the order in which the directory is listed, change
    nothing in the result. *)
Theorem fallback_listing_order (files1 files2 : BookFiles) (bookDir : string)
    (result : ZennLinter.BookConfigLintResult.t) :
  List.filter (Str.endsWith ".md") (readdirSync files1 bookDir)
  ≡ₚ List.filter (Str.endsWith ".md") (readdirSync files2 bookDir) →
  ZennLinter.checkNumberedChapterFiles files1 bookDir result
  = ZennLinter.checkNumberedChapterFiles files2 bookDir result
  ∧ markdownFiles files1 bookDir = markdownFiles files2 bookDir
  ∧ (∀ name, name ∈ markdownFiles files1 bookDir
             ↔ name ∈ readdirSync files1 bookDir ∧ ∃ stem, name = stem +:+ ".md").
Proof.
  intros Hp.
  assert (markdownFiles files1 bookDir = markdownFiles files2 bookDir) as Hmd
    by (by apply merge_sort_Permutation_eq).
  split; [|split; [done|]].
  - unfold ZennLinter.checkNumberedChapterFiles.
    fold (markdownFiles files1 bookDir). fold (markdownFiles files2 bookDir).
    by rewrite Hmd.
  - intros name. unfold markdownFiles. rewrite merge_sort_Permutation.
    by rewrite list_elem_of_In, filter_In, <- list_elem_of_In, endsWith_spec.
Qed.

Lemma fallback_listing_order_witness :
  ZennLinter.checkNumberedChapterFiles
    {| configYaml := λ _, NoConfigFile;
       readdirSync := λ _, ["2.b.md"; "cover.png"; "1.a.md"; "config.yaml"] |}
    "books/x"
    {| ZennLinter.BookConfigLintResult.dir := "books/x";
       ZennLinter.BookConfigLintResult.missing := [];
       ZennLinter.BookConfigLintResult.missingConfigFile := false;
       ZennLinter.BookConfigLintResult.invalidChapters := false;
       ZennLinter.BookConfigLintResult.chaptersError := None;
       ZennLinter.BookConfigLintResult.duplicateChapterSlug := false;
       ZennLinter.BookConfigLintResult.duplicateChapterNames := None |}
  = ZennLinter.checkNumberedChapterFiles
      {| configYaml := λ _, NoConfigFile; readdirSync := λ _, ["1.a.md"; "2.b.md"] |}
      "books/x"
      {| ZennLinter.BookConfigLintResult.dir := "books/x";
         ZennLinter.BookConfigLintResult.missing := [];
         ZennLinter.BookConfigLintResult.missingConfigFile := false;
         ZennLinter.BookConfigLintResult.invalidChapters := false;
         ZennLinter.BookConfigLintResult.chaptersError := None;
         ZennLinter.BookConfigLintResult.duplicateChapterSlug := false;
         ZennLinter.BookConfigLintResult.duplicateChapterNames := None |}.
Proof.
  apply (fallback_listing_order
    {| configYaml := λ _, NoConfigFile;
       readdirSync := λ _, ["2.b.md"; "cover.png"; "1.a.md"; "config.yaml"] |}
    {| configYaml := λ _, NoConfigFile; readdirSync := λ _, ["1.a.md"; "2.b.md"] |}).
  vm_compute. apply Permutation_swap.
Defined.

(** X16.  A file name of the form [<digits>.<slug>.md] is recognised as a
    numbered chapter and its slug is the part between the number and
    [.md]; no other name is recognised, and from a name that is not
    recognised [extractSlugFromNumberedChapter] returns the name itself. *)
Theorem numbered_chapter_slug (fileName : string) :
  (∀ slug, NumberedChapter fileName slug →
     ZennLinter.isNumberedChapterFileName fileName = true
     ∧ ZennLinter.extractSlugFromNumberedChapter fileName = slug)
  ∧ (ZennLinter.isNumberedChapterFileName fileName = true →
       ∃ slug, NumberedChapter fileName slug)
  ∧ (ZennLinter.isNumberedChapterFileName fileName = false →
       ZennLinter.extractSlugFromNumberedChapter fileName = fileName).
Proof.
  split; [|split].
  - intros slug Hn. pose proof Hn as Hm.
    apply NumberedChapter_shape, matchNumbered_shape in Hm.
    split; [apply isNumbered_match; eauto|].
    unfold ZennLinter.extractSlugFromNumberedChapter. rewrite Hm.
    destruct Hn as (_ & _ & _ & Hs & _). by destruct (String.eqb_spec slug "").
  - intros (slug & Hm)%isNumbered_match. exists slug.
    by apply NumberedChapter_shape, matchNumbered_shape.
  - intros Hno. unfold ZennLinter.extractSlugFromNumberedChapter.
    destruct (ZennLinter.matchNumberedChapter fileName) as [slug|] eqn:Hm; [|done].
    assert (ZennLinter.isNumberedChapterFileName fileName = true) as Hyes
      by (apply isNumbered_match; eauto).
    congruence.
Qed.

(** X17.  The duplicate scan of the two chapter checks lists a slug once
    for each of its occurrences after the first, in the order in which
    those occurrences are met: nothing is listed exactly when no slug
    repeats. *)
Theorem duplicate_scan (slugs : list string) :
  let duplicates := ZennLinter.duplicateSlugsOf slugs in
  (∀ slug, occurrences slug duplicates = Nat.pred (occurrences slug slugs))
  ∧ (∀ slug, slug ∈ duplicates ↔ (2 ≤ occurrences slug slugs)%nat)
  ∧ duplicates `sublist_of` slugs
  ∧ (duplicates = [] ↔ NoDup slugs).
Proof.
  intros duplicates. unfold duplicates.
  split; [apply duplicateSlugsOf_occurrences|].
  split; [apply elem_of_duplicateSlugsOf|].
  split; [|apply duplicateSlugsOf_nil].
  unfold ZennLinter.duplicateSlugsOf.
  by destruct (noteSlug_sublist slugs ∅ []) as (more & -> & Hsub).
Qed.

(** ** The run of the MDX linter *)

Section MdxRun.
Context `{path : NodePath.Api}.

Lemma mdx_visit_clean config fixFlag st file :
  mdxFileHasProblem config (MdxLinter.documents st) file = false →
  MdxLinter.visitFile config fixFlag st file = st.
Proof.
  unfold mdxFileHasProblem, MdxLinter.visitFile.
  destruct (MdxLinter.lintMdxFrontmatter _ _ _) as [r|]; [|done]. by intros ->.
Qed.

Lemma mdx_visit_problem config fixFlag st file :
  mdxFileHasProblem config (MdxLinter.documents st) file = true →
  MdxLinter.hasErrors (MdxLinter.visitFile config fixFlag st file) = true.
Proof.
  unfold mdxFileHasProblem, MdxLinter.visitFile.
  destruct (MdxLinter.lintMdxFrontmatter _ _ _) as [r|]; [|done]. intros ->.
  by destruct_let_pair.
Qed.

Lemma mdx_visit_mono config fixFlag st file :
  MdxLinter.hasErrors st = true →
  MdxLinter.hasErrors (MdxLinter.visitFile config fixFlag st file) = true.
Proof.
  intros Hst. unfold MdxLinter.visitFile.
  destruct (MdxLinter.lintMdxFrontmatter _ _ _) as [r|]; [|done].
  destruct (MdxLinter.resultHasProblem r); [|done].
  by destruct_let_pair.
Qed.

Lemma mdx_loop_mono config fixFlag files st :
  MdxLinter.hasErrors st = true →
  MdxLinter.hasErrors (fold_left (MdxLinter.visitFile config fixFlag) files st) = true.
Proof.
  revert st. induction files as [|f files IH]; intros st Hst; simpl; [done|].
  by apply IH, mdx_visit_mono.
Qed.

Lemma mdx_loop_hasErrors config fixFlag files st :
  MdxLinter.hasErrors st = false →
  MdxLinter.hasErrors (fold_left (MdxLinter.visitFile config fixFlag) files st)
  = existsb (mdxFileHasProblem config (MdxLinter.documents st)) files.
Proof.
  revert st. induction files as [|f files IH]; intros st Hst; simpl; [done|].
  destruct (mdxFileHasProblem config (MdxLinter.documents st) f) eqn:Hf; simpl.
  - by apply mdx_loop_mono, mdx_visit_problem.
  - rewrite mdx_visit_clean by done. by apply IH.
Qed.

Lemma mdx_loop_nonempty config fixFlag files st :
  (MdxLinter.hasErrors st = true ↔ MdxLinter.results st ≠ []) →
  let st' := fold_left (MdxLinter.visitFile config fixFlag) files st in
  MdxLinter.hasErrors st' = true ↔ MdxLinter.results st' ≠ [].
Proof.
  revert st. induction files as [|f files IH]; intros st Hst; simpl; [done|].
  apply IH. unfold MdxLinter.visitFile.
  destruct (MdxLinter.lintMdxFrontmatter _ _ _) as [r|]; [|done].
  destruct (MdxLinter.resultHasProblem r) eqn:Hr; [|done].
  destruct_let_pair; simpl.
  split; [intros _|done]. by destruct (MdxLinter.results st).
Qed.

Lemma mdx_check_loop config files st :
  MdxLinter.documents (fold_left (MdxLinter.visitFile config false) files st)
  = MdxLinter.documents st
  ∧ MdxLinter.stdout (fold_left (MdxLinter.visitFile config false) files st)
    = MdxLinter.stdout st.
Proof.
  revert st. induction files as [|f files IH]; intros st; simpl; [done|].
  destruct (IH (MdxLinter.visitFile config false st f)) as [-> ->].
  unfold MdxLinter.visitFile.
  destruct (MdxLinter.lintMdxFrontmatter _ _ _) as [r|]; [|done].
  destruct (MdxLinter.resultHasProblem r); [|done]. simpl. by rewrite app_nil_r.
Qed.

Lemma mdx_resultHasProblem_spec (r : MdxLinter.LintResult.t) :
  MdxLinter.resultHasProblem r = true
  ↔ MdxLinter.LintResult.missing r ≠ [] ∨ MdxLinter.LintResult.wrongOrder r = true.
Proof.
  unfold MdxLinter.resultHasProblem. by rewrite orb_true_iff, positive_length.
Qed.

End MdxRun.

(** X18.  The run of the MDX linter is erroring exactly when some listed
    file that can be read lacks a required key or has its keys out of
    order, whatever the order of the list and also with [--fix]; it is
    erroring exactly when it has a result to report; it exits with [1]
    when it is erroring and [--fix] was not given, and with [0] otherwise;
    without [--fix] it leaves the documents alone and prints only its
    report. *)
Theorem mdx_run `{path : NodePath.Api} (config : LintConfig) (fixFlag : bool)
    (docs : gmap string Document) (mdxFiles : list string) :
  let st := MdxLinter.validateAll config fixFlag docs mdxFiles in
  let run := MdxLinter.main config fixFlag docs mdxFiles in
  (MdxLinter.hasErrors st = true
   ↔ ∃ file r, file ∈ mdxFiles
       ∧ MdxLinter.lintMdxFrontmatter config docs file = Some r
       ∧ (MdxLinter.LintResult.missing r ≠ [] ∨ MdxLinter.LintResult.wrongOrder r = true))
  ∧ (MdxLinter.hasErrors st = true ↔ MdxLinter.results st ≠ [])
  ∧ (∀ mdxFiles', mdxFiles ≡ₚ mdxFiles' →
       MdxLinter.hasErrors (MdxLinter.validateAll config fixFlag docs mdxFiles')
       = MdxLinter.hasErrors st)
  ∧ MdxLinter.exitCode run = (if MdxLinter.hasErrors st && negb fixFlag then 1 else 0)%Z
  ∧ (fixFlag = false →
       MdxLinter.documentsAfter run = docs
       ∧ (mdxFiles ≠ [] →
            MdxLinter.output run
            = "MDX フロントマターリンターを実行しています..."
                :: MdxLinter.report config false st)).
Proof.
  intros st run. unfold st, run, MdxLinter.validateAll.
  set (st0 := {| MdxLinter.hasErrors := false; MdxLinter.results := [];
                 MdxLinter.documents := docs; MdxLinter.stdout := [] |}).
  assert (∀ l, MdxLinter.hasErrors (fold_left (MdxLinter.visitFile config fixFlag) l st0)
               = existsb (mdxFileHasProblem config docs) l) as Herr.
  { intros l. by rewrite mdx_loop_hasErrors. }
  split; [|split; [|split; [|split]]].
  - rewrite Herr, existsb_elem_of. split.
    + intros (file & Hin & Hp). unfold mdxFileHasProblem in Hp.
      destruct (MdxLinter.lintMdxFrontmatter config docs file) as [r|] eqn:Hr; [|done].
      exists file, r. by rewrite <- mdx_resultHasProblem_spec.
    + intros (file & r & Hin & Hr & Hp). exists file. split; [done|].
      unfold mdxFileHasProblem. rewrite Hr. by apply mdx_resultHasProblem_spec.
  - apply (mdx_loop_nonempty config fixFlag mdxFiles st0). simpl. naive_solver.
  - intros mdxFiles' Hp. rewrite !Herr. symmetry. by apply existsb_Permutation.
  - unfold MdxLinter.main. destruct mdxFiles; [done|]. done.
  - intros ->. destruct (mdx_check_loop config mdxFiles st0) as [Hdocs Hout].
    unfold MdxLinter.main, MdxLinter.validateAll. fold st0.
    destruct (Nat.eqb (length mdxFiles) 0) eqn:Hlen.
    + apply Nat.eqb_eq, nil_length_inv in Hlen. by subst.
    + cbn [MdxLinter.documentsAfter MdxLinter.output]. rewrite Hdocs, Hout.
      split; [done|]. intros _. done.
Qed.

(** ** The run of [scripts/lint-zenn.ts] *)

Section ScriptRun.
Context `{path : NodePath.Api}.









End ScriptRun.


(** ** What [--fix] does in the two other scripts *)

Section OtherFixRuns.
Context `{path : NodePath.Api}.


(** one step of a [--fix] loop, on the store alone *)
Lemma fix_step (config : LintConfig) (docs : gmap string Document)
    (listed : list string) (file : string) :
  (if fileWrongOrder config (rewritten config docs listed) file
   then (Zenn.sortFrontmatter config file (rewritten config docs listed)).1
   else rewritten config docs listed)
  = rewritten config docs (listed ++ [file]).
Proof.
  rewrite fileWrongOrder_rewritten, sortFrontmatter_store, rewritten_snoc, lookup_rewritten.
  pose proof (fileWrongOrder_lookup config docs file) as Hw.
  destruct (docs !! file) as [doc|] eqn:Hdoc; simpl.
  2:{ rewrite Hw. done. }
  destruct (fileWrongOrder config docs file) eqn:Hwg; simpl; [|done].
  destruct (bool_decide (file ∈ listed)) eqn:Hin; simpl; [|done].
  symmetry. apply insert_id. by rewrite lookup_rewritten, Hdoc, Hin, Hwg.
Qed.


Lemma mdx_wrongOrder (config : LintConfig) (docs : gmap string Document) (file : string) :
  match MdxLinter.lintMdxFrontmatter config docs file with
  | Some r => MdxLinter.LintResult.wrongOrder r
  | None => false
  end = fileWrongOrder config docs file.
Proof.
  rewrite fileWrongOrder_lookup. unfold MdxLinter.lintMdxFrontmatter.
  by destruct (docs !! file).
Qed.

Lemma mdx_visit_documents (config : LintConfig) (fixFlag : bool)
    (st : MdxLinter.RunState) (file : string) :
  MdxLinter.documents (MdxLinter.visitFile config fixFlag st file)
  = if fixFlag && fileWrongOrder config (MdxLinter.documents st) file
    then (Zenn.sortFrontmatter config file (MdxLinter.documents st)).1
    else MdxLinter.documents st.
Proof.
  rewrite <- mdx_wrongOrder. unfold MdxLinter.visitFile.
  destruct (MdxLinter.lintMdxFrontmatter _ _ _) as [r|]; [|by rewrite andb_false_r].
  destruct (MdxLinter.resultHasProblem r) eqn:Hp.
  - destruct (fixFlag && MdxLinter.LintResult.wrongOrder r); [|done].
    change (MdxLinter.sortFrontmatter config file (MdxLinter.documents st))
      with (Zenn.sortFrontmatter config file (MdxLinter.documents st)).
    by destruct (Zenn.sortFrontmatter _ _ _).
  - destruct (MdxLinter.LintResult.wrongOrder r) eqn:Hw; [|by rewrite andb_false_r].
    unfold MdxLinter.resultHasProblem in Hp. rewrite Hw, orb_true_r in Hp. done.
Qed.

Lemma mdx_fix_loop_documents (config : LintConfig) (docs : gmap string Document)
    (l listed : list string) (st : MdxLinter.RunState) :
  MdxLinter.documents st = rewritten config docs listed →
  MdxLinter.documents (fold_left (MdxLinter.visitFile config true) l st)
  = rewritten config docs (listed ++ l).
Proof.
  revert listed st. induction l as [|g l IH]; intros listed st Hst; simpl.
  - by rewrite app_nil_r.
  - replace (listed ++ g :: l) with ((listed ++ [g]) ++ l) by (by rewrite <- app_assoc).
    apply IH. rewrite mdx_visit_documents, Hst. apply fix_step.
Qed.

Lemma mdx_lint_ext (config : LintConfig) (docs1 docs2 : gmap string Document)
    (file : string) :
  docs1 !! file = docs2 !! file →
  MdxLinter.lintMdxFrontmatter config docs1 file
  = MdxLinter.lintMdxFrontmatter config docs2 file.
Proof. unfold MdxLinter.lintMdxFrontmatter. by intros ->. Qed.

End OtherFixRuns.

(** X26.  With [--fix] the MDX linter writes back the listed files whose
    keys were out of order and touches nothing else.  For a configuration
    that lists plain names only and files whose keys are plain names and in
    whose bodies gray-matter finds no front matter: afterwards every listed
    file lints in order, with the missing keys it had before; a file that
    was written back has the same keys with the same values, in normalized
    order, and its body ends in a line feed (one is added when it did not);
    no file is created or removed, and no other file changes.  (A file that
    could be read can be written.) *)
Theorem mdx_fix_run `{path : NodePath.Api} (config : LintConfig)
    (docs : gmap string Document) (mdxFiles : list string) :
  plainConfig config →
  (∀ file doc, docs !! file = Some doc → plainDocument doc) →
  let fixed := MdxLinter.documentsAfter (MdxLinter.main config true docs mdxFiles) in
  (∀ file r, file ∈ mdxFiles →
     MdxLinter.lintMdxFrontmatter config docs file = Some r →
     ∃ r', MdxLinter.lintMdxFrontmatter config fixed file = Some r'
           ∧ MdxLinter.LintResult.wrongOrder r' = false
           ∧ MdxLinter.LintResult.missing r' = MdxLinter.LintResult.missing r)
  ∧ (∀ file, docs !! file = None → fixed !! file = None)
  ∧ (∀ file doc, docs !! file = Some doc →
       ∃ doc', fixed !! file = Some doc'
               ∧ (∀ k, get k (data doc') = get k (data doc))
               ∧ (∀ k, k ∈ keys (data doc') ↔ k ∈ keys (data doc))
               ∧ (doc' = doc
                  ∨ doc' = normalized config doc
                    ∧ content doc' = newline (content doc)
                    ∧ file ∈ mdxFiles
                    ∧ ∃ r, MdxLinter.lintMdxFrontmatter config docs file = Some r
                           ∧ MdxLinter.LintResult.wrongOrder r = true)).
Proof.
  intros _ _ fixed.
  assert (fixed = rewritten config docs mdxFiles) as ->.
  { unfold fixed, MdxLinter.main. destruct mdxFiles as [|f l].
    - simpl. by rewrite rewritten_nil.
    - cbn [length Nat.eqb MdxLinter.documentsAfter]. unfold MdxLinter.validateAll.
      rewrite (mdx_fix_loop_documents config docs _ []); [done|].
      simpl. by rewrite rewritten_nil. }
  split; [|split].
  - intros file r Hin Hr.
    pose proof (mdx_wrongOrder config docs file) as Hw. rewrite Hr in Hw.
    destruct (docs !! file) as [doc|] eqn:Hdoc.
    2:{ unfold MdxLinter.lintMdxFrontmatter in Hr. by rewrite Hdoc in Hr. }
    pose proof (lookup_rewritten config docs mdxFiles file) as Hl.
    rewrite Hdoc, bool_decide_eq_true_2 in Hl by done. simpl in Hl. rewrite <- Hw in Hl.
    destruct (MdxLinter.LintResult.wrongOrder r) eqn:Hwr.
    + destruct (mdx_lint_normalized config docs _ file doc Hdoc Hl)
        as (r0 & r' & Hr0 & Hr' & ? & ? & _).
      rewrite Hr in Hr0. injection Hr0 as <-. by exists r'.
    + exists r. split; [|done]. rewrite <- Hr. apply mdx_lint_ext. by rewrite Hl, Hdoc.
  - intros file Hnone. by rewrite lookup_rewritten, Hnone.
  - intros file doc Hdoc. rewrite lookup_rewritten, Hdoc. simpl.
    destruct (bool_decide (file ∈ mdxFiles)) eqn:Hin; simpl.
    + apply bool_decide_eq_true in Hin.
      destruct (fileWrongOrder config docs file) eqn:Hw.
      * exists (normalized config doc). split; [done|].
        split; [apply get_sortedData|]. split; [apply keys_normalized|]. right.
        split; [done|]. split; [done|]. split; [done|].
        rewrite <- mdx_wrongOrder in Hw.
        destruct (MdxLinter.lintMdxFrontmatter config docs file) as [r|]; [|done].
        by exists r.
      * exists doc. repeat (split; [done|]). by left.
    + exists doc. repeat (split; [done|]). by left.
Qed.

Lemma mdx_fix_run_witness :
  ∃ doc', MdxLinter.documentsAfter
            (MdxLinter.main (path := NodePath.posix) MdxLinter.DEFAULT_CONFIG true
               {[ "content/blog/first.mdx" :=
                    {| data := [("date", JStr "2024-01-01"); ("title", JStr "T")];
                       content := "Hello" |} ]}
               ["content/blog/first.mdx"]) !! "content/blog/first.mdx" = Some doc'
          ∧ ∀ k, get k (data doc')
                 = get k [("date", JStr "2024-01-01"); ("title", JStr "T")].
Proof.
  destruct (mdx_fix_run (path := NodePath.posix) MdxLinter.DEFAULT_CONFIG
               {[ "content/blog/first.mdx" :=
                    {| data := [("date", JStr "2024-01-01"); ("title", JStr "T")];
                       content := "Hello" |} ]}
               ["content/blog/first.mdx"] (conj eq_refl eq_refl)) as (_ & _ & Hdocs).
  - intros file doc Hdoc. apply lookup_singleton_Some in Hdoc as [_ <-].
    split; reflexivity.
  - destruct (Hdocs "content/blog/first.mdx" _ (lookup_singleton_eq _ _))
      as (doc' & Hdoc' & Hget & _).
    exists doc'. split; [exact Hdoc'|exact Hget].
Defined.


(** ** The line that says all is well *)

(** two lines that differ within their literal beginnings *)
Ltac differs :=
  let H := fresh in intros H; vm_compute in H; discriminate H.

Section AllClear.
Context `{path : NodePath.Api}.

Lemma files_loop_clean config fixFlag files st :
  existsb (fileHasProblem config (ZennLinter.documents st)) files = false →
  fold_left (ZennLinter.visitFile config fixFlag) files st = st.
Proof.
  revert st. induction files as [|f files IH]; intros st Hno; simpl in *; [done|].
  apply orb_false_iff in Hno as [Hf Hfiles].
  rewrite visitFile_clean by done. by apply IH.
Qed.

Lemma count_line (n : nat) (rest : string) :
  nl +:+ string_of_nat n +:+ rest ≠ allClear.
Proof. unfold string_of_nat. destruct (Nat.to_uint n); differs. Qed.

Lemma visitFile_stdout config fixFlag st file :
  Forall (λ line, line ≠ allClear) (ZennLinter.stdout st) →
  Forall (λ line, line ≠ allClear)
    (ZennLinter.stdout (ZennLinter.visitFile config fixFlag st file)).
Proof.
  intros Hst. unfold ZennLinter.visitFile.
  destruct (Zenn.lintZennFrontmatter _ _ _) as [r|]; [|done].
  destruct (Zenn.documentHasProblem r); [|done].
  destruct (fixFlag && Zenn.LintResult.wrongOrder r); simpl.
  - unfold Zenn.sortFrontmatter. destruct (ZennLinter.documents st !! file); simpl.
    + apply Forall_app. split; [done|]. constructor; [differs|constructor].
    + by rewrite app_nil_r.
  - by rewrite app_nil_r.
Qed.

Lemma files_loop_stdout config fixFlag files st :
  Forall (λ line, line ≠ allClear) (ZennLinter.stdout st) →
  Forall (λ line, line ≠ allClear)
    (ZennLinter.stdout (fold_left (ZennLinter.visitFile config fixFlag) files st)).
Proof.
  revert st. induction files as [|f files IH]; intros st Hst; simpl; [done|].
  by apply IH, visitFile_stdout.
Qed.

Lemma reportDocument_lines config fixFlag (r : Zenn.LintResult.t) :
  Forall (λ line, line ≠ allClear) (Zenn.reportDocument config fixFlag r).
Proof.
  unfold Zenn.reportDocument.
  destruct (0 <? length _)%nat; destruct (Zenn.LintResult.wrongOrder r);
    destruct fixFlag; destruct (Zenn.LintResult.invalidSlug r); simpl;
    repeat (constructor; [differs|]); constructor.
Qed.

Lemma reportBook_lines (r : ZennLinter.BookConfigLintResult.t) :
  Forall (λ line, line ≠ allClear) (ZennLinter.reportBook r).
Proof.
  unfold ZennLinter.reportBook.
  destruct (ZennLinter.BookConfigLintResult.missingConfigFile r);
    destruct (0 <? length _)%nat;
    destruct (ZennLinter.BookConfigLintResult.invalidChapters r);
    destruct (ZennLinter.BookConfigLintResult.duplicateChapterSlug r); simpl;
    repeat (constructor; [differs|]); constructor.
Qed.

Lemma report_lines config fixFlag (st : ZennLinter.RunState) :
  ZennLinter.frontmatterResults st ≠ [] ∨ ZennLinter.bookConfigResults st ≠ [] →
  Forall (λ line, line ≠ allClear) (ZennLinter.report config fixFlag st).
Proof.
  intros Hshown. unfold ZennLinter.report.
  assert ((0 <? length (ZennLinter.frontmatterResults st))%nat
          || (0 <? length (ZennLinter.bookConfigResults st))%nat = true) as ->.
  { apply orb_true_iff. by rewrite !positive_length. }
  repeat (apply Forall_app; split).
  - destruct (0 <? length _)%nat; [|constructor].
    constructor; [apply count_line|].
    apply Forall_concat, Forall_forall. intros lines Hlines.
    apply list_elem_of_In, in_map_iff in Hlines as (r & <- & _).
    apply reportDocument_lines.
  - destruct (0 <? length _)%nat; [|constructor].
    constructor; [apply count_line|].
    apply Forall_concat, Forall_forall. intros lines Hlines.
    apply list_elem_of_In, in_map_iff in Hlines as (r & <- & _).
    apply reportBook_lines.
  - destruct fixFlag; simpl; [constructor|]. constructor; [differs|constructor].
Qed.

End AllClear.

(** X20.  When something was found to lint, the full linter prints the
    line that says all is well exactly when the run is not erroring; it is
    then the only line printed, the exit code is [0] and no document has
    been touched. *)
Theorem all_clear_line `{path : NodePath.Api} (config : LintConfig) (fixFlag : bool)
    (files : BookFiles) (docs : gmap string Document)
    (articleFiles chapterFiles bookDirs : list string) :
  articleFiles ++ chapterFiles ≠ [] ∨ bookDirs ≠ [] →
  let st := ZennLinter.validateAll config fixFlag files docs
              articleFiles chapterFiles bookDirs in
  let run := ZennLinter.runMainWithoutExit config fixFlag files docs
               articleFiles chapterFiles bookDirs in
  (allClear ∈ ZennLinter.output run ↔ ZennLinter.hasErrors st = false)
  ∧ (ZennLinter.hasErrors st = false →
       run = {| ZennLinter.output := [allClear];
                ZennLinter.exitCode := 0;
                ZennLinter.documentsAfter := docs |}).
Proof.
  intros Hfound st run.
  assert (run = {| ZennLinter.output :=
                     ZennLinter.stdout st ++ ZennLinter.report config fixFlag st;
                   ZennLinter.exitCode :=
                     if ZennLinter.hasErrors st && negb fixFlag then 1 else 0;
                   ZennLinter.documentsAfter := ZennLinter.documents st |}) as Hrun.
  { unfold run, ZennLinter.runMainWithoutExit.
    destruct (Nat.eqb _ 0 && Nat.eqb _ 0 && Nat.eqb _ 0) eqn:Hempty; [|done].
    apply andb_true_iff in Hempty as [[Ha Hc]%andb_true_iff Hb].
    apply Nat.eqb_eq in Ha, Hc, Hb. apply nil_length_inv in Ha, Hc, Hb.
    subst. naive_solver. }
  set (st0 := {| ZennLinter.hasErrors := false; ZennLinter.frontmatterResults := [];
                 ZennLinter.bookConfigResults := []; ZennLinter.documents := docs;
                 ZennLinter.stdout := [] |}).
  assert (ZennLinter.hasErrors st = false →
          run = {| ZennLinter.output := [allClear];
                   ZennLinter.exitCode := 0;
                   ZennLinter.documentsAfter := docs |}) as Hclean.
  { intros Hno. rewrite Hrun, Hno. simpl.
    pose proof Hno as Hno'. unfold st in Hno'. rewrite validateAll_hasErrors in Hno'.
    apply orb_false_iff in Hno' as [Hfiles Hbooks].
    assert (st = st0) as ->; [|done].
    unfold st, ZennLinter.validateAll. fold st0.
    rewrite (files_loop_clean config fixFlag _ st0) by done.
    destruct (books_loop config files bookDirs st0) as (He & Hb & Hf & Hd & Hs).
    assert (List.filter ZennLinter.bookHasProblem
              (map (ZennLinter.lintBookConfig config files) bookDirs) = []) as Hnil.
    { destruct (List.filter _ _) eqn:E; [done|].
      assert (List.filter ZennLinter.bookHasProblem
                (map (ZennLinter.lintBookConfig config files) bookDirs) ≠ []) as Hne
        by (by rewrite E).
      apply filter_nonempty in Hne. rewrite existsb_fmap in Hne. congruence. }
    rewrite Hnil in Hb. simpl in *.
    destruct (fold_left (ZennLinter.visitBook config files) bookDirs st0).
    simpl in *. rewrite Hbooks in He. by subst. }
  split; [|done]. split.
  - intros Hin. destruct (ZennLinter.hasErrors st) eqn:Herr; [|done]. exfalso.
    rewrite Hrun in Hin. simpl in Hin.
    assert (Forall (λ line, line ≠ allClear)
              (ZennLinter.stdout st ++ ZennLinter.report config fixFlag st)) as Hall.
    { apply Forall_app. split.
      - unfold st, ZennLinter.validateAll. fold st0.
        destruct (books_loop config files bookDirs
                    (fold_left (ZennLinter.visitFile config fixFlag)
                       (articleFiles ++ chapterFiles) st0)) as (_ & _ & _ & _ & ->).
        by apply files_loop_stdout.
      - apply report_lines.
        unfold st. rewrite validateAll_frontmatterResults, validateAll_books.
        rewrite filter_nonempty, existsb_fmap.
        unfold st in Herr. rewrite validateAll_hasErrors in Herr.
        by apply orb_true_iff in Herr. }
    rewrite Forall_forall in Hall. by apply (Hall allClear).
  - intros Hno. rewrite (Hclean Hno). simpl. left.
Qed.

Lemma all_clear_line_witness :
  ZennLinter.runMainWithoutExit (path := NodePath.posix) Zenn.DEFAULT_CONFIG false
    {| configYaml := λ _, NoConfigFile; readdirSync := λ _, [] |}
    {[ "books/guide/1.intro.md" := {| data := [("title", JStr "T")]; content := "" |} ]}
    [] ["books/guide/1.intro.md"] []
  = {| ZennLinter.output := [allClear];
       ZennLinter.exitCode := 0;
       ZennLinter.documentsAfter :=
         {[ "books/guide/1.intro.md" :=
              {| data := [("title", JStr "T")]; content := "" |} ]} |}.
Proof.
  apply (all_clear_line (path := NodePath.posix) Zenn.DEFAULT_CONFIG false
    {| configYaml := λ _, NoConfigFile; readdirSync := λ _, [] |}
    {[ "books/guide/1.intro.md" := {| data := [("title", JStr "T")]; content := "" |} ]}
    [] ["books/guide/1.intro.md"] []).
  - by left.
  - reflexivity.
Defined.
